(** * Minify.js: the static-asset handler of etherpad-lite

    A shallow embedding of [src/node/utils/Minify.js]: path confinement and
    plugin/library rewriting, the freshness stat with its parent-directory
    fallback, the aggregate time stamp of [js/ace.js], content assembly with
    loop-back fetches, best-effort compression, and the request handler
    [minify] run against the in-process response object of [requestURI].

    Conventions.
    - A JavaScript string is a [string]; a character stands for a code unit
      below 256, so the only line terminators are LF and CR.  The bytes of a
      [Buffer] are a [string] too, and [toString] on it is the identity
      (file contents are taken to be text).
    - A [Date] is its time value in milliseconds, a [Z], taken to be within
      the range of [Date]; an invalid date is [None].
    - An [async] function is a computation in the monad [M]: it records the
      file-system, worker and console effects it performs, in order, and
      ends in a value, a thrown exception, or never settles.  The file
      system does not change during a request.
    - [Promise.all] over a list is run in list order.  The callbacks share
      no state but the objects this file threads explicitly, so this is one
      of the completion orders the event loop can produce.
    - An object used as a map ([headers], [plugins.plugins]) is a [gmap] of
      its own properties.
    - Node's [path] module is modelled in its POSIX variant; [mime.lookup],
      [new URL], [Date] parsing and printing, the clock, the settings, the
      file system and the two workers are fields of the record [Env]. *)

From Stdlib Require Import ZArith Ascii.
From stdpp Require Import base option list strings gmap pretty.

Local Open Scope Z_scope.

(** ** Strings *)

Module Str.

Definition eqb (a b : string) : bool := String.eqb a b.

(** [s.indexOf(p) === 0] *)
Fixpoint startsWith (p s : string) : bool :=
  match p, s with
  | EmptyString, _ => true
  | String a p', String b s' => if Ascii.eqb a b then startsWith p' s' else false
  | String _ _, EmptyString => false
  end.

(** [s.slice(n)] *)
Fixpoint slice_from (n : nat) (s : string) : string :=
  match n, s with
  | O, _ => s
  | S n', String _ s' => slice_from n' s'
  | S _, EmptyString => EmptyString
  end.

(** [s.replace(/\.\./g, '')]: every match of two dots, found left to
    right without overlap, is deleted. *)
Fixpoint strip_dotdot (s : string) : string :=
  match s with
  | String "." (String "." r) => strip_dotdot r
  | String c r => String c (strip_dotdot r)
  | EmptyString => EmptyString
  end.

(** [s.replace(/\\/g, '/')] *)
Fixpoint backslash_to_slash (s : string) : string :=
  match s with
  | String c r =>
      String (if Ascii.eqb c "092" then "/"%char else c) (backslash_to_slash r)
  | EmptyString => EmptyString
  end.

(** [s.replace(/^\/static\//, '')] *)
Definition strip_static (s : string) : string :=
  if startsWith "/static/" s then slice_from 8 s else s.

(** [s.split('/')] *)
Fixpoint split_slash (s : string) : list string :=
  match s with
  | EmptyString => [EmptyString]
  | String c r =>
      if Ascii.eqb c "/" then EmptyString :: split_slash r
      else match split_slash r with
           | x :: xs => String c x :: xs
           | [] => [String c EmptyString]
           end
  end.

(** [l.join('/')] *)
Fixpoint join_slash (l : list string) : string :=
  match l with
  | [] => ""
  | [x] => x
  | x :: rest => x +:+ "/" +:+ join_slash rest
  end.

(** [l.join('')] *)
Fixpoint concat (l : list string) : string :=
  match l with
  | [] => ""
  | x :: rest => x +:+ concat rest
  end.

Definition last_char (s : string) : option ascii :=
  match String.rev s with
  | String c _ => Some c
  | EmptyString => None
  end.

Definition endsWithSlash (s : string) : bool :=
  match last_char s with
  | Some c => Ascii.eqb c "/"
  | None => false
  end.

Definition upper_to_lower (c : ascii) : ascii :=
  let n := nat_of_ascii c in
  if (Nat.leb 65 n && Nat.leb n 90)%bool then ascii_of_nat (n + 32) else c.

(** [s.toLowerCase()] on code units below 128 *)
Fixpoint toLowerCase (s : string) : string :=
  match s with
  | String c r => String (upper_to_lower c) (toLowerCase r)
  | EmptyString => EmptyString
  end.

(** The characters [.] does not match in a regular expression without
    the [s] flag. *)
Definition is_line_terminator (c : ascii) : bool :=
  (Ascii.eqb c "010" || Ascii.eqb c "013")%bool.

Fixpoint has_line_terminator (s : string) : bool :=
  match s with
  | String c r => (is_line_terminator c || has_line_terminator r)%bool
  | EmptyString => false
  end.

(** The longest prefix without a slash, and what follows it. *)
Fixpoint span_no_slash (s : string) : string * string :=
  match s with
  | String c r =>
      if Ascii.eqb c "/" then (EmptyString, s)
      else let '(a, b) := span_no_slash r in (String c a, b)
  | EmptyString => (EmptyString, EmptyString)
  end.

Fixpoint contains_slash (s : string) : bool :=
  match s with
  | String c r => (Ascii.eqb c "/" || contains_slash r)%bool
  | EmptyString => false
  end.

End Str.

(** ** Node's [path] module (POSIX) *)

Module Path.

(** [normalizeString]: empty and [.] segments are dropped, a [..] segment
    removes the segment before it unless there is none or it is [..]
    itself; then it is kept only when [allowAboveRoot].  [stack] is the
    result so far, last segment first. *)
Fixpoint normalize_segments (allowAboveRoot : bool) (stack segs : list string)
  : list string :=
  match segs with
  | [] => rev stack
  | seg :: rest =>
      if (Str.eqb seg "" || Str.eqb seg ".")%bool then
        normalize_segments allowAboveRoot stack rest
      else if Str.eqb seg ".." then
        match stack with
        | top :: below =>
            if Str.eqb top ".." then
              normalize_segments allowAboveRoot
                (if allowAboveRoot then ".." :: stack else stack) rest
            else normalize_segments allowAboveRoot below rest
        | [] =>
            normalize_segments allowAboveRoot
              (if allowAboveRoot then [".."] else []) rest
        end
      else normalize_segments allowAboveRoot (seg :: stack) rest
  end.

Definition normalizeString (path : string) (allowAboveRoot : bool) : string :=
  Str.join_slash (normalize_segments allowAboveRoot [] (Str.split_slash path)).

Definition isAbsolute (path : string) : bool := Str.startsWith "/" path.

Definition normalize (path : string) : string :=
  if Str.eqb path "" then "."
  else
    let absolute := isAbsolute path in
    let trailingSeparator := Str.endsWithSlash path in
    let p := normalizeString path (negb absolute) in
    if Str.eqb p "" then
      if absolute then "/" else if trailingSeparator then "./" else "."
    else
      let p := if trailingSeparator then p +:+ "/" else p in
      if absolute then "/" +:+ p else p.

(** [path.join(a, b)] *)
Definition join (a b : string) : string :=
  if Str.eqb a "" then (if Str.eqb b "" then "." else normalize b)
  else if Str.eqb b "" then normalize a
  else normalize (a +:+ "/" +:+ b).

(** [path.resolve(p)], with the working directory of the process *)
Definition resolve (cwd p : string) : string :=
  let resolvedPath :=
    if Str.eqb p "" then cwd +:+ "/"
    else if isAbsolute p then p +:+ "/"
    else cwd +:+ "/" +:+ p +:+ "/" in
  let absolute := isAbsolute resolvedPath in
  let r := normalizeString resolvedPath (negb absolute) in
  if absolute then "/" +:+ r
  else if Str.eqb r "" then "." else r.

Fixpoint drop_common (a b : list string) : list string * list string :=
  match a, b with
  | x :: a', y :: b' => if Str.eqb x y then drop_common a' b' else (a, b)
  | _, _ => (a, b)
  end.

Definition segments_of (resolved : string) : list string :=
  filter (λ s, s ≠ "") (Str.split_slash resolved).

(** [path.relative(from, to)]: one [..] for every segment of [from] below
    the common ancestor, then the segments of [to] below it. *)
Definition relative (cwd from to : string) : string :=
  if Str.eqb from to then ""
  else
    let from := resolve cwd from in
    let to := resolve cwd to in
    if Str.eqb from to then ""
    else
      let '(f, t) := drop_common (segments_of from) (segments_of to) in
      Str.join_slash (((λ _, "..") <$> f) ++ t).

Fixpoint drop_while_slash (s : string) : string :=
  match s with
  | String c r => if Ascii.eqb c "/" then drop_while_slash r else s
  | EmptyString => EmptyString
  end.

Fixpoint drop_while_not_slash (s : string) : string :=
  match s with
  | String c r => if Ascii.eqb c "/" then s else drop_while_not_slash r
  | EmptyString => EmptyString
  end.

(** [path.dirname(p)]: scanning [p] from its end down to index 1, skip the
    trailing slashes, then a run of other characters; the slash found
    there ends the result. *)
Definition dirname (path : string) : string :=
  match path with
  | EmptyString => "."
  | String c0 tl =>
      let hasRoot := Ascii.eqb c0 "/" in
      match drop_while_not_slash (drop_while_slash (String.rev tl)) with
      | EmptyString => if hasRoot then "/" else "."
      | String _ before =>
          if (hasRoot && Str.eqb before "")%bool then "//"
          else String c0 (String.rev before)
      end
  end.

End Path.


(** ** JSON text of a string *)

Module Json.

Definition hex_digit (n : nat) : ascii :=
  match n with
  | 0 => "0" | 1 => "1" | 2 => "2" | 3 => "3" | 4 => "4" | 5 => "5"
  | 6 => "6" | 7 => "7" | 8 => "8" | 9 => "9" | 10 => "a" | 11 => "b"
  | 12 => "c" | 13 => "d" | 14 => "e" | _ => "f"
  end%char%nat.

(** The escape [JSON.stringify] writes for one character. *)
Definition escape (c : ascii) : string :=
  let n := nat_of_ascii c in
  if Ascii.eqb c "034" then String "092" (String "034" "")
  else if Ascii.eqb c "092" then String "092" (String "092" "")
  else if Nat.eqb n 8 then String "092" "b"
  else if Nat.eqb n 9 then String "092" "t"
  else if Nat.eqb n 10 then String "092" "n"
  else if Nat.eqb n 12 then String "092" "f"
  else if Nat.eqb n 13 then String "092" "r"
  else if Nat.ltb n 32 then
    String "092"
      ("u00" +:+ String (hex_digit (n / 16)) (String (hex_digit (n mod 16)) ""))
  else String c "".

Fixpoint escape_all (s : string) : string :=
  match s with
  | String c r => escape c +:+ escape_all r
  | EmptyString => EmptyString
  end.

(** [JSON.stringify(s)] for a string [s] *)
Definition stringify (s : string) : string :=
  String "034" (escape_all s) +:+ String "034" "".

(** [JSON.stringify(v)] for [v] a string or [null] *)
Definition stringify_or_null (v : option string) : string :=
  match v with
  | Some s => stringify s
  | None => "null"
  end.

End Json.

(** ** Effects of an [async] function *)

(** A thrown value: a file-system error with its [code], or a [TypeError]. *)
Inductive exn : Type :=
| FsError (code : string)
| TypeError (msg : string).

(** [err.code] *)
Definition exn_code (e : exn) : option string :=
  match e with
  | FsError c => Some c
  | TypeError _ => None
  end.

Inductive event : Type :=
| EvStat (path : string)
| EvReaddir (path : string)
| EvReadFile (path : string)
| EvCompressJS (content : string)
| EvCompressCSS (filename root : string)
| EvLoggerInfo (msg : string)
| EvConsoleError (msg : string).

Inductive outcome (A : Type) : Type :=
| Val (a : A)
| Throw (e : exn)
| Pending.
Arguments Val {A} a.
Arguments Throw {A} e.
Arguments Pending {A}.

Definition M (A : Type) : Type := (list event * outcome A)%type.

Definition ret {A} (a : A) : M A := ([], Val a).
Definition throw {A} (e : exn) : M A := ([], Throw e).
Definition pending {A} : M A := ([], Pending).
Definition emit (ev : event) : M unit := ([ev], Val tt).

Definition bind {A B} (m : M A) (k : A → M B) : M B :=
  match m with
  | (tr, Val a) => let '(tr', r) := k a in (tr ++ tr', r)
  | (tr, Throw e) => (tr, Throw e)
  | (tr, Pending) => (tr, Pending)
  end.

(** [try { v = await m } catch (err) { ... }]: the exception becomes a value. *)
Definition try_ {A} (m : M A) : M (A + exn) :=
  match m with
  | (tr, Val a) => (tr, Val (inl a))
  | (tr, Throw e) => (tr, Val (inr e))
  | (tr, Pending) => (tr, Pending)
  end.

Definition trace {A} (m : M A) : list event := fst m.
Definition result {A} (m : M A) : outcome A := snd m.

(** The value a computation ends in, if it does. *)
Definition result_value {A} (m : M A) : option A :=
  match result m with
  | Val a => Some a
  | _ => None
  end.

Notation "'let*' x ':=' m 'in' k" := (bind m (λ x, k))
  (at level 10, x pattern, m at level 100, k at level 200).
Notation "m ';;' k" := (bind m (λ _, k))
  (at level 100, k at level 200, right associativity).

Fixpoint foldM {A B} (f : A → B → M A) (a : A) (l : list B) : M A :=
  match l with
  | [] => ret a
  | x :: rest => let* a' := f a x in foldM f a' rest
  end.

(** ** The world around the module *)

Record Stats : Type := { mtime : Z; isFile : bool }.

(** An entry of [plugins.plugins]: [plugin.package.realPath]. *)
Record Plugin : Type := { realPath : string }.

(** What a worker's [compressJS] resolves to. *)
Record CompressResult : Type := { error : bool; code : option string }.

(** What is read from a file is a [Buffer]; generated and compressed text is
    a string.  A [Buffer] is always truthy, a string only when not empty. *)
Inductive content : Type :=
| Buffer (bytes : string)
| Text (s : string).

Definition toString (c : content) : string :=
  match c with
  | Buffer b => b
  | Text s => s
  end.

Definition truthy (c : content) : bool :=
  match c with
  | Buffer _ => true
  | Text s => negb (Str.eqb s "")
  end.

Abbreviation Headers := (gmap string string).

Record Env : Type := {
  (** [__dirname] of the module and [process.cwd()] *)
  module_dirname : string;
  cwd : string;
  (** [fs.promises]: a failure carries the error code *)
  fs_stat : string → Stats + string;
  fs_readdir : string → list string + string;
  fs_readFile : string → string + string;
  (** [settings.minify], [settings.maxAge] *)
  settings_minify : bool;
  settings_maxAge : option Z;
  (** [plugins.plugins] *)
  plugins : gmap string Plugin;
  (** [RequireKernel.kernelSource] *)
  kernelSource : string;
  (** the workers' [compressJS] and [compressCSS]; [None] when they throw *)
  compressJS : string → option CompressResult;
  compressCSS : string → string → option string;
  (** [mime.lookup]; [None] for its [false] *)
  mime_lookup : string → option string;
  (** [new Date()] at module load, [Date.now()] during the request *)
  loadTime : Z;
  now : Z;
  (** the time value of [new Date(s)], and [d.toUTCString()] *)
  Date_parse : string → option Z;
  toUTCString : Z → string;
  (** [pathname + search] of [new URL(url)]; [None] when it throws *)
  URL_pathname_search : string → option string
}.

(** The request as [minify] reads it; its [headers] are the object held in
    the response below. *)
Record Request : Type := {
  req_url : string;
  req_method : string;
  req_filename : string
}.

(** The state behind [mockResponse]: the variables [status], [headers] and
    [content] of [requestURI], and what the promise was resolved with.
    [headers] is the object the caller passed in: the request reads it and
    the response writes into it. *)
Record Response : Type := {
  status : Z;
  headers : Headers;
  chunks : list content;
  resolved : option (Z * string)
}.

Definition writeHead (_status : Z) (_headers : Headers) (res : Response) : Response :=
  {| status := _status;
     headers := _headers ∪ headers res;
     chunks := chunks res;
     resolved := resolved res |}.

Definition setHeader (header value : string) (res : Response) : Response :=
  {| status := status res;
     headers := <[Str.toLowerCase header := value]> (headers res);
     chunks := chunks res;
     resolved := resolved res |}.

Definition push_chunk (_content : option content) (res : Response) : Response :=
  match _content with
  | Some c =>
      if truthy c then
        {| status := status res; headers := headers res;
           chunks := chunks res ++ [c]; resolved := resolved res |}
      else res
  | None => res
  end.

Definition write (_content : content) (res : Response) : Response :=
  push_chunk (Some _content) res.

(** [end(_content)]; a promise keeps the first value it is resolved with. *)
Definition end_ (_content : option content) (res : Response) : Response :=
  let res := push_chunk _content res in
  {| status := status res; headers := headers res; chunks := chunks res;
     resolved :=
       match resolved res with
       | Some r => Some r
       | None => Some (status res, Str.concat (toString <$> chunks res))
       end |}.

(** The response of [requestURI] before the handler runs. *)
Definition mockResponse (headers0 : Headers) : Response :=
  {| status := 500; headers := headers0; chunks := []; resolved := None |}.

Definition nl : string := String "010" "".

Definition LIBRARY_WHITELIST : list string :=
  ["async"; "js-cookie"; "security"; "tinycon"; "underscore"; "unorm"].

(** [l.indexOf(x) !== -1] *)
Definition includes (x : string) (l : list string) : bool :=
  existsb (Str.eqb x) l.

(** [filename.match(...)] with the pattern for [plugins/<library><path>]:
    the groups 1, 2 and 3 of the match.  Group 1 is the longest run without
    a slash after [plugins/] and is not empty; what follows it up to the end
    is group 2: nothing, or a slash and a text without line terminator.
    That text is group 3 when it starts with [static/]. *)
Definition match_plugins (filename : string)
  : option (string * option string * option string) :=
  if Str.startsWith "plugins/" filename then
    let '(library, rest) := Str.span_no_slash (Str.slice_from 8 filename) in
    if Str.eqb library "" then None
    else
      match rest with
      | EmptyString => Some (library, None, None)
      | String _ r =>
          if Str.has_line_terminator r then None
          else Some (library, Some rest,
                     if Str.startsWith "static/" r then Some r else None)
      end
  else None.

(** [latestModification] after the test of line 267 on one [mtime]: it is
    replaced when it is [null] or earlier. *)
Definition later (latestModification : option Z) (mtime : Z) : option Z :=
  match latestModification with
  | None => Some mtime
  | Some latest => if Z.ltb latest mtime then Some mtime else latestModification
  end.

(** The time value after [date.setMilliseconds(0)]. *)
Definition setMilliseconds0 (t : Z) : Z := t - t mod 1000.

(** [a >= b] for [a] a [Date] and [b] a [Date] or [null] *)
Definition date_ge (a : option Z) (b : option Z) : bool :=
  match a with
  | None => false
  | Some x => Z.leb (default 0 b) x
  end.

(** [contentType.toString()] *)
Definition contentType_toString (ct : option string) : string :=
  default "false" ct.

Definition is_ident_char (c : ascii) : bool :=
  let n := nat_of_ascii c in
  ((Nat.leb 65 n && Nat.leb n 90) || (Nat.leb 97 n && Nat.leb n 122)
   || Nat.eqb n 95)%bool.

Definition is_quote (c : ascii) : bool :=
  (Ascii.eqb c "039" || Ascii.eqb c "034")%bool.

Fixpoint span_ident (s : string) : nat * string :=
  match s with
  | String c r =>
      if is_ident_char c then let '(n, t) := span_ident r in (S n, t)
      else (O, s)
  | EmptyString => (O, EmptyString)
  end.

Fixpoint span_no_quote (s : string) : string * string :=
  match s with
  | String c r =>
      if is_quote c then (EmptyString, s)
      else let '(a, b) := span_no_quote r in (String c a, b)
  | EmptyString => (EmptyString, EmptyString)
  end.

Fixpoint take_lower (n : nat) (s : string) : string :=
  match n, s with
  | S n', String c r => String (Str.upper_to_lower c) (take_lower n' r)
  | _, _ => EmptyString
  end.

(** One match of the embed directive at the start of [s]: the text
    [$$INCLUDE_] in either case, one or more ASCII letters or underscores, an
    opening parenthesis, a single or double quote, the longest run free of
    both quotes (group 2), the same quote again and a closing parenthesis.
    The result is group 2 and the length of the match. *)
Definition match_include (s : string) : option (string * nat) :=
  if Str.eqb (take_lower 10 s) "$$include_" then
    match span_ident (Str.slice_from 10 s) with
    | (S n, String "(" (String q r)) =>
        if is_quote q then
          match span_no_quote r with
          | (path, String q' (String ")" _)) =>
              if Ascii.eqb q q'
              then Some (path, (10 + S n + 2 + String.length path + 2)%nat)
              else None
          | _ => None
          end
        else None
    | _ => None
    end
  else None.

(** The loop over [regex.exec(data)] with the [g] flag: the matches from
    left to right, each search starting where the last match ended.
    [skip] counts the characters of the last match still to pass. *)
Fixpoint include_directives_from (skip : nat) (data : string) : list string :=
  match data with
  | EmptyString => []
  | String _ r =>
      match skip with
      | S k => include_directives_from k r
      | O =>
          match match_include data with
          | Some (path, len) => path :: include_directives_from (len - 1) r
          | None => include_directives_from O r
          end
      end
  end.

Definition include_directives (data : string) : list string :=
  include_directives_from O data.

(** ** The module *)

Section Minify.

Context (env : Env).

Definition ROOT_DIR : string :=
  Path.normalize (module_dirname env +:+ "/../../static/").

(** *** File system, workers and console, as effects *)

Definition of_fs {A} (r : A + string) : outcome A :=
  match r with
  | inl a => Val a
  | inr c => Throw (FsError c)
  end.

Definition stat (path : string) : M Stats :=
  ([EvStat path], of_fs (fs_stat env path)).

Definition readdir (path : string) : M (list string) :=
  ([EvReaddir path], of_fs (fs_readdir env path)).

Definition readFile (path : string) : M string :=
  ([EvReadFile path], of_fs (fs_readFile env path)).

Definition worker_compressJS (text : string) : M CompressResult :=
  ([EvCompressJS text],
   match compressJS env text with
   | Some r => Val r
   | None => Throw (TypeError "compressJS")
   end).

Definition worker_compressCSS (filename root : string) : M string :=
  ([EvCompressCSS filename root],
   match compressCSS env filename root with
   | Some r => Val r
   | None => Throw (TypeError "compressCSS")
   end).

(** *** Path confinement and rewriting (the head of [minify]) *)

(** Lines 104 to 114: the path below [ROOT_DIR], or [None] for the 404. *)
Definition confine (filename : string) : option string :=
  let filename := Path.normalize (Path.join ROOT_DIR filename) in
  let filename := Str.strip_dotdot filename in
  if Str.startsWith ROOT_DIR filename then
    let filename := Str.slice_from (String.length ROOT_DIR) filename in
    Some (Str.backslash_to_slash filename)
  else None.

(** Lines 121 to 137: static files of plugins and libraries. *)
Definition rewrite_plugins (filename : string) : string :=
  match match_plugins filename with
  | Some (library, m2, m3) =>
      let libraryPath := default "" m2 in
      match plugins env !! library, m3 with
      | Some plugin, Some _ =>
          let pluginPath := realPath plugin in
          Str.backslash_to_slash
            (Path.relative (cwd env) ROOT_DIR (pluginPath +:+ libraryPath))
      | _, _ =>
          if includes library LIBRARY_WHITELIST
          then "../node_modules/" +:+ library +:+ libraryPath
          else filename
      end
  | None => filename
  end.

Definition resolve (filename : string) : option string :=
  rewrite_plugins <$> confine filename.

(** *** [lastModifiedDateOfEverything] *)

Definition folders2check : list string :=
  [ROOT_DIR +:+ "js/"; ROOT_DIR +:+ "css/"].

(** The body of the inner callback: stat one entry and keep the later
    time. *)
Definition check_entry (path : string) (latestModification : option Z)
    (filename : string) : M (option Z) :=
  let* stats := stat (path +:+ "/" +:+ filename) in
  ret (later latestModification (mtime stats)).

(** The body of the outer callback: the entries of one folder and the
    folder itself. *)
Definition check_folder (latestModification : option Z) (path : string)
  : M (option Z) :=
  let* files := readdir path in
  let files := files ++ ["."] in
  foldM (check_entry path) latestModification files.

Definition lastModifiedDateOfEverything : M (option Z) :=
  foldM check_folder None folders2check.

(** *** [statFile] *)

(** [dirStatLimit] is a natural number: the one outside call passes 3
    and the function only ever subtracts one. *)
Fixpoint statFile (filename : string) (dirStatLimit : nat)
  : M (option Z * bool) :=
  match dirStatLimit with
  | O => ret (None, false)
  | S limit' =>
      if (Str.eqb filename "" || Str.eqb filename "/")%bool then
        ret (None, false)
      else if Str.eqb filename "js/ace.js" then
        let* d := lastModifiedDateOfEverything in ret (d, true)
      else if Str.eqb filename "js/require-kernel.js" then
        ret (Some (loadTime env), true)
      else
        let* r := try_ (stat (ROOT_DIR +:+ filename)) in
        match r with
        | inr err =>
            if bool_decide (exn_code err = Some "ENOENT") then
              let* (date, _) := statFile (Path.dirname filename) limit' in
              ret (date, false)
            else throw err
        | inl stats => ret (Some (mtime stats), isFile stats)
        end
  end.

(** *** Content *)

Definition requireDefinition : string :=
  "var require = " +:+ kernelSource env +:+ ";" +:+ nl.

Section Loopback.

(** [requestURI] one level of loop-back further in. *)
Context (loopback : string → string → Headers → M (Z * Headers * string)).

(** The body of the callback of [getAceFile]: fetch one referenced
    file and append its assignment to [data]. *)
Definition embed (data : string) (filename : string) : M string :=
  let baseURI := "http://invalid.invalid" in
  let resourceURI := baseURI +:+ Path.normalize (Path.join "/static/" filename) in
  let resourceURI := Str.backslash_to_slash resourceURI in
  let* (status, _, body) := loopback resourceURI "GET" ∅ in
  let error := negb (Z.eqb status 200 || Z.eqb status 404) in
  if negb error then
    ret (data +:+ "Ace2Editor.EMBEDED[" +:+ Json.stringify filename +:+ "] = "
         +:+ Json.stringify_or_null
               (if Z.eqb status 200 then Some body else None)
         +:+ ";" +:+ nl)
  else
    emit (EvConsoleError ("getAceFile(): error getting " +:+ resourceURI
                          +:+ ". Status code: " +:+ pretty status));;
    ret data.

Definition getAceFile : M string :=
  let* data := readFile (ROOT_DIR +:+ "js/ace.js") in
  let filenames :=
    (if settings_minify env then include_directives data else [])
    ++ ["../static/js/require-kernel.js"] in
  let data := data +:+ ";" +:+ nl in
  let data := data +:+ "Ace2Editor.EMBEDED = Ace2Editor.EMBEDED || {};" +:+ nl in
  foldM embed data filenames.

Definition getFile (filename : string) : M content :=
  if Str.eqb filename "js/ace.js" then
    let* data := getAceFile in ret (Text data)
  else if Str.eqb filename "js/require-kernel.js" then
    ret (Text requireDefinition)
  else
    let* bytes := readFile (ROOT_DIR +:+ filename) in ret (Buffer bytes).

(** The task queued for a script: whatever goes wrong, the promise is
    resolved with [content]. *)
Definition compress_script (filename : string) (contentType : option string)
    (content0 : content) : M content :=
  emit (EvLoggerInfo ("Compress JS file " +:+ filename +:+ "."));;
  let text := toString content0 in
  let* r := try_ (worker_compressJS text) in
  match r with
  | inl compressResult =>
      if error compressResult then
        emit (EvConsoleError ("Error compressing JS (" +:+ filename
                              +:+ ") using terser"));;
        ret (Text text)
      else
        match code compressResult with
        | Some c => ret (Text c)
        | None =>
            emit (EvConsoleError
                    ("getFile() returned an error in getFileCompressed("
                     +:+ filename +:+ ", "
                     +:+ contentType_toString contentType +:+ ")"));;
            ret (Text text)
        end
  | inr _ =>
      emit (EvConsoleError
              ("getFile() returned an error in getFileCompressed("
               +:+ filename +:+ ", "
               +:+ contentType_toString contentType +:+ ")"));;
      ret (Text text)
  end.

(** The task queued for a style sheet. *)
Definition compress_style (filename : string) (content0 : content)
  : M content :=
  emit (EvLoggerInfo ("Compress CSS file " +:+ filename +:+ "."));;
  let* r := try_ (worker_compressCSS filename ROOT_DIR) in
  match r with
  | inl css => ret (Text css)
  | inr _ =>
      emit (EvConsoleError
              ("CleanCSS.minify() returned an error on " +:+ filename));;
      ret content0
  end.

Definition getFileCompressed (filename : string) (contentType : option string)
  : M content :=
  let* content0 := getFile filename in
  if (negb (truthy content0) || negb (settings_minify env))%bool then
    ret content0
  else if bool_decide (contentType = Some "application/javascript") then
    compress_script filename contentType content0
  else if bool_decide (contentType = Some "text/css") then
    compress_style filename content0
  else ret content0.

(** *** The handler *)

(** Lines 142 to 151: the freshness headers, set when a date was found. *)
Definition freshness_headers (date : option Z) (res : Response) : Response :=
  match date with
  | Some d =>
      let res := setHeader "last-modified" (toUTCString env (setMilliseconds0 d)) res in
      let res := setHeader "date" (toUTCString env (now env)) res in
      match settings_maxAge env with
      | Some maxAge =>
          let expiresDate := now env + maxAge * 1000 in
          let res := setHeader "expires" (toUTCString env expiresDate) res in
          setHeader "cache-control" ("max-age=" +:+ pretty maxAge) res
      | None => res
      end
  | None => res
  end.

(** Lines 139 to 172: stat, freshness headers, and the answer. *)
Definition respond (filename : string) (req : Request) (res : Response)
  : M Response :=
  let contentType := mime_lookup env filename in
  let* (date, exists_) := statFile filename 3 in
  let res := freshness_headers date res in
  let date := setMilliseconds0 <$> date in
  if negb exists_ then
    ret (end_ None (writeHead 404 ∅ res))
  else if date_ge (headers res !! "if-modified-since" ≫= Date_parse env) date then
    ret (end_ None (writeHead 304 ∅ res))
  else if Str.eqb (req_method req) "HEAD" then
    let res := setHeader "Content-Type" (contentType_toString contentType) res in
    ret (end_ None (writeHead 200 ∅ res))
  else if Str.eqb (req_method req) "GET" then
    let* content := getFileCompressed filename contentType in
    let res := setHeader "Content-Type" (contentType_toString contentType) res in
    let res := writeHead 200 ∅ res in
    let res := write content res in
    ret (end_ None res)
  else
    ret (end_ None (writeHead 405 {["allow" := "HEAD, GET"]} res)).

Definition minify (req : Request) (res : Response) : M Response :=
  match confine (req_filename req) with
  | None => ret (end_ None (writeHead 404 ∅ res))
  | Some filename => respond (rewrite_plugins filename) req res
  end.

(** [requestURI]: the response starts at status 500 with the caller's
    [headers] object; the promise settles with what [end] captured and
    with that object. *)
Definition requestURI_via (url method : string) (headers0 : Headers)
  : M (Z * Headers * string) :=
  match URL_pathname_search env url with
  | None => throw (TypeError "Invalid URL")
  | Some pathname_search =>
      let mockRequest :=
        {| req_url := url; req_method := method;
           req_filename := Str.strip_static pathname_search |} in
      let* res := minify mockRequest (mockResponse headers0) in
      match resolved res with
      | Some (st, body) => ret (st, headers res, body)
      | None => pending
      end
  end.

End Loopback.

(** [requestURI] with [depth] levels of loop-back available below it: the
    aggregate file fetches its parts through [requestURI] again, and a
    fetch that would need more levels than [depth] never settles. *)
Fixpoint requestURI (depth : nat) (url method : string) (headers0 : Headers)
  : M (Z * Headers * string) :=
  match depth with
  | O => requestURI_via (λ _ _ _, pending) url method headers0
  | S d => requestURI_via (requestURI d) url method headers0
  end.

(** The loop-back a handler at [depth] calls. *)
Definition below (depth : nat) : string → string → Headers → M (Z * Headers * string) :=
  match depth with
  | O => λ _ _ _, pending
  | S d => requestURI d
  end.

(** The fetches of [requestURIs] one after the other on the one [headers]
    object: status and body of each, and the object at the end. *)
Fixpoint fetch_all (depth : nat) (locations : list string) (method : string)
    (headers0 : Headers) : M (list (Z * string) * Headers) :=
  match locations with
  | [] => ret ([], headers0)
  | loc :: rest =>
      let* (st, h, body) := requestURI depth loc method headers0 in
      let* (responses, h') := fetch_all depth rest method h in
      ret ((st, body) :: responses, h')
  end.

(** [requestURIs]: the three lists handed to [callback].  Every [x[1]] is
    the caller's [headers] object, read when the callback runs. *)
Definition requestURIs (depth : nat) (locations : list string) (method : string)
    (headers0 : Headers) : M (list Z * list Headers * list string) :=
  let* (responses, h) := fetch_all depth locations method headers0 in
  let statuss := fst <$> responses in
  let headerss := (λ _, h) <$> responses in
  let contentss := snd <$> responses in
  ret (statuss, headerss, contentss).

(** [exports.minify]: a rejection goes to [next]. *)
Inductive handled : Type :=
| Responded (res : Response)
| Next (err : exn)
| Unsettled.

Definition exports_minify (depth : nat) (req : Request) (res : Response)
  : list event * handled :=
  match minify (below depth) req res with
  | (tr, Val res') => (tr, Responded res')
  | (tr, Throw e) => (tr, Next e)
  | (tr, Pending) => (tr, Unsettled)
  end.

End Minify.

(** ** A sample world

    A small installation used by the examples below: HTTP dates as
    [toUTCString] prints them, a file table, two workers and one plugin. *)

Module HttpDate.

Definition pad2 (n : Z) : string :=
  if Z.ltb n 10 then "0" +:+ pretty n else pretty n.

Definition pad4 (n : Z) : string :=
  if Z.ltb n 10 then "000" +:+ pretty n
  else if Z.ltb n 100 then "00" +:+ pretty n
  else if Z.ltb n 1000 then "0" +:+ pretty n
  else pretty n.

Definition day_names : list string :=
  ["Sun"; "Mon"; "Tue"; "Wed"; "Thu"; "Fri"; "Sat"].

Definition month_names : list string :=
  ["Jan"; "Feb"; "Mar"; "Apr"; "May"; "Jun";
   "Jul"; "Aug"; "Sep"; "Oct"; "Nov"; "Dec"].

(** Year, month and day of a day number counted from 1970-01-01. *)
Definition civil_from_days (days : Z) : Z * Z * Z :=
  let z := days + 719468 in
  let era := z / 146097 in
  let doe := z - era * 146097 in
  let yoe := (doe - doe / 1460 + doe / 36524 - doe / 146096) / 365 in
  let doy := doe - (365 * yoe + yoe / 4 - yoe / 100) in
  let mp := (5 * doy + 2) / 153 in
  let d := doy - (153 * mp + 2) / 5 + 1 in
  let m := if Z.ltb mp 10 then mp + 3 else mp - 9 in
  let y := yoe + era * 400 in
  (if Z.leb m 2 then y + 1 else y, m, d).

Definition days_from_civil (y m d : Z) : Z :=
  let y := if Z.leb m 2 then y - 1 else y in
  let era := y / 400 in
  let yoe := y - era * 400 in
  let doy := (153 * (if Z.ltb 2 m then m - 3 else m + 9) + 2) / 5 + d - 1 in
  let doe := yoe * 365 + yoe / 4 - yoe / 100 + doy in
  era * 146097 + doe - 719468.

Definition toUTCString (t : Z) : string :=
  let days := t / 86400000 in
  let secs := (t mod 86400000) / 1000 in
  let '(y, m, d) := civil_from_days days in
  default "" (day_names !! Z.to_nat ((days + 4) mod 7)) +:+ ", "
  +:+ pad2 d +:+ " "
  +:+ default "" (month_names !! Z.to_nat (m - 1)) +:+ " "
  +:+ pad4 y +:+ " "
  +:+ pad2 (secs / 3600) +:+ ":" +:+ pad2 (secs / 60 mod 60) +:+ ":"
  +:+ pad2 (secs mod 60) +:+ " GMT".

Fixpoint digits (acc : Z) (s : string) : option Z :=
  match s with
  | EmptyString => Some acc
  | String c r =>
      match Ascii.is_nat c with
      | Some n => digits (10 * acc + Z.of_nat n) r
      | None => None
      end
  end.

Fixpoint index_of (x : string) (l : list string) : option Z :=
  match l with
  | [] => None
  | y :: rest =>
      if Str.eqb x y then Some 0 else Z.succ <$> index_of x rest
  end.

Definition substring (start len : nat) (s : string) : string :=
  String.substring start len s.

(** The time value of a date in the format above, [None] otherwise. *)
Definition parse (s : string) : option Z :=
  if (Nat.eqb (String.length s) 29 && Str.eqb (substring 25 4 s) " GMT")%bool then
    d ← digits 0 (substring 5 2 s);
    m ← index_of (substring 8 3 s) month_names;
    y ← digits 0 (substring 12 4 s);
    hh ← digits 0 (substring 17 2 s);
    mm ← digits 0 (substring 20 2 s);
    ss ← digits 0 (substring 23 2 s);
    Some ((days_from_civil y (m + 1) d * 86400 + hh * 3600 + mm * 60 + ss) * 1000)
  else None.

End HttpDate.

Module Sample.

Inductive node : Type :=
| File (modified : Z) (text : string)
| Dir (modified : Z) (entries : list string)
| Locked.

(** 1700000000000 is Tue, 14 Nov 2023 22:13:20 GMT. *)
Definition table : list (string * node) :=
  [ ("/srv/etherpad/src/static", Dir 1700000000000 ["js"; "css"; "secret"]);
    ("/srv/etherpad/src/static/js", Dir 1700000100000 ["ace.js"; "pad.js"; "bad.js"; "vendors"]);
    ("/srv/etherpad/src/static/js/vendors", Dir 1700000150000 ["jquery.js"]);
    ("/srv/etherpad/src/static/js/vendors/jquery.js", File 1700000250000 "var jq;");
    ("/srv/etherpad/src/static/js/ace.js",
      File 1700000200000 "$$INCLUDE_JS('../static/js/pad.js'); $$INCLUDE_CSS('../static/css/none.css')");
    ("/srv/etherpad/src/static/js/pad.js", File 1700000300999 "var pad = 1;");
    ("/srv/etherpad/src/static/js/bad.js", File 1700000350000 "bad syntax");
    ("/srv/etherpad/src/static/css", Dir 1700000400000 ["pad.css"]);
    ("/srv/etherpad/src/static/css/pad.css", File 1700000500000 "body { }");
    ("/srv/etherpad/src/static/x.js", File 1700000600000 "var x;");
    ("/srv/etherpad/src/static/secret", Locked);
    ("/srv/etherpad/src/node_modules/async", Dir 1700000700000 ["async.js"]);
    ("/srv/etherpad/src/node_modules/async/async.js", File 1700000800000 "var async;");
    ("/srv/plugins/ep_demo/static/js/demo.js", File 1700000900000 "var demo;") ].

Fixpoint find (p : string) (t : list (string * node)) : option node :=
  match t with
  | [] => None
  | (q, n) :: rest => if Str.eqb p q then Some n else find p rest
  end.

(** The file system resolves dots and repeated slashes of a path. *)
Definition canonical (p : string) : string :=
  "/" +:+ Path.normalizeString p false.

(** The table after the node at [path] was touched at time [t]. *)
Fixpoint retime (path : string) (t : Z) (tb : list (string * node))
  : list (string * node) :=
  match tb with
  | [] => []
  | (q, n) :: rest =>
      (q, if Str.eqb q path then
            match n with
            | File _ text => File t text
            | Dir _ entries => Dir t entries
            | Locked => Locked
            end
          else n) :: retime path t rest
  end.

Section Table.

Context (tb : list (string * node)).

Definition lookup_node (p : string) : option node := find (canonical p) tb.

Definition sample_stat (p : string) : Stats + string :=
  match lookup_node p with
  | Some (File t _) => inl {| mtime := t; isFile := true |}
  | Some (Dir t _) => inl {| mtime := t; isFile := false |}
  | Some Locked => inr "EACCES"
  | None => inr "ENOENT"
  end.

Definition sample_readdir (p : string) : list string + string :=
  match lookup_node p with
  | Some (Dir _ l) => inl l
  | Some (File _ _) => inr "ENOTDIR"
  | Some Locked => inr "EACCES"
  | None => inr "ENOENT"
  end.

Definition sample_readFile (p : string) : string + string :=
  match lookup_node p with
  | Some (File _ s) => inl s
  | Some (Dir _ _) => inr "EISDIR"
  | Some Locked => inr "EACCES"
  | None => inr "ENOENT"
  end.

(** A script worker that rejects texts starting with [throw], reports an
    error on texts starting with [bad], and otherwise marks its output. *)
Definition sample_compressJS (text : string) : option CompressResult :=
  if Str.startsWith "throw" text then None
  else if Str.startsWith "bad" text then Some {| error := true; code := None |}
  else Some {| error := false; code := Some ("/*min*/" +:+ text) |}.

Definition sample_compressCSS (filename root : string) : option string :=
  match sample_readFile (root +:+ filename) with
  | inl s => Some ("/*min*/" +:+ s)
  | inr _ => None
  end.

Fixpoint extension (s : string) : string :=
  match s with
  | EmptyString => ""
  | String c r =>
      let e := extension r in
      if Str.eqb e "" then (if Ascii.eqb c "." then r else "") else e
  end.

Definition sample_mime (filename : string) : option string :=
  let e := extension filename in
  if Str.eqb e "js" then Some "application/javascript"
  else if Str.eqb e "css" then Some "text/css"
  else if Str.eqb e "html" then Some "text/html"
  else None.

Definition sample_URL (url : string) : option string :=
  if Str.startsWith "http://invalid.invalid/" url
  then Some (Str.slice_from 22 url) else None.

Definition world_of : Env :=
  {| module_dirname := "/srv/etherpad/src/node/utils";
     cwd := "/srv/etherpad";
     fs_stat := sample_stat;
     fs_readdir := sample_readdir;
     fs_readFile := sample_readFile;
     settings_minify := true;
     settings_maxAge := Some 21600;
     plugins := {[ "ep_demo" := {| realPath := "/srv/plugins/ep_demo" |} ]};
     kernelSource := "function () {}";
     compressJS := sample_compressJS;
     compressCSS := sample_compressCSS;
     mime_lookup := sample_mime;
     loadTime := 1699999999123;
     now := 1700001000000;
     Date_parse := HttpDate.parse;
     toUTCString := HttpDate.toUTCString;
     URL_pathname_search := sample_URL |}.

End Table.

Definition world : Env := world_of table.

(** The same installation with a plugin registered under the name of a
    whitelisted library. *)
Definition world_with_async_plugin : Env :=
  {| module_dirname := module_dirname world; cwd := cwd world;
     fs_stat := fs_stat world; fs_readdir := fs_readdir world;
     fs_readFile := fs_readFile world;
     settings_minify := settings_minify world;
     settings_maxAge := settings_maxAge world;
     plugins := <["async" := {| realPath := "/srv/plugins/async" |}]> (plugins world);
     kernelSource := kernelSource world;
     compressJS := compressJS world; compressCSS := compressCSS world;
     mime_lookup := mime_lookup world;
     loadTime := loadTime world; now := now world;
     Date_parse := Date_parse world; toUTCString := toUTCString world;
     URL_pathname_search := URL_pathname_search world |}.

(** A loop-back that answers 404 for one style sheet, 500 for one script
    and 200 with a fixed body for everything else. *)
Definition stub_status (filename : string) : Z :=
  if Str.eqb filename "../static/css/none.css" then 404
  else if Str.eqb filename "../static/js/pad.js" then 500
  else 200.

Definition stub_body (filename : string) : string :=
  if Z.eqb (stub_status filename) 200 then "kernel" else "".

Definition stub_loopback (url method : string) (h : Headers)
  : M (Z * Headers * string) :=
  if Str.eqb url "http://invalid.invalid/static/css/none.css" then ret (404, h, "")
  else if Str.eqb url "http://invalid.invalid/static/js/pad.js" then ret (500, h, "")
  else ret (200, h, "kernel").

(** A request for [filename] as the route hands it to the handler. *)
Definition handle (w : Env) (method filename : string) (h : Headers) : M Response :=
  minify w (below w 2)
    {| req_url := "/static/" +:+ filename; req_method := method;
       req_filename := filename |}
    (mockResponse h).

End Sample.

(** * padurlsanitize.js: the [pad] route parameter

    The handler registered by [expressCreateServer] for the route parameter
    [pad].  [padManager.isValidPadId], [padManager.sanitizePadId] and the
    [query] of [url.parse] belong to the world; [encodeURIComponent] is
    modelled on code units below 256. *)

Module Uri.

(** The characters [encodeURIComponent] leaves alone: letters, digits and
    [- _ . ! ~ * ' ( )]. *)
Definition unreserved (c : ascii) : bool :=
  let n := nat_of_ascii c in
  ((Nat.leb 65 n && Nat.leb n 90) || (Nat.leb 97 n && Nat.leb n 122)
   || (Nat.leb 48 n && Nat.leb n 57)
   || Ascii.eqb c "-" || Ascii.eqb c "_" || Ascii.eqb c "." || Ascii.eqb c "!"
   || Ascii.eqb c "~" || Ascii.eqb c "*" || Ascii.eqb c "039" || Ascii.eqb c "("
   || Ascii.eqb c ")")%bool.

Definition hex_upper (n : nat) : ascii :=
  match n with
  | 0 => "0" | 1 => "1" | 2 => "2" | 3 => "3" | 4 => "4" | 5 => "5"
  | 6 => "6" | 7 => "7" | 8 => "8" | 9 => "9" | 10 => "A" | 11 => "B"
  | 12 => "C" | 13 => "D" | 14 => "E" | _ => "F"
  end%char%nat.

(** One octet, percent-encoded. *)
Definition percent (n : nat) : string :=
  String "%" (String (hex_upper (n / 16)) (String (hex_upper (n mod 16)) "")).

(** A character that is not left alone is written as the octets of its
    UTF-8 form: one below 128, two from 128 to 255. *)
Definition encode_char (c : ascii) : string :=
  let n := nat_of_ascii c in
  if unreserved c then String c ""
  else if Nat.ltb n 128 then percent n
  else percent (192 + n / 64) +:+ percent (128 + n mod 64).

(** [encodeURIComponent(s)] *)
Fixpoint encodeURIComponent (s : string) : string :=
  match s with
  | String c r => encode_char c +:+ encodeURIComponent r
  | EmptyString => EmptyString
  end.

End Uri.

Module PadUrl.

Record PadWorld : Type := {
  (** [padManager.isValidPadId] *)
  isValidPadId : string → bool;
  (** [padManager.sanitizePadId]; [None] when the promise is rejected *)
  sanitizePadId : string → option string;
  (** [url.parse(u).query]; [None] for [null] *)
  url_query : string → option string
}.

(** What the handler did with the request: it sent a reply, called
    [next()], or its promise was rejected. *)
Record Reply : Type := {
  reply_status : Z;
  reply_headers : Headers;
  reply_body : string
}.

Inductive answer : Type :=
| Sent (r : Reply)
| CalledNext
| Rejected.

(** The body of a redirect. *)
Definition redirect_body (realURL : string) : string :=
  "You should be redirected to <a href=" +:+ String "034" realURL
  +:+ String "034" ">" +:+ realURL +:+ "</a>".

(** [realURL] after the query was appended, if there is one. *)
Definition with_query (realURL : string) (query : option string) : string :=
  match query with
  | Some q => if Str.eqb q "" then realURL else realURL +:+ "?" +:+ q
  | None => realURL
  end.

(** The callback of [app.param('pad', ...)]: the pad ids handed to
    [sanitizePadId], in order, and the answer. *)
Definition param_pad (w : PadWorld) (req_url padId : string)
  : list string * answer :=
  if (negb (isValidPadId w padId) || Str.endsWithSlash req_url)%bool then
    ([], Sent {| reply_status := 404; reply_headers := ∅;
                 reply_body := "Such a padname is forbidden" |})
  else
    match sanitizePadId w padId with
    | None => ([padId], Rejected)
    | Some sanitizedPadId =>
        if Str.eqb sanitizedPadId padId then ([padId], CalledNext)
        else
          let realURL := sanitizedPadId in
          let realURL := Uri.encodeURIComponent realURL in
          let query := url_query w req_url in
          let realURL := with_query realURL query in
          ([padId],
           Sent {| reply_status := 302;
                   reply_headers := {["Location" := realURL]};
                   reply_body := redirect_body realURL |})
    end.

(** A pad manager that accepts ids without [$], and replaces spaces by
    underscores; the query is what follows the first [?]. *)
Fixpoint no_dollar (s : string) : bool :=
  match s with
  | String c r => (negb (Ascii.eqb c "$") && no_dollar r)%bool
  | EmptyString => true
  end.

Fixpoint underscores (s : string) : string :=
  match s with
  | String c r => String (if Ascii.eqb c " " then "_"%char else c) (underscores r)
  | EmptyString => EmptyString
  end.

Fixpoint after_question (s : string) : option string :=
  match s with
  | String c r => if Ascii.eqb c "?" then Some r else after_question r
  | EmptyString => None
  end.

Definition sample_pads : PadWorld :=
  {| isValidPadId := no_dollar;
     sanitizePadId := λ id, Some (underscores id);
     url_query := after_question |}.

End PadUrl.

(** * Vocabulary of the properties *)

(** The absolute path of line 104. *)
Definition normalized_path (env : Env) (filename : string) : string :=
  Path.normalize (Path.join (ROOT_DIR env) filename).

(** The normalized absolute path leaves the asset root. *)
Definition escapes_root (env : Env) (filename : string) : Prop :=
  Str.startsWith (ROOT_DIR env) (normalized_path env filename) = false.

(** It is still outside once its [..] sequences are deleted: the test of
    line 107. *)
Definition escapes_root_stripped (env : Env) (filename : string) : Prop :=
  Str.startsWith (ROOT_DIR env) (Str.strip_dotdot (normalized_path env filename))
  = false.

(** The handler answered 404 with an empty body, left the headers alone and
    did nothing else. *)
Definition rejected_untouched (headers0 : Headers) (m : M Response) : Prop :=
  m = ([], Val {| status := 404; headers := headers0; chunks := [];
                  resolved := Some (404, "") |}).

(** The text holds two dots in a row. *)
Fixpoint has_dotdot (s : string) : bool :=
  match s with
  | String c r =>
      ((Ascii.eqb c "." && Str.startsWith "." r) || has_dotdot r)%bool
  | EmptyString => false
  end.

(** What may follow the library name for line 121 to match: nothing, or a
    slash and a text without line terminator. *)
Definition library_path (rest : string) : Prop :=
  rest = "" ∨ ∃ r, rest = "/" +:+ r ∧ Str.has_line_terminator r = false.

(** A logical path [statFile] looks up on disk: not one of the two root
    spellings and not one of the two generated files. *)
Definition served_from_disk (filename : string) : Prop :=
  filename ≠ "" ∧ filename ≠ "/"
  ∧ filename ≠ "js/ace.js" ∧ filename ≠ "js/require-kernel.js".

(** Every failed stat in the run of a computation, other than a failure
    with [ENOENT], is what the computation throws. *)
Definition stat_errors_thrown (env : Env) {A} (m : M A) : Prop :=
  ∀ p code,
    EvStat p ∈ trace m → fs_stat env p = inr code → code ≠ "ENOENT" →
    result m = Throw (FsError code).

(** The test of line 156 on the headers the request came with. *)
Definition not_modified (env : Env) (headers0 : Headers) (date : option Z) : bool :=
  date_ge (headers0 !! "if-modified-since" ≫= Date_parse env)
          (setMilliseconds0 <$> date).

(** The transform selected by the content type fails on [original]: the
    script worker throws, reports an error or delivers no code; the style
    worker throws. *)
Definition transform_fails (env : Env) (filename : string)
    (contentType : option string) (original : content) : Prop :=
  (contentType = Some "application/javascript"
   ∧ (compressJS env (toString original) = None
      ∨ ∃ r, compressJS env (toString original) = Some r
             ∧ (error r = true ∨ code r = None)))
  ∨ (contentType = Some "text/css"
     ∧ compressCSS env filename (ROOT_DIR env) = None).

(** The paths [lastModifiedDateOfEverything] stats: the entries of the
    script and of the style directory, each directory after its entries. *)
Definition checked_paths (env : Env) (scripts styles : list string) : list string :=
  ((λ f, (ROOT_DIR env +:+ "js/") +:+ "/" +:+ f) <$> (scripts ++ ["."]))
  ++ ((λ f, (ROOT_DIR env +:+ "css/") +:+ "/" +:+ f) <$> (styles ++ ["."])).

Definition mtime_of (env : Env) (path : string) : Z :=
  match fs_stat env path with
  | inl st => mtime st
  | inr _ => 0
  end.

Definition is_max (m : Z) (l : list Z) : Prop :=
  m ∈ l ∧ ∀ t, t ∈ l → t ≤ m.

(** The world after [path] was touched at time [t]. *)
Definition touch (env : Env) (path : string) (t : Z) : Env :=
  {| module_dirname := module_dirname env; cwd := cwd env;
     fs_stat := λ p,
       if Str.eqb p path then
         match fs_stat env p with
         | inl st => inl {| mtime := t; isFile := isFile st |}
         | inr c => inr c
         end
       else fs_stat env p;
     fs_readdir := fs_readdir env; fs_readFile := fs_readFile env;
     settings_minify := settings_minify env;
     settings_maxAge := settings_maxAge env;
     plugins := plugins env; kernelSource := kernelSource env;
     compressJS := compressJS env; compressCSS := compressCSS env;
     mime_lookup := mime_lookup env;
     loadTime := loadTime env; now := now env;
     Date_parse := Date_parse env; toUTCString := toUTCString env;
     URL_pathname_search := URL_pathname_search env |}.

(** The files [getAceFile] embeds, given the text of [ace.js]. *)
Definition referenced (env : Env) (text : string) : list string :=
  (if settings_minify env then include_directives text else [])
  ++ ["../static/js/require-kernel.js"].

Definition resourceURI (filename : string) : string :=
  Str.backslash_to_slash
    ("http://invalid.invalid" +:+ Path.normalize (Path.join "/static/" filename)).

(** One line of the generated mapping. *)
Definition assignment (filename value : string) : string :=
  "Ace2Editor.EMBEDED[" +:+ Json.stringify filename +:+ "] = " +:+ value
  +:+ ";" +:+ nl.

(** What a fetched file adds to the text: its body for 200, [null] for 404,
    nothing otherwise. *)
Definition entry (filename : string) (status : Z) (body : string) : string :=
  if Z.eqb status 200 then assignment filename (Json.stringify body)
  else if Z.eqb status 404 then assignment filename "null"
  else "".

(** What it adds to the console. *)
Definition complaint (filename : string) (status : Z) : list event :=
  if (Z.eqb status 200 || Z.eqb status 404)%bool then []
  else [EvConsoleError ("getAceFile(): error getting " +:+ resourceURI filename
                        +:+ ". Status code: " +:+ pretty status)].

(** The loop-back fetch of [filename] does [fetch_trace filename] and
    returns the status, headers and body the three functions give. *)
Definition fetched_as
    (loopback : string → string → Headers → M (Z * Headers * string))
    (fetch_trace : string → list event) (fetch_status : string → Z)
    (fetch_headers : string → Headers) (fetch_body : string → string)
    (filename : string) : Prop :=
  loopback (resourceURI filename) "GET" ∅
  = (fetch_trace filename,
     Val (fetch_status filename, fetch_headers filename, fetch_body filename)).

(** The fetches of a batch done one by one, each on the headers the caller
    passed: status, headers and body of each. *)
Fixpoint independent (env : Env) (depth : nat) (locations : list string)
    (method : string) (headers0 : Headers)
  : option (list Z * list Headers * list string) :=
  match locations with
  | [] => Some ([], [], [])
  | loc :: rest =>
      match result (requestURI env depth loc method headers0),
            independent env depth rest method headers0 with
      | Val (st, h, body), Some (sts, hs, bodies) =>
          Some (st :: sts, h :: hs, body :: bodies)
      | _, _ => None
      end
  end.

(** The one request header the handler reads. *)
Definition since (h : Headers) : option string := h !! "if-modified-since".

(** What of a response the handler's answer depends on or shows, apart
    from the other headers. *)
Definition view (res : Response)
  : Z * list content * option (Z * string) * option string :=
  (status res, chunks res, resolved res, since (headers res)).

Definition outcome_map {A B} (f : A → B) (o : outcome A) : outcome B :=
  match o with
  | Val a => Val (f a)
  | Throw e => Throw e
  | Pending => Pending
  end.

(** A run of the handler, seen through [view]. *)
Definition observe (m : M Response) :=
  (trace m, outcome_map view (result m)).

(** Status and body of a fetch. *)
Definition status_body (r : Z * Headers * string) : Z * string :=
  (r.1.1, r.2).

(** The chain [statFile] walks: [filename], its parent, the parent of that,
    as far as the budget goes. *)
Fixpoint ancestors (filename : string) (dirStatLimit : nat) : list string :=
  match dirStatLimit with
  | O => []
  | S limit' => filename :: ancestors (Path.dirname filename) limit'
  end.

(** The status line 153 to 172 choose. *)
Definition status_for (exists_ modified_since : bool) (method : string) : Z :=
  if negb exists_ then 404
  else if modified_since then 304
  else if Str.eqb method "HEAD" then 200
  else if Str.eqb method "GET" then 200
  else 405.

(** An event of the file system. *)
Definition is_fs_event (ev : event) : bool :=
  match ev with
  | EvStat _ | EvReaddir _ | EvReadFile _ => true
  | _ => false
  end.

(** The world in which the two directories list their entries in another
    order. *)
Definition relist (env : Env) (scripts styles : list string) : Env :=
  {| module_dirname := module_dirname env; cwd := cwd env;
     fs_stat := fs_stat env;
     fs_readdir := λ p,
       if Str.eqb p (ROOT_DIR env +:+ "js/") then inl scripts
       else if Str.eqb p (ROOT_DIR env +:+ "css/") then inl styles
       else fs_readdir env p;
     fs_readFile := fs_readFile env;
     settings_minify := settings_minify env;
     settings_maxAge := settings_maxAge env;
     plugins := plugins env; kernelSource := kernelSource env;
     compressJS := compressJS env; compressCSS := compressCSS env;
     mime_lookup := mime_lookup env;
     loadTime := loadTime env; now := now env;
     Date_parse := Date_parse env; toUTCString := toUTCString env;
     URL_pathname_search := URL_pathname_search env |}.

(** Every character of the text passes the test. *)
Fixpoint all_chars (P : ascii → bool) (s : string) : bool :=
  match s with
  | String c r => (P c && all_chars P r)%bool
  | EmptyString => true
  end.

(** What [encodeURIComponent] writes: unreserved characters, the percent
    sign and hexadecimal digits. *)
Definition uri_safe (c : ascii) : bool :=
  (Uri.unreserved c || Ascii.eqb c "%")%bool.

(** The headers object after the handler answered for a resolved path. *)
Definition answer_headers (env : Env) (filename : string) (date : option Z)
    (exists_ : bool) (method : string) (headers0 : Headers) : Headers :=
  let base := headers (freshness_headers env date (mockResponse headers0)) in
  let typed :=
    <["content-type" := contentType_toString (mime_lookup env filename)]> base in
  if negb exists_ then base
  else if not_modified env headers0 date then base
  else if Str.eqb method "HEAD" then typed
  else if Str.eqb method "GET" then typed
  else {["allow" := "HEAD, GET"]} ∪ base.

(** The world with another [readdir]. *)
Definition with_readdir (env : Env) (rd : string → list string + string) : Env :=
  {| module_dirname := module_dirname env; cwd := cwd env;
     fs_stat := fs_stat env; fs_readdir := rd; fs_readFile := fs_readFile env;
     settings_minify := settings_minify env;
     settings_maxAge := settings_maxAge env;
     plugins := plugins env; kernelSource := kernelSource env;
     compressJS := compressJS env; compressCSS := compressCSS env;
     mime_lookup := mime_lookup env;
     loadTime := loadTime env; now := now env;
     Date_parse := Date_parse env; toUTCString := toUTCString env;
     URL_pathname_search := URL_pathname_search env |}.

(** The world without its style directory. *)
Definition without_styles (env : Env) : Env :=
  with_readdir env (λ p,
    if Str.eqb p (ROOT_DIR env +:+ "css/") then inr "ENOENT" else fs_readdir env p).

(** The run ends in a value or in a file-system error. *)
Definition ends_in_fs_error_or_value {A} (m : M A) : Prop :=
  match result m with
  | Val _ | Throw (FsError _) => True
  | _ => False
  end.

(** * Properties *)

#[local] Arguments Ascii.eqb !_ !_ : simpl nomatch.
#[local] Arguments String.eqb !_ !_ : simpl nomatch.

(** ** Strings and paths *)

Lemma Str_eqb_eq (a b : string) : Str.eqb a b = true ↔ a = b.
Proof. apply String.eqb_eq. Qed.

Lemma Str_eqb_refl (a : string) : Str.eqb a a = true.
Proof. by apply Str_eqb_eq. Qed.

Lemma Str_eqb_neq (a b : string) : a ≠ b → Str.eqb a b = false.
Proof.
  intros Hne. destruct (Str.eqb a b) eqn:E; [|done].
  by apply Str_eqb_eq in E.
Qed.

Lemma app_cons (a : ascii) (s t : string) : String a s +:+ t = String a (s +:+ t).
Proof. reflexivity. Qed.

Lemma app_empty_l (t : string) : "" +:+ t = t.
Proof. reflexivity. Qed.

Lemma app_empty_r (s : string) : s +:+ "" = s.
Proof. induction s as [|a s IH]; [done|]. by rewrite app_cons, IH. Qed.

Lemma app_assoc_str (s t u : string) : (s +:+ t) +:+ u = s +:+ t +:+ u.
Proof. induction s as [|a s IH]; [done|]. by rewrite !app_cons, IH. Qed.

Lemma startsWith_app (p s : string) : Str.startsWith p (p +:+ s) = true.
Proof.
  induction p as [|a p IH]; [done|].
  rewrite app_cons. simpl. by rewrite Ascii.eqb_refl.
Qed.

Lemma slice_from_app (p s : string) : Str.slice_from (String.length p) (p +:+ s) = s.
Proof. induction p as [|a p IH]; [by destruct s|]. by rewrite app_cons. Qed.

Lemma span_no_slash_app (name rest : string) :
  Str.contains_slash name = false →
  Str.startsWith "/" rest = true ∨ rest = "" →
  Str.span_no_slash (name +:+ rest) = (name, rest).
Proof.
  intros Hname Hrest. induction name as [|a name IH].
  - rewrite app_empty_l. destruct Hrest as [H | ->]; [|done].
    destruct rest as [|c r]; [done|]. simpl in *.
    destruct (Ascii.eqb_spec "/" c) as [<-|]; [done|].
    by destruct r.
  - rewrite app_cons. simpl in *. apply orb_false_iff in Hname as [Ha Hn].
    rewrite Ha, (IH Hn). done.
Qed.

Example normalize_root :
  Path.normalize "/srv/src/node/utils/../../static/" = "/srv/src/static/".
Proof. reflexivity. Qed.

Example join_climbs : Path.join "/srv/src/static/" "../../etc/passwd" = "/srv/etc/passwd".
Proof. reflexivity. Qed.

Example join_static :
  Path.join "/static/" "../static/js/require-kernel.js" = "/static/js/require-kernel.js".
Proof. reflexivity. Qed.

Example relative_up :
  Path.relative "/srv" "/srv/src/static/" "/srv/node_modules/ep_x/static/js/a.js"
  = "../../node_modules/ep_x/static/js/a.js".
Proof. reflexivity. Qed.

Example dirname_nested : Path.dirname "js/missing/deep.js" = "js/missing".
Proof. reflexivity. Qed.

Example dirname_top : Path.dirname "top.js" = ".".
Proof. reflexivity. Qed.

Example dirname_rooted : Path.dirname "/x" = "/".
Proof. reflexivity. Qed.

Example normalize_relative : Path.normalize "../../a/../b" = "../../b".
Proof. reflexivity. Qed.

Example normalize_keeps_dots_in_names : Path.normalize "/a/.../b" = "/a/.../b".
Proof. reflexivity. Qed.

Example normalize_above_root : Path.normalize "/.." = "/".
Proof. reflexivity. Qed.

Example relative_sideways :
  Path.relative "/" "/data/orandea/test/aaa" "/data/orandea/impl/bbb" = "../../impl/bbb".
Proof. reflexivity. Qed.

Example dirname_double_slash : Path.dirname "a//b" = "a/".
Proof. reflexivity. Qed.

Example dirname_of_dot : Path.dirname "." = ".".
Proof. reflexivity. Qed.

Example strip_dotdot_runs : Str.strip_dotdot "a...b....c" = "a.bc".
Proof. reflexivity. Qed.

Example http_date_roundtrip :
  HttpDate.toUTCString 1700000000000 = "Tue, 14 Nov 2023 22:13:20 GMT"
  ∧ HttpDate.parse "Tue, 14 Nov 2023 22:13:20 GMT" = Some 1700000000000.
Proof. split; reflexivity. Qed.

Example sample_root : ROOT_DIR Sample.world = "/srv/etherpad/src/static/".
Proof. reflexivity. Qed.

(** ** The monad *)

Lemma bind_ret_l {A B} (a : A) (k : A → M B) : bind (ret a) k = k a.
Proof. unfold bind, ret. by destruct (k a). Qed.

Lemma bind_val {A B} (tr : list event) (a : A) (k : A → M B) :
  bind (tr, Val a) k = (tr ++ trace (k a), result (k a)).
Proof. unfold bind, trace, result. by destruct (k a). Qed.

Lemma bind_throw {A B} (tr : list event) (e : exn) (k : A → M B) :
  bind (tr, Throw e) k = (tr, Throw e).
Proof. done. Qed.

Lemma result_bind_val {A B} (m : M A) (a : A) (k : A → M B) :
  result m = Val a → result (bind m k) = result (k a).
Proof.
  intros H. destruct m as [tr o]. cbn in H. subst o. by rewrite bind_val.
Qed.

Lemma trace_bind_val {A B} (m : M A) (a : A) (k : A → M B) :
  result m = Val a → trace (bind m k) = trace m ++ trace (k a).
Proof.
  intros H. destruct m as [tr o]. cbn in H. subst o. by rewrite bind_val.
Qed.

Lemma result_bind_throw {A B} (m : M A) (e : exn) (k : A → M B) :
  result m = Throw e → result (bind m k) = Throw e.
Proof. intros H. destruct m as [tr o]. cbn in H. by subst o. Qed.

(** ** Path confinement (C1) *)

(** C1, as the claim states it, fails: [../static../x.js] normalizes to
    [/srv/etherpad/src/static../x.js], outside the asset root, yet deleting
    the two dots gives a path below the root and the handler goes on to
    stat, read and compress [x.js]. *)
Lemma traversal_claim_counterexample :
  escapes_root Sample.world "../static../x.js"
  ∧ ¬ rejected_untouched ∅ (Sample.handle Sample.world "GET" "../static../x.js" ∅)
  ∧ trace (Sample.handle Sample.world "GET" "../static../x.js" ∅)
    = [EvStat "/srv/etherpad/src/static/x.js";
       EvReadFile "/srv/etherpad/src/static/x.js";
       EvLoggerInfo "Compress JS file x.js.";
       EvCompressJS "var x;"]
  ∧ (resolved <$> result_value (Sample.handle Sample.world "GET" "../static../x.js" ∅))
    = Some (Some (200, "/*min*/var x;")).
Proof.
  split; [reflexivity|]. split; [|split; vm_compute; reflexivity].
  intros H. apply (f_equal trace) in H. vm_compute in H. discriminate.
Qed.

(** C1, amended: a requested path whose normalized absolute path does not
    start with the asset root even after its [..] sequences are deleted is
    answered 404 with an empty body; the headers are left as they were and
    nothing is stat'ed, read or compressed. *)
Theorem traversal_rejected (env : Env)
    (loopback : string → string → Headers → M (Z * Headers * string))
    (req : Request) (headers0 : Headers) :
  escapes_root_stripped env (req_filename req) →
  rejected_untouched headers0 (minify env loopback req (mockResponse headers0)).
Proof.
  unfold escapes_root_stripped, normalized_path, rejected_untouched.
  intros Hout. unfold minify, confine. rewrite Hout.
  unfold ret, end_, writeHead, mockResponse. simpl.
  by rewrite (left_id_L ∅ (∪)).
Qed.

Lemma traversal_rejected_witness :
  escapes_root_stripped Sample.world "../../../../etc/passwd"
  ∧ rejected_untouched ∅ (Sample.handle Sample.world "GET" "../../../../etc/passwd" ∅).
Proof.
  split; [reflexivity|].
  apply (traversal_rejected Sample.world (below Sample.world 2)
           {| req_url := "/static/../../../../etc/passwd"; req_method := "GET";
              req_filename := "../../../../etc/passwd" |} ∅).
  reflexivity.
Defined.

(** A path that escapes and holds no two dots in a row is covered: deleting
    nothing leaves it outside. *)
Lemma escape_without_dots (env : Env) (filename : string) :
  Str.strip_dotdot (normalized_path env filename) = normalized_path env filename →
  escapes_root env filename → escapes_root_stripped env filename.
Proof. unfold escapes_root, escapes_root_stripped. by intros ->. Qed.

(** Conversely, whenever the test of line 107 passes, the handler goes on
    to the freshness stat of a path below the root. *)
Lemma confine_inside (env : Env) (filename : string) :
  ¬ escapes_root_stripped env filename →
  confine env filename
  = Some (Str.backslash_to_slash
            (Str.slice_from (String.length (ROOT_DIR env))
               (Str.strip_dotdot (normalized_path env filename)))).
Proof.
  unfold escapes_root_stripped, confine, normalized_path. intros H.
  by destruct (Str.startsWith _ _).
Qed.

(** What the deletion is for: a path that passes the test holds no two dots
    in a row, so it names nothing above the asset root. *)
Lemma has_dotdot_cons (c : ascii) (t : string) :
  has_dotdot (String c t)
  = ((Ascii.eqb c "." && Str.startsWith "." t) || has_dotdot t)%bool.
Proof. reflexivity. Qed.

Lemma strip_dotdot_other (c : ascii) (r : string) :
  c ≠ "."%char → Str.strip_dotdot (String c r) = String c (Str.strip_dotdot r).
Proof. intros Hc. destruct c as [[] [] [] [] [] [] [] []]; done. Qed.

Lemma strip_dotdot_single (c : ascii) (r : string) :
  c ≠ "."%char →
  Str.strip_dotdot (String "." (String c r))
  = String "." (Str.strip_dotdot (String c r)).
Proof. intros Hc. destruct c as [[] [] [] [] [] [] [] []]; done. Qed.

Lemma strip_dotdot_clean_upto (n : nat) (s : string) :
  (String.length s ≤ n)%nat → has_dotdot (Str.strip_dotdot s) = false.
Proof.
  revert s. induction n as [|n IH]; intros s Hlen.
  { destruct s; [done|simpl in Hlen; lia]. }
  destruct s as [|c r]; [done|].
  destruct (Ascii.eqb_spec c ".") as [->|Hc].
  - destruct r as [|c' r']; [done|].
    destruct (Ascii.eqb_spec c' ".") as [->|Hc'].
    + simpl. apply IH. simpl in Hlen. lia.
    + rewrite strip_dotdot_single by done.
      assert (has_dotdot (Str.strip_dotdot (String c' r')) = false) as Hrest.
      { apply IH. simpl in *. lia. }
      rewrite has_dotdot_cons, Hrest. rewrite strip_dotdot_other by done.
      simpl. destruct (Ascii.eqb_spec "." c') as [<-|]; done.
  - rewrite strip_dotdot_other by done.
    rewrite has_dotdot_cons, (proj2 (Ascii.eqb_neq _ _) Hc). simpl.
    apply IH. simpl in Hlen. lia.
Qed.

Lemma strip_dotdot_clean (s : string) : has_dotdot (Str.strip_dotdot s) = false.
Proof. by apply (strip_dotdot_clean_upto (String.length s)). Qed.

Lemma has_dotdot_slice (n : nat) (s : string) :
  has_dotdot s = false → has_dotdot (Str.slice_from n s) = false.
Proof.
  revert s. induction n as [|n IH]; intros s Hs; [by destruct s|].
  destruct s as [|c r]; [done|]. simpl. apply IH.
  simpl in Hs. by apply orb_false_iff in Hs as [_ Hs].
Qed.

Lemma startsWith_dot_slashed (s : string) :
  Str.startsWith "." (Str.backslash_to_slash s) = Str.startsWith "." s.
Proof.
  destruct s as [|c r]; [done|]. simpl.
  destruct (Ascii.eqb_spec c "092") as [->|]; done.
Qed.

Lemma has_dotdot_slashed (s : string) :
  has_dotdot (Str.backslash_to_slash s) = has_dotdot s.
Proof.
  induction s as [|c r IH]; [done|].
  change (Str.backslash_to_slash (String c r))
    with (String (if Ascii.eqb c "092" then "/"%char else c)
            (Str.backslash_to_slash r)).
  rewrite !has_dotdot_cons, IH, startsWith_dot_slashed.
  destruct (Ascii.eqb_spec c "092") as [->|]; done.
Qed.

Lemma confine_clean (env : Env) (filename confined : string) :
  confine env filename = Some confined → has_dotdot confined = false.
Proof.
  unfold confine. destruct (Str.startsWith _ _); [|done]. intros [= <-].
  rewrite has_dotdot_slashed. apply has_dotdot_slice, strip_dotdot_clean.
Qed.

(** ** Plugin and library rewriting (C2) *)

Lemma whitelisted_cases (library : string) :
  includes library LIBRARY_WHITELIST = true →
  library ∈ LIBRARY_WHITELIST.
Proof.
  unfold includes, LIBRARY_WHITELIST. simpl. intros H.
  repeat (apply orb_true_iff in H as [H | H];
          [apply Str_eqb_eq in H as ->; set_solver|]).
  done.
Qed.

Lemma whitelisted_plain (library : string) :
  includes library LIBRARY_WHITELIST = true →
  library ≠ "" ∧ Str.contains_slash library = false.
Proof.
  intros H%whitelisted_cases. unfold LIBRARY_WHITELIST in H.
  repeat (apply elem_of_cons in H as [-> | H]; [by split|]).
  by apply elem_of_nil in H.
Qed.

Lemma match_plugins_form (library rest : string) :
  library ≠ "" → Str.contains_slash library = false → library_path rest →
  match_plugins ("plugins/" +:+ library +:+ rest)
  = Some (library,
          (if Str.eqb rest "" then None else Some rest),
          (if Str.startsWith "/static/" rest then Some (Str.slice_from 1 rest)
           else None)).
Proof.
  intros Hne Hslash Hrest. unfold match_plugins.
  rewrite startsWith_app.
  change 8%nat with (String.length "plugins/"). rewrite slice_from_app.
  rewrite span_no_slash_app; [|done|by destruct Hrest as [->|(r & -> & _)]; auto].
  rewrite (Str_eqb_neq _ _ Hne).
  destruct Hrest as [->|(r & -> & Hr)]; [done|].
  rewrite app_cons, app_empty_l. rewrite Hr. simpl.
  by destruct (Str.startsWith "static/" r).
Qed.

(** C2, as the claim states it, fails: the registry is looked up before the
    whitelist.  With a plugin registered under the whitelisted name [async],
    [plugins/async/static/x.js] resolves into the plugin's directory, and
    the same path resolves differently under two registries. *)
Lemma whitelist_claim_counterexample :
  includes "async" LIBRARY_WHITELIST = true
  ∧ resolve Sample.world_with_async_plugin ("plugins/" +:+ "async" +:+ "/static/x.js")
    = Some "../../../plugins/async/static/x.js"
  ∧ resolve Sample.world_with_async_plugin ("plugins/" +:+ "async" +:+ "/static/x.js")
    ≠ Some ("../node_modules/" +:+ "async" +:+ "/static/x.js")
  ∧ resolve Sample.world ("plugins/" +:+ "async" +:+ "/static/x.js")
    ≠ resolve Sample.world_with_async_plugin ("plugins/" +:+ "async" +:+ "/static/x.js").
Proof.
  split; [reflexivity|]. split; [vm_compute; reflexivity|].
  split; intros H; vm_compute in H; discriminate.
Qed.

(** C2, amended: when the confined path is [plugins/<library><rest>], with
    [library] whitelisted and [rest] empty or a slash followed by a text
    without line terminator, and unless [library] is also a registered
    plugin and [rest] starts with [/static/], the path is rewritten to
    [../node_modules/<library><rest>].  The registry is consulted first. *)
Theorem whitelisted_library_rewritten (env : Env) (filename library rest : string) :
  confine env filename = Some ("plugins/" +:+ library +:+ rest) →
  includes library LIBRARY_WHITELIST = true →
  library_path rest →
  plugins env !! library = None ∨ Str.startsWith "/static/" rest = false →
  resolve env filename = Some ("../node_modules/" +:+ library +:+ rest).
Proof.
  intros Hconf Hwl Hrest Hreg. unfold resolve. rewrite Hconf. simpl. f_equal.
  destruct (whitelisted_plain _ Hwl) as [Hne Hslash].
  unfold rewrite_plugins. rewrite match_plugins_form by done. rewrite Hwl.
  assert (default "" (if Str.eqb rest "" then None else Some rest) = rest) as ->.
  { destruct (Str.eqb rest "") eqn:E; [|done]. by apply Str_eqb_eq in E. }
  destruct Hreg as [-> | ->]; [done|]. by destruct (plugins env !! library).
Qed.

Lemma whitelisted_library_rewritten_witness :
  resolve Sample.world_with_async_plugin "plugins/async/lib/async.js"
  = Some "../node_modules/async/lib/async.js".
Proof.
  apply (whitelisted_library_rewritten Sample.world_with_async_plugin
           "plugins/async/lib/async.js" "async" "/lib/async.js").
  - reflexivity.
  - reflexivity.
  - right. exists "lib/async.js". split; reflexivity.
  - right. reflexivity.
Defined.

(** The other branch: a registered plugin with a [static/] path wins over
    the whitelist. *)
Lemma registered_plugin_wins (env : Env) (filename library r : string) (plugin : Plugin) :
  confine env filename = Some ("plugins/" +:+ library +:+ "/static/" +:+ r) →
  library ≠ "" → Str.contains_slash library = false →
  Str.has_line_terminator r = false →
  plugins env !! library = Some plugin →
  resolve env filename
  = Some (Str.backslash_to_slash
            (Path.relative (cwd env) (ROOT_DIR env)
               (realPath plugin +:+ "/static/" +:+ r))).
Proof.
  intros Hconf Hne Hslash Hr Hreg. unfold resolve. rewrite Hconf. simpl. f_equal.
  unfold rewrite_plugins. rewrite match_plugins_form; [|done|done|].
  - rewrite Hreg. by simpl.
  - right. exists ("static/" +:+ r). split; [done|]. by simpl.
Qed.

(** ** The freshness stat (C4, C10) *)

Lemma statFile_on_disk (env : Env) (filename : string) (limit : nat) :
  served_from_disk filename →
  statFile env filename (S limit)
  = (let* r := try_ (stat env (ROOT_DIR env +:+ filename)) in
     match r with
     | inr err =>
         if bool_decide (exn_code err = Some "ENOENT") then
           let* (date, _) := statFile env (Path.dirname filename) limit in
           ret (date, false)
         else throw err
     | inl stats => ret (Some (mtime stats), isFile stats)
     end).
Proof.
  intros (H1 & H2 & H3 & H4). simpl.
  by rewrite !Str_eqb_neq.
Qed.

Lemma statFile_found (env : Env) (filename : string) (limit : nat) (st : Stats) :
  served_from_disk filename →
  fs_stat env (ROOT_DIR env +:+ filename) = inl st →
  statFile env filename (S limit)
  = ([EvStat (ROOT_DIR env +:+ filename)], Val (Some (mtime st), isFile st)).
Proof.
  intros Hdisk Hst. rewrite statFile_on_disk by done.
  unfold stat. by rewrite Hst.
Qed.

Lemma statFile_enoent (env : Env) (filename : string) (limit : nat) :
  served_from_disk filename →
  fs_stat env (ROOT_DIR env +:+ filename) = inr "ENOENT" →
  statFile env filename (S limit)
  = (emit (EvStat (ROOT_DIR env +:+ filename));;
     let* (date, _) := statFile env (Path.dirname filename) limit in
     ret (date, false)).
Proof.
  intros Hdisk Hst. rewrite statFile_on_disk by done.
  unfold stat. rewrite Hst. simpl.
  by destruct (statFile env (Path.dirname filename) limit) as [tr [[d e]| |]].
Qed.

Lemma statFile_other_error (env : Env) (filename code : string) (limit : nat) :
  served_from_disk filename →
  fs_stat env (ROOT_DIR env +:+ filename) = inr code →
  code ≠ "ENOENT" →
  statFile env filename (S limit)
  = ([EvStat (ROOT_DIR env +:+ filename)], Throw (FsError code)).
Proof.
  intros Hdisk Hst Hcode. rewrite statFile_on_disk by done.
  unfold stat. rewrite Hst. simpl.
  rewrite bool_decide_eq_false_2; [done|]. by intros [= ->].
Qed.

(** C4: when the file system reports the exact file of a path as missing,
    [statFile] stats the parent directory with the budget reduced by one
    and returns the date found there with [exists = false]: the parent's
    own mtime when the parent is there and budget is left, nothing when
    the budget runs out.  With no budget, or at the root, it returns no
    date and [exists = false]. *)
Theorem missing_file_falls_back (env : Env) (filename : string) (limit : nat) :
  served_from_disk filename →
  fs_stat env (ROOT_DIR env +:+ filename) = inr "ENOENT" →
  statFile env filename (S limit)
  = (emit (EvStat (ROOT_DIR env +:+ filename));;
     let* (date, _) := statFile env (Path.dirname filename) limit in
     ret (date, false))
  ∧ (∀ st : Stats,
       (0 < limit)%nat →
       served_from_disk (Path.dirname filename) →
       fs_stat env (ROOT_DIR env +:+ Path.dirname filename) = inl st →
       result (statFile env filename (S limit)) = Val (Some (mtime st), false))
  ∧ result (statFile env filename 1) = Val (None, false)
  ∧ statFile env filename 0 = ret (None, false)
  ∧ statFile env "" (S limit) = ret (None, false)
  ∧ statFile env "/" (S limit) = ret (None, false).
Proof.
  intros Hdisk Hst. split; [by apply statFile_enoent|].
  split; [|split; [|done]].
  - intros st Hlim Hparent Hpst. rewrite statFile_enoent by done.
    destruct limit as [|limit]; [lia|].
    by rewrite (statFile_found _ _ _ st).
  - by rewrite statFile_enoent.
Qed.

Lemma missing_file_falls_back_witness :
  result (statFile Sample.world "css/none.css" 3) = Val (Some 1700000400000, false).
Proof.
  destruct (missing_file_falls_back Sample.world "css/none.css" 2)
    as (_ & Hparent & _).
  - by repeat split.
  - reflexivity.
  - apply (Hparent {| mtime := 1700000400000; isFile := false |}).
    + lia.
    + by repeat split.
    + reflexivity.
Defined.

Example fallback_budget_runs_out :
  statFile Sample.world "a/b/c/d/e.js" 3
  = ([EvStat "/srv/etherpad/src/static/a/b/c/d/e.js";
      EvStat "/srv/etherpad/src/static/a/b/c/d";
      EvStat "/srv/etherpad/src/static/a/b/c"],
     Val (None, false)).
Proof. reflexivity. Qed.

Lemma stat_errors_thrown_ret (env : Env) {A} (a : A) :
  stat_errors_thrown env (ret a).
Proof. intros p code Hin. by apply elem_of_nil in Hin. Qed.

Lemma stat_errors_thrown_bind (env : Env) {A B} (m : M A) (k : A → M B) :
  stat_errors_thrown env m → (∀ a, stat_errors_thrown env (k a)) →
  stat_errors_thrown env (bind m k).
Proof.
  intros Hm Hk p code Hin Hfs Hcode.
  destruct m as [tr [a| e |]];
    [|specialize (Hm p code Hin Hfs Hcode); unfold result in *; simpl in *;
      by simplify_eq..].
  rewrite bind_val in *. unfold trace, result in *. simpl in *.
  apply elem_of_app in Hin as [Hin | Hin].
  - by specialize (Hm p code Hin Hfs Hcode).
  - by apply (Hk a p code).
Qed.

Lemma stat_errors_thrown_foldM (env : Env) {A B} (f : A → B → M A) (a : A) (l : list B) :
  (∀ a x, stat_errors_thrown env (f a x)) →
  stat_errors_thrown env (foldM f a l).
Proof.
  intros Hf. revert a. induction l as [|x l IH]; intros a; simpl.
  - apply stat_errors_thrown_ret.
  - by apply stat_errors_thrown_bind.
Qed.

Lemma stat_errors_thrown_stat (env : Env) (path : string) :
  stat_errors_thrown env (stat env path).
Proof.
  intros p code Hin Hfs _. unfold stat, trace, result in *. simpl in *.
  apply list_elem_of_singleton in Hin as [= ->]. by rewrite Hfs.
Qed.

Lemma stat_errors_thrown_readdir (env : Env) (path : string) :
  stat_errors_thrown env (readdir env path).
Proof.
  intros p code Hin. unfold readdir, trace in Hin. simpl in Hin.
  by apply list_elem_of_singleton in Hin.
Qed.

Lemma stat_errors_thrown_everything (env : Env) :
  stat_errors_thrown env (lastModifiedDateOfEverything env).
Proof.
  apply stat_errors_thrown_foldM. intros latest path.
  apply stat_errors_thrown_bind; [apply stat_errors_thrown_readdir|].
  intros files. apply stat_errors_thrown_foldM. intros latest' filename.
  apply stat_errors_thrown_bind; [apply stat_errors_thrown_stat|].
  intros stats. apply stat_errors_thrown_ret.
Qed.

Lemma stat_errors_thrown_statFile (env : Env) (filename : string) (limit : nat) :
  stat_errors_thrown env (statFile env filename limit).
Proof.
  revert filename. induction limit as [|limit IH]; intros filename.
  { apply stat_errors_thrown_ret. }
  simpl.
  destruct (Str.eqb filename "" || Str.eqb filename "/")%bool;
    [apply stat_errors_thrown_ret|].
  destruct (Str.eqb filename "js/ace.js").
  { apply stat_errors_thrown_bind; [apply stat_errors_thrown_everything|].
    intros d. apply stat_errors_thrown_ret. }
  destruct (Str.eqb filename "js/require-kernel.js");
    [apply stat_errors_thrown_ret|].
  unfold stat. destruct (fs_stat env (ROOT_DIR env +:+ filename)) as [st|c] eqn:Hst.
  { simpl. intros p code Hin Hfs _. unfold trace in Hin. simpl in Hin.
    apply list_elem_of_singleton in Hin as [= ->]. congruence. }
  simpl. case_bool_decide as Hc.
  - injection Hc as ->.
    intros p code Hin Hfs Hcode.
    destruct (statFile env (Path.dirname filename) limit) as [tr o] eqn:Hrec.
    assert (EvStat p ∈ tr) as Hin'.
    { destruct o as [[d e]| |]; unfold trace in Hin; simpl in Hin;
        rewrite ?app_nil_r in Hin;
        apply elem_of_cons in Hin as [[= ->] | Hin]; congruence. }
    specialize (IH (Path.dirname filename) p code). rewrite Hrec in IH.
    specialize (IH Hin' Hfs Hcode). unfold result in *. simpl in *.
    by rewrite IH.
  - intros p code Hin Hfs _. unfold trace in Hin. simpl in Hin.
    apply list_elem_of_singleton in Hin as [= ->]. unfold result. simpl. congruence.
Qed.

(** ** The handler *)

Lemma requestURI_below (env : Env) (depth : nat) :
  requestURI env depth = requestURI_via env (below env depth).
Proof. by destruct depth. Qed.

Lemma minify_resolved (env : Env)
    (loopback : string → string → Headers → M (Z * Headers * string))
    (req : Request) (res : Response) (filename : string) :
  resolve env (req_filename req) = Some filename →
  minify env loopback req res = respond env loopback filename req res.
Proof.
  unfold resolve, minify. destruct (confine env (req_filename req)); [|done].
  simpl. by intros [= ->].
Qed.

Lemma freshness_headers_lookup (env : Env) (date : option Z) (res : Response)
    (key : string) :
  key ∉ ["last-modified"; "date"; "expires"; "cache-control"] →
  headers (freshness_headers env date res) !! key = headers res !! key.
Proof.
  intros Hkey. unfold freshness_headers.
  destruct date as [d|]; [|done].
  destruct (settings_maxAge env) as [maxAge|]; simpl;
    rewrite !lookup_insert_ne; try done;
    intros <-; apply Hkey; set_solver.
Qed.

Lemma freshness_headers_rest (env : Env) (date : option Z) (res : Response) :
  status (freshness_headers env date res) = status res
  ∧ chunks (freshness_headers env date res) = chunks res
  ∧ resolved (freshness_headers env date res) = resolved res.
Proof.
  unfold freshness_headers. destruct date as [d|]; [|done].
  by destruct (settings_maxAge env).
Qed.

Lemma truthy_false_empty (c : content) : truthy c = false → toString c = "".
Proof.
  destruct c as [b|s]; [done|]. simpl. intros H%negb_false_iff.
  by apply Str_eqb_eq in H.
Qed.

(** The body [end] resolves the promise with after one [write]. *)
Lemma body_after_write (c : content) (res : Response) :
  chunks res = [] → resolved res = None →
  resolved (end_ None (write c res)) = Some (status res, toString c).
Proof.
  intros Hch Hres. unfold end_, write, push_chunk.
  destruct (truthy c) eqn:Ht; simpl; rewrite Hch, Hres; simpl.
  - by rewrite app_empty_r.
  - by rewrite truthy_false_empty.
Qed.

(** The answer [end] resolves the promise with when nothing was written. *)
Lemma answer_without_body (st : Z) (hs : Headers) (res : Response) :
  chunks res = [] → resolved res = None →
  resolved (end_ None (writeHead st hs res)) = Some (st, "").
Proof. intros Hch Hres. unfold end_, writeHead. simpl. by rewrite Hch, Hres. Qed.

Lemma answer_after_freshness (env : Env) (st : Z) (hs : Headers) (date : option Z)
    (headers0 : Headers) :
  resolved (end_ None (writeHead st hs
              (freshness_headers env date (mockResponse headers0))))
  = Some (st, "").
Proof.
  destruct (freshness_headers_rest env date (mockResponse headers0))
    as (_ & Hch & Hrs).
  by apply answer_without_body.
Qed.

Lemma respond_stat_throws (env : Env)
    (loopback : string → string → Headers → M (Z * Headers * string))
    (filename : string) (req : Request) (res : Response)
    (tr : list event) (e : exn) :
  statFile env filename 3 = (tr, Throw e) →
  respond env loopback filename req res = (tr, Throw e).
Proof. intros H. unfold respond. by rewrite H. Qed.

Lemma respond_missing (env : Env)
    (loopback : string → string → Headers → M (Z * Headers * string))
    (filename : string) (req : Request) (res : Response)
    (tr : list event) (date : option Z) :
  statFile env filename 3 = (tr, Val (date, false)) →
  respond env loopback filename req res
  = (tr, Val (end_ None (writeHead 404 ∅ (freshness_headers env date res)))).
Proof. intros H. unfold respond. rewrite H. simpl. by rewrite app_nil_r. Qed.

Lemma not_modified_after_freshness (env : Env) (date : option Z) (res : Response) :
  date_ge (headers (freshness_headers env date res) !! "if-modified-since"
           ≫= Date_parse env) (setMilliseconds0 <$> date)
  = not_modified env (headers res) date.
Proof.
  unfold not_modified. rewrite freshness_headers_lookup; [done|].
  intros H. repeat (apply elem_of_cons in H as [?|H]; [done|]).
  by apply elem_of_nil in H.
Qed.

Lemma respond_not_modified (env : Env)
    (loopback : string → string → Headers → M (Z * Headers * string))
    (filename : string) (req : Request) (res : Response)
    (tr : list event) (date : option Z) :
  statFile env filename 3 = (tr, Val (date, true)) →
  not_modified env (headers res) date = true →
  respond env loopback filename req res
  = (tr, Val (end_ None (writeHead 304 ∅ (freshness_headers env date res)))).
Proof.
  intros H Hnm. unfold respond. rewrite H. simpl.
  rewrite not_modified_after_freshness, Hnm. simpl. by rewrite app_nil_r.
Qed.

Lemma respond_get (env : Env)
    (loopback : string → string → Headers → M (Z * Headers * string))
    (filename : string) (req : Request) (res : Response)
    (tr tr' : list event) (date : option Z) (c : content) :
  statFile env filename 3 = (tr, Val (date, true)) →
  not_modified env (headers res) date = false →
  req_method req = "GET" →
  getFileCompressed env loopback filename (mime_lookup env filename) = (tr', Val c) →
  respond env loopback filename req res
  = (tr ++ tr',
     Val (end_ None
            (write c
               (writeHead 200 ∅
                  (setHeader "Content-Type"
                     (contentType_toString (mime_lookup env filename))
                     (freshness_headers env date res)))))).
Proof.
  intros H Hnm Hget Hc. unfold respond. rewrite H. simpl.
  rewrite not_modified_after_freshness, Hnm, Hget, Hc. simpl.
  by rewrite app_nil_r.
Qed.

Lemma respond_other_method (env : Env)
    (loopback : string → string → Headers → M (Z * Headers * string))
    (filename : string) (req : Request) (res : Response)
    (tr : list event) (date : option Z) :
  statFile env filename 3 = (tr, Val (date, true)) →
  not_modified env (headers res) date = false →
  req_method req ≠ "HEAD" → req_method req ≠ "GET" →
  respond env loopback filename req res
  = (tr, Val (end_ None (writeHead 405 {["allow" := "HEAD, GET"]}
                           (freshness_headers env date res)))).
Proof.
  intros H Hnm Hhead Hget. unfold respond. rewrite H. simpl.
  rewrite not_modified_after_freshness, Hnm.
  rewrite (Str_eqb_neq _ _ Hhead), (Str_eqb_neq _ _ Hget). simpl.
  by rewrite app_nil_r.
Qed.

(** What [requestURI] makes of a finished handler. *)
Lemma requestURI_of_respond (env : Env) (depth : nat) (url method p filename : string)
    (headers0 : Headers) (tr : list event) (res : Response) (st : Z) (body : string) :
  URL_pathname_search env url = Some p →
  resolve env (Str.strip_static p) = Some filename →
  respond env (below env depth) filename
    {| req_url := url; req_method := method; req_filename := Str.strip_static p |}
    (mockResponse headers0) = (tr, Val res) →
  resolved res = Some (st, body) →
  requestURI env depth url method headers0 = (tr, Val (st, headers res, body)).
Proof.
  intros Hurl Hres Hresp Hdone. rewrite requestURI_below. unfold requestURI_via.
  rewrite Hurl. rewrite (minify_resolved _ _ _ _ filename) by done.
  rewrite Hresp. simpl. rewrite Hdone. simpl. by rewrite app_nil_r.
Qed.

Lemma requestURI_stat_throws (env : Env) (depth : nat) (url method p filename : string)
    (headers0 : Headers) (tr : list event) (e : exn) :
  URL_pathname_search env url = Some p →
  resolve env (Str.strip_static p) = Some filename →
  statFile env filename 3 = (tr, Throw e) →
  requestURI env depth url method headers0 = (tr, Throw e).
Proof.
  intros Hurl Hres Hst. rewrite requestURI_below. unfold requestURI_via.
  rewrite Hurl. rewrite (minify_resolved _ _ _ _ filename) by done.
  by rewrite (respond_stat_throws _ _ _ _ _ tr e).
Qed.

(** C10: a stat error other than [ENOENT] is thrown to the caller of
    [statFile], whichever stat of the run it comes from and at once, with
    no stat of the parent; from the handler it reaches [next], which makes
    it a server error.  When the stat of the path fails and [statFile]
    still returns, the failure was [ENOENT]. *)
Theorem stat_error_propagates (env : Env) (filename code : string) (limit : nat) :
  served_from_disk filename →
  fs_stat env (ROOT_DIR env +:+ filename) = inr code →
  (∀ f l, stat_errors_thrown env (statFile env f l))
  ∧ (code ≠ "ENOENT" →
     statFile env filename (S limit)
     = ([EvStat (ROOT_DIR env +:+ filename)], Throw (FsError code)))
  ∧ (code ≠ "ENOENT" →
     ∀ depth req res,
       resolve env (req_filename req) = Some filename →
       exports_minify env depth req res
       = ([EvStat (ROOT_DIR env +:+ filename)], Next (FsError code)))
  ∧ (∀ v, result (statFile env filename (S limit)) = Val v → code = "ENOENT").
Proof.
  intros Hdisk Hst. split; [apply stat_errors_thrown_statFile|].
  split; [by apply statFile_other_error|]. split.
  - intros Hcode depth req res Hres. unfold exports_minify.
    rewrite (minify_resolved _ _ _ _ filename) by done.
    by rewrite (respond_stat_throws _ _ _ _ _ _ (FsError code))
      by by apply statFile_other_error.
  - intros v Hv. destruct (decide (code = "ENOENT")) as [|Hne]; [done|].
    by rewrite (statFile_other_error _ _ code) in Hv.
Qed.

Lemma stat_error_propagates_witness :
  statFile Sample.world "secret" 3
  = ([EvStat "/srv/etherpad/src/static/secret"], Throw (FsError "EACCES")).
Proof.
  destruct (stat_error_propagates Sample.world "secret" "EACCES" 2)
    as (_ & Hthrow & _).
  - by repeat split.
  - reflexivity.
  - by apply Hthrow.
Defined.

Example parent_error_propagates :
  result (Sample.handle Sample.world "GET" "secret/a.js" ∅) = Throw (FsError "EACCES").
Proof. reflexivity. Qed.

(** ** Methods and conditional requests (C9, C3) *)

(** C9, as the claim states it, fails: the conditional test comes before
    the method dispatch, so a POST for the existing [x.js] whose
    [if-modified-since] is not older than the file gets 304, not 405. *)
Lemma method_claim_counterexample :
  result (statFile Sample.world "x.js" 3) = Val (Some 1700000600000, true)
  ∧ result (requestURI Sample.world 1 "http://invalid.invalid/static/x.js" "POST"
              {["if-modified-since" := "Tue, 14 Nov 2023 22:23:20 GMT"]})
    = Val (304,
           <["last-modified" := "Tue, 14 Nov 2023 22:23:20 GMT"]>
             (<["date" := "Tue, 14 Nov 2023 22:30:00 GMT"]>
                (<["expires" := "Wed, 15 Nov 2023 04:30:00 GMT"]>
                   (<["cache-control" := "max-age=21600"]>
                      {["if-modified-since" := "Tue, 14 Nov 2023 22:23:20 GMT"]}))),
           "").
Proof. split; vm_compute; reflexivity. Qed.

(** C9, amended: a request with a method other than GET and HEAD for an
    existing resource, whose [if-modified-since] header is absent, does not
    parse, or is older than the resource, is answered 405 with the header
    [allow: HEAD, GET] and an empty body, and nothing is read. *)
Theorem unsupported_method_405 (env : Env) (depth : nat)
    (url method p filename : string) (headers0 : Headers)
    (tr : list event) (date : option Z) :
  URL_pathname_search env url = Some p →
  resolve env (Str.strip_static p) = Some filename →
  statFile env filename 3 = (tr, Val (date, true)) →
  method ≠ "GET" → method ≠ "HEAD" →
  not_modified env headers0 date = false →
  ∃ h,
    requestURI env depth url method headers0 = (tr, Val (405, h, ""))
    ∧ h !! "allow" = Some "HEAD, GET"
    ∧ h = {["allow" := "HEAD, GET"]}
          ∪ headers (freshness_headers env date (mockResponse headers0)).
Proof.
  intros Hurl Hres Hstat Hget Hhead Hnm.
  exists (headers (end_ None (writeHead 405 {["allow" := "HEAD, GET"]}
                    (freshness_headers env date (mockResponse headers0))))).
  split; [|split; [|done]].
  - eapply requestURI_of_respond; [done..| |].
    + by apply respond_other_method.
    + apply answer_after_freshness.
  - simpl. apply lookup_union_Some_l. by rewrite lookup_singleton_eq.
Qed.

Lemma unsupported_method_405_witness :
  ∃ h, requestURI Sample.world 1 "http://invalid.invalid/static/x.js" "POST" ∅
       = ([EvStat "/srv/etherpad/src/static/x.js"], Val (405, h, ""))
       ∧ h !! "allow" = Some "HEAD, GET".
Proof.
  destruct (unsupported_method_405 Sample.world 1
              "http://invalid.invalid/static/x.js" "POST" "/static/x.js" "x.js" ∅
              [EvStat "/srv/etherpad/src/static/x.js"] (Some 1700000600000))
    as (h & Hreq & Hallow & _); try reflexivity; try discriminate.
  exists h. by split.
Defined.

(** C3: for an existing resource whose last-modified time, cut to whole
    seconds, is [T], a GET whose [if-modified-since] parses to [T] is
    answered 304 with an empty body and nothing is read; a GET whose
    [if-modified-since] parses to [T] minus one second is answered 200 with
    the whole content as [getFileCompressed] delivers it. *)
Theorem conditional_get (env : Env) (depth : nat) (url p filename since : string)
    (headers0 : Headers) (tr : list event) (mtime0 : Z) :
  URL_pathname_search env url = Some p →
  resolve env (Str.strip_static p) = Some filename →
  statFile env filename 3 = (tr, Val (Some mtime0, true)) →
  headers0 !! "if-modified-since" = Some since →
  (Date_parse env since = Some (setMilliseconds0 mtime0) →
   requestURI env depth url "GET" headers0
   = (tr, Val (304,
               headers (freshness_headers env (Some mtime0) (mockResponse headers0)),
               "")))
  ∧ (Date_parse env since = Some (setMilliseconds0 mtime0 - 1000) →
     ∀ tr' c,
       getFileCompressed env (below env depth) filename (mime_lookup env filename)
       = (tr', Val c) →
       requestURI env depth url "GET" headers0
       = (tr ++ tr',
          Val (200,
               <["content-type" := contentType_toString (mime_lookup env filename)]>
                 (headers (freshness_headers env (Some mtime0) (mockResponse headers0))),
               toString c))).
Proof.
  intros Hurl Hres Hstat Hsince.
  destruct (freshness_headers_rest env (Some mtime0) (mockResponse headers0))
    as (Hst & Hch & Hrs).
  split.
  - intros Hparse.
    assert (not_modified env headers0 (Some mtime0) = true) as Hnm.
    { unfold not_modified. rewrite Hsince. simpl. rewrite Hparse. simpl.
      apply Z.leb_refl. }
    replace (headers (freshness_headers env (Some mtime0) (mockResponse headers0)))
      with (headers (end_ None (writeHead 304 ∅
              (freshness_headers env (Some mtime0) (mockResponse headers0))))).
    2:{ simpl. by rewrite (left_id_L ∅ (∪)). }
    eapply requestURI_of_respond; [done..| |].
    + by apply respond_not_modified.
    + apply answer_after_freshness.
  - intros Hparse tr' c Hc.
    assert (not_modified env headers0 (Some mtime0) = false) as Hnm.
    { unfold not_modified. rewrite Hsince. simpl. rewrite Hparse. simpl.
      apply Z.leb_gt. lia. }
    match goal with |- _ = (_, Val (_, ?h, _)) =>
      replace h with (headers (end_ None (write c (writeHead 200 ∅
        (setHeader "Content-Type" (contentType_toString (mime_lookup env filename))
           (freshness_headers env (Some mtime0) (mockResponse headers0)))))))
    end.
    2:{ unfold end_, write, push_chunk. destruct (truthy c); simpl;
          by rewrite (left_id_L ∅ (∪)). }
    eapply requestURI_of_respond; [done..| |].
    + by apply respond_get.
    + rewrite body_after_write; [done| |]; simpl; done.
Qed.

Lemma conditional_get_witness :
  requestURI Sample.world 1 "http://invalid.invalid/static/x.js" "GET"
    {["if-modified-since" := "Tue, 14 Nov 2023 22:23:20 GMT"]}
  = ([EvStat "/srv/etherpad/src/static/x.js"],
     Val (304,
          headers (freshness_headers Sample.world (Some 1700000600000)
                     (mockResponse {["if-modified-since" := "Tue, 14 Nov 2023 22:23:20 GMT"]})),
          ""))
  ∧ result (requestURI Sample.world 1 "http://invalid.invalid/static/js/pad.js" "GET"
              {["if-modified-since" := "Tue, 14 Nov 2023 22:18:19 GMT"]})
    = Val (200,
           <["content-type" := "application/javascript"]>
             (headers (freshness_headers Sample.world (Some 1700000300999)
                (mockResponse {["if-modified-since" := "Tue, 14 Nov 2023 22:18:19 GMT"]}))),
           "/*min*/var pad = 1;").
Proof.
  split.
  - apply (conditional_get Sample.world 1 "http://invalid.invalid/static/x.js"
             "/static/x.js" "x.js" "Tue, 14 Nov 2023 22:23:20 GMT");
      reflexivity.
  - pose proof (conditional_get Sample.world 1 "http://invalid.invalid/static/js/pad.js"
                  "/static/js/pad.js" "js/pad.js" "Tue, 14 Nov 2023 22:18:19 GMT"
                  {["if-modified-since" := "Tue, 14 Nov 2023 22:18:19 GMT"]}
                  [EvStat "/srv/etherpad/src/static/js/pad.js"] 1700000300999
                  eq_refl eq_refl eq_refl eq_refl) as [_ H200].
    rewrite (H200 eq_refl
               [EvReadFile "/srv/etherpad/src/static/js/pad.js";
                EvLoggerInfo "Compress JS file js/pad.js.";
                EvCompressJS "var pad = 1;"]
               (Text "/*min*/var pad = 1;") eq_refl).
    reflexivity.
Defined.

(** ** Best-effort compression (C6) *)

Lemma compress_script_fails (env : Env) (filename : string)
    (contentType : option string) (original : content) :
  compressJS env (toString original) = None
  ∨ (∃ r, compressJS env (toString original) = Some r
          ∧ (error r = true ∨ code r = None)) →
  result (compress_script env filename contentType original)
  = Val (Text (toString original)).
Proof.
  unfold compress_script, worker_compressJS.
  intros [-> | (r & -> & Hr)]; [done|]. simpl.
  destruct (error r) eqn:He; [done|].
  destruct Hr as [|Hc]; [done|]. by rewrite Hc.
Qed.

Lemma compress_style_fails (env : Env) (filename : string) (original : content) :
  compressCSS env filename (ROOT_DIR env) = None →
  result (compress_style env filename original) = Val original.
Proof. unfold compress_style, worker_compressCSS. by intros ->. Qed.

Lemma getFileCompressed_fails (env : Env)
    (loopback : string → string → Headers → M (Z * Headers * string))
    (filename : string) (contentType : option string) (original : content) :
  result (getFile env loopback filename) = Val original →
  transform_fails env filename contentType original →
  ∃ c, result (getFileCompressed env loopback filename contentType) = Val c
       ∧ toString c = toString original.
Proof.
  intros Hfile Hfail. unfold getFileCompressed.
  rewrite (result_bind_val _ original) by done.
  destruct (negb (truthy original) || negb (settings_minify env))%bool;
    [by exists original|].
  destruct Hfail as [[-> Hjs] | [-> Hcss]].
  - rewrite bool_decide_eq_true_2 by done.
    exists (Text (toString original)). split; [|done].
    by apply compress_script_fails.
  - rewrite bool_decide_eq_false_2 by done.
    rewrite bool_decide_eq_true_2 by done.
    exists original. split; [|done]. by apply compress_style_fails.
Qed.

(** C6: when the transform of a script or style sheet fails, the
    compression step returns the original content, and a GET for the
    existing, modified resource is answered 200 with that content as its
    body. *)
Theorem compression_failure_serves_original (env : Env) (depth : nat)
    (url p filename : string) (headers0 : Headers) (tr : list event)
    (date : option Z) (original : content) :
  URL_pathname_search env url = Some p →
  resolve env (Str.strip_static p) = Some filename →
  statFile env filename 3 = (tr, Val (date, true)) →
  not_modified env headers0 date = false →
  result (getFile env (below env depth) filename) = Val original →
  transform_fails env filename (mime_lookup env filename) original →
  (∃ c, result (getFileCompressed env (below env depth) filename
                  (mime_lookup env filename)) = Val c
        ∧ toString c = toString original)
  ∧ ∃ h, result (requestURI env depth url "GET" headers0)
         = Val (200, h, toString original).
Proof.
  intros Hurl Hres Hstat Hnm Hfile Hfail.
  destruct (getFileCompressed_fails env (below env depth) filename
              (mime_lookup env filename) original Hfile Hfail) as (c & Hc & Hsame).
  split; [by exists c|].
  destruct (getFileCompressed env (below env depth) filename
              (mime_lookup env filename)) as [tr' o] eqn:Hgfc.
  unfold result in Hc. simpl in Hc. subst o.
  eexists. erewrite requestURI_of_respond; [|done..| |].
  - unfold result. simpl. by rewrite <- Hsame.
  - by apply respond_get.
  - rewrite body_after_write; [|simpl..].
    + done.
    + by destruct (freshness_headers_rest env date (mockResponse headers0))
        as (_ & -> & _).
    + by destruct (freshness_headers_rest env date (mockResponse headers0))
        as (_ & _ & ->).
Qed.

Lemma compression_failure_serves_original_witness :
  ∃ h, result (requestURI Sample.world 1 "http://invalid.invalid/static/js/bad.js"
                 "GET" ∅)
       = Val (200, h, "bad syntax").
Proof.
  apply (compression_failure_serves_original Sample.world 1
           "http://invalid.invalid/static/js/bad.js" "/static/js/bad.js" "js/bad.js"
           ∅ [EvStat "/srv/etherpad/src/static/js/bad.js"] (Some 1700000350000)
           (Buffer "bad syntax")); try reflexivity.
  left. split; [reflexivity|]. right.
  exists {| error := true; code := None |}. split; [reflexivity|by left].
Defined.

Example style_failure_serves_original :
  result (compress_style Sample.world "css/none.css" (Buffer "a { }"))
  = Val (Buffer "a { }").
Proof. reflexivity. Qed.

(** ** The aggregate time stamp of [js/ace.js] (C5) *)

Lemma foldl_later_some (a : Z) (l : list Z) :
  ∃ m, foldl later (Some a) l = Some m ∧ is_max m (a :: l).
Proof.
  revert a. induction l as [|t l IH]; intros a; simpl.
  - exists a. split; [done|]. split; [by left|].
    intros t Ht. apply list_elem_of_singleton in Ht. lia.
  - destruct (Z.ltb_spec a t) as [Hlt|Hge].
    + destruct (IH t) as (m & -> & Hin & Hmax). exists m. split; [done|].
      assert (t ≤ m) as Htm by (apply Hmax; by left).
      split; [by right|].
      intros u Hu. apply elem_of_cons in Hu as [->|Hu]; [lia|by apply Hmax].
    + destruct (IH a) as (m & -> & Hin & Hmax). exists m. split; [done|].
      assert (a ≤ m) as Ham by (apply Hmax; by left).
      split.
      * apply elem_of_cons in Hin as [->|Hin]; [by left|by do 2 right].
      * intros u Hu. apply elem_of_cons in Hu as [->|Hu]; [done|].
        apply elem_of_cons in Hu as [->|Hu]; [lia|].
        apply Hmax. by right.
Qed.

Lemma foldl_later_none (l : list Z) :
  l ≠ [] → ∃ m, foldl later None l = Some m ∧ is_max m l.
Proof. destruct l as [|a l]; [done|]. intros _. apply foldl_later_some. Qed.

Lemma is_max_unique (m m' : Z) (l : list Z) : is_max m l → is_max m' l → m = m'.
Proof. intros [Hin Hmax] [Hin' Hmax']. apply Hmax in Hin'. apply Hmax' in Hin. lia. Qed.

Lemma check_entries_result (env : Env) (path : string) (files : list string)
    (latest : option Z) :
  (∀ f, f ∈ files → ∃ st, fs_stat env (path +:+ "/" +:+ f) = inl st) →
  result (foldM (check_entry env path) latest files)
  = Val (foldl later latest (mtime_of env <$> ((λ f, path +:+ "/" +:+ f) <$> files))).
Proof.
  revert latest. induction files as [|f files IH]; intros latest Hok; [done|].
  simpl. destruct (Hok f) as [st Hst]; [by left|].
  rewrite (result_bind_val _ (later latest (mtime st))).
  - rewrite IH by (intros; apply Hok; by right).
    unfold mtime_of at 2. by rewrite Hst.
  - unfold check_entry, stat. by rewrite Hst.
Qed.

Lemma check_folder_result (env : Env) (path : string) (files : list string)
    (latest : option Z) :
  fs_readdir env path = inl files →
  (∀ f, f ∈ files ++ ["."] → ∃ st, fs_stat env (path +:+ "/" +:+ f) = inl st) →
  result (check_folder env latest path)
  = Val (foldl later latest
           (mtime_of env <$> ((λ f, path +:+ "/" +:+ f) <$> (files ++ ["."])))).
Proof.
  intros Hdir Hok. unfold check_folder.
  rewrite (result_bind_val _ files) by (unfold readdir; by rewrite Hdir).
  by apply check_entries_result.
Qed.

Lemma everything_result (env : Env) (scripts styles : list string) :
  fs_readdir env (ROOT_DIR env +:+ "js/") = inl scripts →
  fs_readdir env (ROOT_DIR env +:+ "css/") = inl styles →
  (∀ p, p ∈ checked_paths env scripts styles → ∃ st, fs_stat env p = inl st) →
  result (lastModifiedDateOfEverything env)
  = Val (foldl later None (mtime_of env <$> checked_paths env scripts styles)).
Proof.
  intros Hjs Hcss Hok.
  assert (∀ f, f ∈ scripts ++ ["."] →
            ∃ st, fs_stat env ((ROOT_DIR env +:+ "js/") +:+ "/" +:+ f) = inl st)
    as Hscripts.
  { intros f Hf. apply Hok. unfold checked_paths. apply elem_of_app. left.
    by apply (list_elem_of_fmap_2 (λ f, (ROOT_DIR env +:+ "js/") +:+ "/" +:+ f)). }
  assert (∀ f, f ∈ styles ++ ["."] →
            ∃ st, fs_stat env ((ROOT_DIR env +:+ "css/") +:+ "/" +:+ f) = inl st)
    as Hstyles.
  { intros f Hf. apply Hok. unfold checked_paths. apply elem_of_app. right.
    by apply (list_elem_of_fmap_2 (λ f, (ROOT_DIR env +:+ "css/") +:+ "/" +:+ f)). }
  unfold lastModifiedDateOfEverything, folders2check. simpl.
  rewrite (result_bind_val _ _ _ (check_folder_result env _ scripts None Hjs Hscripts)).
  rewrite (result_bind_val _ _ _ (check_folder_result env _ styles _ Hcss Hstyles)).
  unfold checked_paths. by rewrite !fmap_app, !foldl_app.
Qed.

Lemma ace_freshness (env : Env) (limit : nat) (scripts styles : list string) :
  fs_readdir env (ROOT_DIR env +:+ "js/") = inl scripts →
  fs_readdir env (ROOT_DIR env +:+ "css/") = inl styles →
  (∀ p, p ∈ checked_paths env scripts styles → ∃ st, fs_stat env p = inl st) →
  ∃ m, result (statFile env "js/ace.js" (S limit)) = Val (Some m, true)
       ∧ is_max m (mtime_of env <$> checked_paths env scripts styles).
Proof.
  intros Hjs Hcss Hok.
  destruct (foldl_later_none (mtime_of env <$> checked_paths env scripts styles))
    as (m & Hfold & Hmax).
  { unfold checked_paths. rewrite !fmap_app. simpl.
    intros H. apply app_eq_nil in H as [H _]. by apply app_eq_nil in H as [_ H]. }
  exists m. split; [|done].
  change (statFile env "js/ace.js" (S limit))
    with (let* d := lastModifiedDateOfEverything env in ret (d, true)).
  rewrite (result_bind_val _ _ _ (everything_result env scripts styles Hjs Hcss Hok)).
  by rewrite Hfold.
Qed.

Lemma touch_stat (env : Env) (q p : string) (t : Z) (st : Stats) :
  fs_stat env p = inl st →
  ∃ st', fs_stat (touch env q t) p = inl st'
         ∧ mtime st' = (if Str.eqb p q then t else mtime st).
Proof.
  intros Hst. simpl. rewrite Hst. destruct (Str.eqb p q); eauto.
Qed.

(** C5, as the claim states it, fails for the files further down the two
    trees: only the entries [readdir] lists for the two directories are
    stat'ed.  Touching [js/vendors/jquery.js] at a time later than the
    aggregate date leaves the aggregate date where it was. *)
Lemma tree_claim_counterexample :
  Str.startsWith (ROOT_DIR Sample.world +:+ "js/")
    "/srv/etherpad/src/static/js/vendors/jquery.js" = true
  ∧ fs_stat Sample.world "/srv/etherpad/src/static/js/vendors/jquery.js"
    = inl {| mtime := 1700000250000; isFile := true |}
  ∧ result (statFile Sample.world "js/ace.js" 3) = Val (Some 1700000500000, true)
  ∧ fs_stat (Sample.world_of
               (Sample.retime "/srv/etherpad/src/static/js/vendors/jquery.js"
                  1700000999000 Sample.table))
      "/srv/etherpad/src/static/js/vendors/jquery.js"
    = inl {| mtime := 1700000999000; isFile := true |}
  ∧ result (statFile
              (Sample.world_of
                 (Sample.retime "/srv/etherpad/src/static/js/vendors/jquery.js"
                    1700000999000 Sample.table))
              "js/ace.js" 3)
    = Val (Some 1700000500000, true).
Proof. repeat split; vm_compute; reflexivity. Qed.

(** C5, amended: the freshness record of [js/ace.js] has [exists = true]
    and, as its date, the maximum of the mtimes of the entries of the script
    and style directories and of the two directories themselves; touching
    one of these entries at a time later than that date makes that time
    the aggregate date.  Files further down are not looked at. *)
Theorem aggregate_freshness (env : Env) (limit : nat) (scripts styles : list string) :
  fs_readdir env (ROOT_DIR env +:+ "js/") = inl scripts →
  fs_readdir env (ROOT_DIR env +:+ "css/") = inl styles →
  (∀ p, p ∈ checked_paths env scripts styles → ∃ st, fs_stat env p = inl st) →
  ∃ m, result (statFile env "js/ace.js" (S limit)) = Val (Some m, true)
       ∧ is_max m (mtime_of env <$> checked_paths env scripts styles)
       ∧ ∀ q t, q ∈ checked_paths env scripts styles → m < t →
           result (statFile (touch env q t) "js/ace.js" (S limit))
           = Val (Some t, true).
Proof.
  intros Hjs Hcss Hok.
  destruct (ace_freshness env limit scripts styles Hjs Hcss Hok) as (m & Hm & Hmax).
  exists m. split; [done|]. split; [done|].
  intros q t Hq Hlt.
  destruct (ace_freshness (touch env q t) limit scripts styles Hjs Hcss)
    as (m' & Hm' & Hmax').
  { intros p Hp. destruct (Hok p Hp) as [st Hst].
    destruct (touch_stat env q p t st Hst) as (st' & Hst' & _). eauto. }
  rewrite Hm'. do 3 f_equal.
  apply (is_max_unique _ _ _ Hmax').
  change (checked_paths (touch env q t) scripts styles)
    with (checked_paths env scripts styles).
  split.
  - apply list_elem_of_fmap. exists q. split; [|done].
    destruct (Hok q Hq) as [st Hst].
    destruct (touch_stat env q q t st Hst) as (st' & Hst' & Hmt).
    unfold mtime_of. rewrite Hst', Hmt. by rewrite Str_eqb_refl.
  - intros u Hu. apply list_elem_of_fmap in Hu as (p & -> & Hp).
    destruct (Hok p Hp) as [st Hst].
    destruct (touch_stat env q p t st Hst) as (st' & Hst' & Hmt).
    unfold mtime_of at 1. rewrite Hst', Hmt.
    destruct (Str.eqb p q); [lia|].
    destruct Hmax as [_ Hle].
    assert (mtime st ≤ m); [|lia].
    apply Hle. apply list_elem_of_fmap. exists p. split; [|done].
    unfold mtime_of. by rewrite Hst.
Qed.

Lemma sample_checked_paths (p : string) :
  p ∈ checked_paths Sample.world ["ace.js"; "pad.js"; "bad.js"; "vendors"] ["pad.css"] →
  ∃ st, fs_stat Sample.world p = inl st.
Proof.
  intros Hp. vm_compute in Hp.
  repeat (apply elem_of_cons in Hp as [-> | Hp]; [vm_compute; eauto|]).
  by apply elem_of_nil in Hp.
Defined.

Lemma aggregate_freshness_witness :
  result (statFile Sample.world "js/ace.js" 3) = Val (Some 1700000500000, true)
  ∧ result (statFile (touch Sample.world "/srv/etherpad/src/static/js//pad.js"
                        1700000999000) "js/ace.js" 3)
    = Val (Some 1700000999000, true).
Proof.
  destruct (aggregate_freshness Sample.world 2
              ["ace.js"; "pad.js"; "bad.js"; "vendors"] ["pad.css"]
              eq_refl eq_refl sample_checked_paths) as (m & Hm & _ & Htouch).
  assert (m = 1700000500000) as -> by (vm_compute in Hm; congruence).
  split; [exact Hm|].
  apply Htouch; [|reflexivity].
  vm_compute. do 1 right. left.
Defined.

(** ** Assembly of [js/ace.js] (C7) *)

Section Assembly.

Context (env : Env).
Context (loopback : string → string → Headers → M (Z * Headers * string)).
(** What each loop-back fetch does and returns. *)
Context (fetch_trace : string → list event).
Context (fetch_status : string → Z).
Context (fetch_headers : string → Headers).
Context (fetch_body : string → string).

Local Abbreviation fetched :=
  (fetched_as loopback fetch_trace fetch_status fetch_headers fetch_body).

Lemma embed_fetched (data filename : string) :
  fetched filename →
  embed loopback data filename
  = (fetch_trace filename ++ complaint filename (fetch_status filename),
     Val (data +:+ entry filename (fetch_status filename) (fetch_body filename))).
Proof.
  unfold fetched_as, embed. fold (resourceURI filename). intros ->.
  unfold entry, complaint, assignment. simpl.
  destruct (Z.eqb (fetch_status filename) 200) eqn:E200; simpl.
  { by rewrite app_nil_r. }
  destruct (Z.eqb (fetch_status filename) 404) eqn:E404; simpl.
  { by rewrite app_nil_r. }
  by rewrite app_empty_r.
Qed.

Lemma embed_all_fetched (data : string) (filenames : list string) :
  (∀ f, f ∈ filenames → fetched f) →
  foldM (embed loopback) data filenames
  = (flat_map (λ f, fetch_trace f ++ complaint f (fetch_status f)) filenames,
     Val (data +:+ Str.concat
                     ((λ f, entry f (fetch_status f) (fetch_body f)) <$> filenames))).
Proof.
  revert data. induction filenames as [|f filenames IH]; intros data Hall.
  { simpl. by rewrite app_empty_r. }
  simpl. rewrite embed_fetched by (apply Hall; by left).
  rewrite bind_val. rewrite IH by (intros; apply Hall; by right).
  unfold trace, result. simpl. by rewrite app_assoc_str.
Qed.


End Assembly.


Example ace_assembly_loopback :
  result (getAceFile Sample.world (requestURI Sample.world 1))
  = Val ("$$INCLUDE_JS('../static/js/pad.js'); $$INCLUDE_CSS('../static/css/none.css')"
         +:+ ";" +:+ nl
         +:+ "Ace2Editor.EMBEDED = Ace2Editor.EMBEDED || {};" +:+ nl
         +:+ assignment "../static/js/pad.js" (Json.stringify "/*min*/var pad = 1;")
         +:+ assignment "../static/css/none.css" "null"
         +:+ assignment "../static/js/require-kernel.js"
               (Json.stringify ("/*min*/var require = function () {};" +:+ nl))).
Proof. vm_compute. reflexivity. Qed.

Example include_directives_cases :
  include_directives
    "a $$include_js('x.js') $$INCLUDE_('y') $$INCLUDE_CSS('z.css' $$INCLUDE_A_b('w')"
  = ["x.js"; "w"].
Proof. reflexivity. Qed.

Example json_escapes : Json.stringify ("a" +:+ nl +:+ "b") = String "034" "a\nb" +:+ String "034" "".
Proof. reflexivity. Qed.

(** ** The shared [headers] object of [requestURIs] (C8) *)

Lemma sample_fetched_alone :
  independent Sample.world 1
    ["http://invalid.invalid/static/x.js"; "http://invalid.invalid/static/css/none.css"]
    "GET" ∅
  = Some ([200; 404],
          [ <["content-type" := "application/javascript"]>
              (<["last-modified" := "Tue, 14 Nov 2023 22:23:20 GMT"]>
                 (<["date" := "Tue, 14 Nov 2023 22:30:00 GMT"]>
                    (<["expires" := "Wed, 15 Nov 2023 04:30:00 GMT"]>
                       {["cache-control" := "max-age=21600"]})));
            <["last-modified" := "Tue, 14 Nov 2023 22:20:00 GMT"]>
              (<["date" := "Tue, 14 Nov 2023 22:30:00 GMT"]>
                 (<["expires" := "Wed, 15 Nov 2023 04:30:00 GMT"]>
                    {["cache-control" := "max-age=21600"]})) ],
          ["/*min*/var x;"; ""]).
Proof. vm_compute. reflexivity. Defined.


Lemma since_writeHead (st : Z) (hs : Headers) (res : Response) :
  hs !! "if-modified-since" = None →
  since (headers (writeHead st hs res)) = since (headers res).
Proof. intros Hhs. unfold since. simpl. by rewrite lookup_union_r. Qed.

Lemma since_setHeader (key value : string) (res : Response) :
  Str.toLowerCase key ≠ "if-modified-since" →
  since (headers (setHeader key value res)) = since (headers res).
Proof. intros Hkey. unfold since. simpl. by rewrite lookup_insert_ne. Qed.

Lemma since_freshness (env : Env) (date : option Z) (res : Response) :
  since (headers (freshness_headers env date res)) = since (headers res).
Proof.
  unfold since. apply freshness_headers_lookup.
  intros H. repeat (apply elem_of_cons in H as [?|H]; [done|]).
  by apply elem_of_nil in H.
Qed.

Lemma since_push (c : option content) (res : Response) :
  since (headers (push_chunk c res)) = since (headers res).
Proof. unfold push_chunk. destruct c as [c|]; [|done]. by destruct (truthy c). Qed.

Lemma since_end (c : option content) (res : Response) :
  since (headers (end_ c res)) = since (headers res).
Proof. unfold end_. simpl. apply since_push. Qed.

Create HintDb frame.

(** Closes a goal on two [view]s from the components of an equal pair. *)
Ltac view_components Hv :=
  let H1 := fresh in let H2 := fresh in let H3 := fresh in let H4 := fresh in
  unfold view in *; injection Hv as H1 H2 H3 H4; simpl;
  rewrite ?H1, ?H2, ?H3, ?H4; reflexivity.

Lemma view_writeHead (st : Z) (hs : Headers) (res res' : Response) :
  hs !! "if-modified-since" = None →
  view res = view res' → view (writeHead st hs res) = view (writeHead st hs res').
Proof.
  intros Hhs Hv. unfold view in *. rewrite !since_writeHead by done.
  view_components Hv.
Qed.

Lemma view_setHeader (key value : string) (res res' : Response) :
  Str.toLowerCase key ≠ "if-modified-since" →
  view res = view res' → view (setHeader key value res) = view (setHeader key value res').
Proof.
  intros Hkey Hv. unfold view in *. rewrite !since_setHeader by done.
  view_components Hv.
Qed.

Lemma view_freshness (env : Env) (date : option Z) (res res' : Response) :
  view res = view res' →
  view (freshness_headers env date res) = view (freshness_headers env date res').
Proof.
  intros Hv. unfold view in *. rewrite !since_freshness.
  destruct (freshness_headers_rest env date res) as (-> & -> & ->).
  destruct (freshness_headers_rest env date res') as (-> & -> & ->).
  view_components Hv.
Qed.

Lemma view_push (c : option content) (res res' : Response) :
  view res = view res' → view (push_chunk c res) = view (push_chunk c res').
Proof.
  intros Hv. unfold push_chunk. destruct c as [c|]; [|done].
  destruct (truthy c); [|done]. unfold since in *. view_components Hv.
Qed.

Lemma view_end (c : option content) (res res' : Response) :
  view res = view res' → view (end_ c res) = view (end_ c res').
Proof.
  intros Hv%(view_push c). unfold end_.
  set (r := push_chunk c res) in *. set (r' := push_chunk c res') in *.
  clearbody r r'. unfold since in *. view_components Hv.
Qed.

#[local] Hint Resolve view_end view_push view_freshness : frame.
#[local] Hint Extern 1 (view (writeHead _ _ _) = view (writeHead _ _ _)) =>
  apply view_writeHead; [first [apply lookup_empty | by rewrite lookup_singleton_ne]|]
  : frame.
#[local] Hint Extern 1 (view (setHeader _ _ _) = view (setHeader _ _ _)) =>
  apply view_setHeader; [done|] : frame.
#[local] Hint Extern 1 (view (write _ _) = view (write _ _)) =>
  apply view_push : frame.

Lemma not_modified_view (env : Env) (date : option Z) (res res' : Response) :
  view res = view res' →
  not_modified env (headers res) date = not_modified env (headers res') date.
Proof.
  unfold view, not_modified, since. intros Hv. injection Hv as _ _ _ Hs.
  by rewrite Hs.
Qed.

(** The handler reads nothing of the headers but [if-modified-since]: on
    two responses with the same [view] it does the same and answers the
    same. *)
Lemma respond_frame (env : Env)
    (loopback : string → string → Headers → M (Z * Headers * string))
    (filename : string) (req : Request) (res res' : Response) :
  view res = view res' →
  observe (respond env loopback filename req res)
  = observe (respond env loopback filename req res').
Proof.
  intros Hv. unfold respond, observe.
  destruct (statFile env filename 3) as [tr [[date ex]| |]]; [|done..].
  rewrite !bind_val. cbv beta iota.
  rewrite !not_modified_after_freshness, (not_modified_view env date res res' Hv).
  destruct (negb ex);
    [unfold trace, result; simpl; do 2 f_equal; eauto 10 with frame|].
  destruct (not_modified env (headers res') date);
    [unfold trace, result; simpl; do 2 f_equal; eauto 10 with frame|].
  destruct (Str.eqb (req_method req) "HEAD");
    [unfold trace, result; simpl; do 2 f_equal; eauto 10 with frame|].
  destruct (Str.eqb (req_method req) "GET");
    [|unfold trace, result; simpl; do 2 f_equal; eauto 10 with frame].
  destruct (getFileCompressed env loopback filename (mime_lookup env filename))
    as [tr' [c| |]]; [|done..].
  unfold trace, result; simpl; do 2 f_equal; eauto 10 with frame.
Qed.

(** Whatever the handler answers, [if-modified-since] is as it was. *)
Lemma respond_since (env : Env)
    (loopback : string → string → Headers → M (Z * Headers * string))
    (filename : string) (req : Request) (res r : Response) :
  result (respond env loopback filename req res) = Val r →
  since (headers r) = since (headers res).
Proof.
  unfold respond.
  destruct (statFile env filename 3) as [tr [[date ex]| |]]; [|done..].
  rewrite bind_val. cbv beta iota. unfold result at 1. cbn [snd].
  assert (∀ st hs,
            hs !! "if-modified-since" = None →
            since (headers (end_ None (writeHead st hs (freshness_headers env date res))))
            = since (headers res)) as Hplain.
  { intros st hs Hhs.
    by rewrite since_end, since_writeHead, since_freshness. }
  destruct (negb ex); [intros [= <-]; by apply Hplain|].
  destruct (date_ge _ _); [intros [= <-]; by apply Hplain|].
  destruct (Str.eqb (req_method req) "HEAD").
  { intros [= <-].
    by rewrite since_end, since_writeHead, since_setHeader, since_freshness. }
  destruct (Str.eqb (req_method req) "GET").
  - destruct (getFileCompressed env loopback filename (mime_lookup env filename))
      as [tr' [c| |]]; [|done..].
    intros [= <-]. unfold write.
    by rewrite since_end, since_push, since_writeHead, since_setHeader,
      since_freshness.
  - intros [= <-]. apply Hplain. by rewrite lookup_singleton_ne.
Qed.

Lemma minify_frame (env : Env)
    (loopback : string → string → Headers → M (Z * Headers * string))
    (req : Request) (res res' : Response) :
  view res = view res' →
  observe (minify env loopback req res) = observe (minify env loopback req res').
Proof.
  intros Hv. unfold minify. destruct (confine env (req_filename req)).
  - by apply respond_frame.
  - unfold observe, trace, result. simpl. do 2 f_equal. eauto 10 with frame.
Qed.

Lemma minify_since (env : Env)
    (loopback : string → string → Headers → M (Z * Headers * string))
    (req : Request) (res r : Response) :
  result (minify env loopback req res) = Val r →
  since (headers r) = since (headers res).
Proof.
  unfold minify. destruct (confine env (req_filename req)).
  - apply respond_since.
  - intros [= <-]. by rewrite since_end, since_writeHead.
Qed.

(** A fetch on other headers with the same [if-modified-since] does the
    same and returns the same status and body. *)
Lemma requestURI_frame (env : Env) (depth : nat) (url method : string)
    (h h' : Headers) :
  since h = since h' →
  trace (requestURI env depth url method h) = trace (requestURI env depth url method h')
  ∧ outcome_map status_body (result (requestURI env depth url method h))
    = outcome_map status_body (result (requestURI env depth url method h')).
Proof.
  intros Hs. rewrite requestURI_below. unfold requestURI_via.
  destruct (URL_pathname_search env url) as [ps|]; [|done].
  set (req := {| req_url := url; req_method := method;
                 req_filename := Str.strip_static ps |}).
  assert (view (mockResponse h) = view (mockResponse h')) as Hv.
  { unfold view. simpl. by rewrite Hs. }
  pose proof (minify_frame env (below env depth) req _ _ Hv) as Hobs.
  destruct (minify env (below env depth) req (mockResponse h)) as [tr o].
  destruct (minify env (below env depth) req (mockResponse h')) as [tr' o'].
  unfold observe, trace, result in Hobs. simpl in Hobs.
  injection Hobs as Htr Hres. subst tr'.
  destruct o as [r|e|], o' as [r'|e'|]; simpl in Hres; try discriminate;
    [|by injection Hres as ->|done].
  rewrite !bind_val. unfold view in Hres.
  injection Hres as _ _ Hresolved _. rewrite Hresolved.
  by destruct (resolved r') as [[st body]|].
Qed.

Lemma requestURI_since (env : Env) (depth : nat) (url method : string)
    (h hout : Headers) (st : Z) (body : string) :
  result (requestURI env depth url method h) = Val (st, hout, body) →
  since hout = since h.
Proof.
  rewrite requestURI_below. unfold requestURI_via.
  destruct (URL_pathname_search env url) as [ps|]; [|done].
  set (req := {| req_url := url; req_method := method;
                 req_filename := Str.strip_static ps |}).
  pose proof (minify_since env (below env depth) req (mockResponse h)) as Hsince.
  destruct (minify env (below env depth) req (mockResponse h)) as [tr [r| |]];
    [|done..].
  rewrite bind_val. destruct (resolved r) as [[st' body']|]; [|done].
  unfold result at 1. simpl. intros [= <- <- <-]. by apply Hsince.
Qed.

Lemma fetch_all_shared (env : Env) (depth : nat) (locations : list string)
    (method : string) (headers0 h : Headers)
    (sts : list Z) (hs : list Headers) (bodies : list string) :
  since h = since headers0 →
  independent env depth locations method headers0 = Some (sts, hs, bodies) →
  ∃ responses h',
    result (fetch_all env depth locations method h) = Val (responses, h')
    ∧ responses.*1 = sts ∧ responses.*2 = bodies
    ∧ length responses = length locations
    ∧ since h' = since headers0.
Proof.
  revert h sts hs bodies.
  induction locations as [|loc rest IH]; intros h sts hs bodies Hs Hind.
  { simpl in *. injection Hind as <- <- <-. by exists [], h. }
  simpl in Hind.
  destruct (result (requestURI env depth loc method headers0))
    as [[[st hi] body]| |] eqn:Hfetch; [|done..].
  destruct (independent env depth rest method headers0)
    as [[[sts' hs'] bodies']|] eqn:Hrest; [|done].
  injection Hind as <- <- <-.
  destruct (requestURI_frame env depth loc method h headers0 Hs) as [_ Hsame].
  rewrite Hfetch in Hsame.
  destruct (result (requestURI env depth loc method h))
    as [[[st1 h1] body1]| |] eqn:Hfetch1; [|done..].
  injection Hsame as -> ->.
  pose proof (requestURI_since env depth loc method h h1 st body Hfetch1) as Hs1.
  destruct (IH h1 sts' hs' bodies') as (responses & h' & Hall & H1 & H2 & Hlen & Hs');
    [congruence|done|].
  exists ((st, body) :: responses), h'.
  split; [|by rewrite !fmap_cons, H1, H2; simpl; rewrite Hlen].
  simpl. rewrite (result_bind_val _ _ _ Hfetch1). cbv beta iota.
  by rewrite (result_bind_val _ _ _ Hall).
Qed.



(** ** Further runs of the sample installation *)

(** The parent of a missing top-level file is [.], which is stat'ed like any
    other directory: the guard for [''] and ['/'] does not stop it. *)
Example fallback_to_asset_root :
  statFile Sample.world "missing.js" 3
  = ([EvStat "/srv/etherpad/src/static/missing.js";
      EvStat "/srv/etherpad/src/static/."],
     Val (Some 1700000000000, false)).
Proof. reflexivity. Qed.

Example head_has_no_body :
  result (requestURI Sample.world 1 "http://invalid.invalid/static/x.js" "HEAD" ∅)
  = Val (200,
         <["content-type" := "application/javascript"]>
           (headers (freshness_headers Sample.world (Some 1700000600000)
                       (mockResponse ∅))),
         "").
Proof. vm_compute. reflexivity. Qed.

Example directory_is_not_found :
  result_value (requestURI Sample.world 1 "http://invalid.invalid/static/js" "GET" ∅)
  ≫= (λ r, Some (r.1.1, r.2))
  = Some (404, "").
Proof. vm_compute. reflexivity. Qed.

Example plugin_file_served :
  resolve Sample.world "plugins/ep_demo/static/js/demo.js"
  = Some "../../../plugins/ep_demo/static/js/demo.js".
Proof. vm_compute. reflexivity. Qed.

Example unknown_plugin_left_alone :
  resolve Sample.world "plugins/ep_other/static/js/demo.js"
  = Some "plugins/ep_other/static/js/demo.js".
Proof. vm_compute. reflexivity. Qed.

Example loopback_too_deep :
  result (requestURI Sample.world 0 "http://invalid.invalid/static/js/ace.js" "GET" ∅)
  = Pending.
Proof. vm_compute. reflexivity. Qed.

(** * Further properties of the module *)

(** ** What resolution can produce *)

Lemma startsWith_split (p s : string) :
  Str.startsWith p s = true → s = p +:+ Str.slice_from (String.length p) s.
Proof.
  revert s. induction p as [|a p IH]; intros s H; [by destruct s|].
  destruct s as [|b s]; [done|]. simpl in H.
  destruct (Ascii.eqb_spec a b) as [->|]; [|done].
  rewrite app_cons. simpl. f_equal. by apply IH.
Qed.

Lemma has_dotdot_suffix (a b : string) :
  has_dotdot (a +:+ b) = false → has_dotdot b = false.
Proof.
  intros H. rewrite <- (slice_from_app a b). by apply has_dotdot_slice.
Qed.

(** X1: a path that passes the confinement of lines 104 to 109 is what
    follows the asset root in the normalized path with its [..] sequences
    deleted, backslashes turned into slashes, and it holds no two dots in
    a row: nothing the handler appends to the root can climb out of it. *)
Theorem confined_path_clean (env : Env) (filename confined : string) :
  confine env filename = Some confined →
  has_dotdot confined = false
  ∧ ∃ t, Str.strip_dotdot (normalized_path env filename) = ROOT_DIR env +:+ t
         ∧ confined = Str.backslash_to_slash t.
Proof.
  intros Hc. split; [by apply (confine_clean env filename)|].
  unfold confine in Hc. fold (normalized_path env filename) in Hc.
  destruct (Str.startsWith _ _) eqn:Hpre; [|done]. injection Hc as <-.
  eexists. split; [|done]. by apply startsWith_split.
Qed.

Lemma confined_path_clean_witness :
  confine Sample.world "js/a..b/../....//pad.js" = Some "js//pad.js"
  ∧ has_dotdot "js//pad.js" = false.
Proof.
  split; [reflexivity|].
  apply (confined_path_clean Sample.world "js/a..b/../....//pad.js" "js//pad.js").
  reflexivity.
Defined.

Lemma span_no_slash_inv (s a b : string) :
  Str.span_no_slash s = (a, b) →
  s = a +:+ b ∧ Str.contains_slash a = false
  ∧ (b = "" ∨ Str.startsWith "/" b = true).
Proof.
  revert a b. induction s as [|c r IH]; intros a b H; simpl in H.
  { injection H as <- <-. auto. }
  destruct (Ascii.eqb_spec c "/") as [->|Hc].
  { injection H as <- <-. auto. }
  destruct (Str.span_no_slash r) as [a' b'] eqn:Hr. injection H as <- <-.
  destruct (IH a' b' eq_refl) as (-> & Ha & Hb).
  split; [done|]. split; [|done]. simpl.
  by rewrite (proj2 (Ascii.eqb_neq _ _) Hc).
Qed.

(** What a match of line 121 says about the path. *)
Lemma match_plugins_inv (filename library : string) (m2 m3 : option string) :
  match_plugins filename = Some (library, m2, m3) →
  filename = "plugins/" +:+ library +:+ default "" m2
  ∧ library ≠ "" ∧ Str.contains_slash library = false
  ∧ ∀ r, m3 = Some r → m2 = Some ("/" +:+ r) ∧ Str.startsWith "static/" r = true.
Proof.
  unfold match_plugins. intros H.
  destruct (Str.startsWith "plugins/" filename) eqn:Hpre; [|done].
  apply startsWith_split in Hpre.
  change (String.length "plugins/") with 8%nat in Hpre.
  destruct (Str.span_no_slash (Str.slice_from 8 filename)) as [lib rest] eqn:Hspan.
  destruct (span_no_slash_inv _ _ _ Hspan) as (Hsplit & Hslash & Hrest).
  destruct (Str.eqb lib "") eqn:Hlib; [done|].
  assert (lib ≠ "") as Hne by (intros ->; by rewrite Str_eqb_refl in Hlib).
  destruct rest as [|c r].
  - injection H as <- <- <-. rewrite Hpre at 1. by rewrite Hsplit.
  - destruct (Str.has_line_terminator r); [done|]. injection H as <- <- <-.
    rewrite Hpre at 1. rewrite Hsplit.
    split; [done|]. split; [done|]. split; [done|].
    intros r1 Hr1.
    change ((if Str.startsWith "static/" r then Some r else None) = Some r1) in Hr1.
    destruct (Str.startsWith "static/" r) eqn:Hs; [|done].
    injection Hr1 as <-. split; [|done].
    destruct Hrest as [|Hrest]; [done|]. simpl in Hrest.
    by destruct (Ascii.eqb_spec "/" c) as [<-|].
Qed.

(** X2: whatever the registry holds, a resolved path has one of three
    shapes: the confined path itself, free of [..]; for a whitelisted
    library, [../node_modules/] followed by the library name and its path,
    free of [..] and with no slash in the name, so that the file lies below
    that library's directory; or, for a registered plugin and a path that
    starts with [/static/], the plugin's real path with that path, made
    relative to the asset root. *)
Theorem resolve_shapes (env : Env) (filename resolved : string) :
  resolve env filename = Some resolved →
  (confine env filename = Some resolved ∧ has_dotdot resolved = false)
  ∨ (∃ library rest,
       includes library LIBRARY_WHITELIST = true
       ∧ Str.contains_slash library = false
       ∧ has_dotdot (library +:+ rest) = false
       ∧ resolved = "../node_modules/" +:+ library +:+ rest)
  ∨ (∃ library plugin r,
       plugins env !! library = Some plugin
       ∧ has_dotdot r = false
       ∧ resolved = Str.backslash_to_slash
                      (Path.relative (cwd env) (ROOT_DIR env)
                         (realPath plugin +:+ "/static/" +:+ r))).
Proof.
  unfold resolve. destruct (confine env filename) as [g|] eqn:Hconf; [|done].
  simpl. intros [= <-]. pose proof (confine_clean _ _ _ Hconf) as Hclean.
  unfold rewrite_plugins.
  destruct (match_plugins g) as [[[library m2] m3]|] eqn:Hm; [|by left].
  destruct (match_plugins_inv _ _ _ _ Hm) as (Hg & Hne & Hslash & Hm3).
  assert (has_dotdot (library +:+ default "" m2) = false) as Htail.
  { rewrite Hg in Hclean. by apply has_dotdot_suffix in Hclean. }
  assert (∀ plugin r, plugins env !! library = Some plugin → m3 = Some r →
            ∃ library0 plugin0 r0,
              plugins env !! library0 = Some plugin0 ∧ has_dotdot r0 = false
              ∧ Str.backslash_to_slash
                  (Path.relative (cwd env) (ROOT_DIR env)
                     (realPath plugin +:+ default "" m2))
                = Str.backslash_to_slash
                    (Path.relative (cwd env) (ROOT_DIR env)
                       (realPath plugin0 +:+ "/static/" +:+ r0))) as Hplugin.
  { intros plugin r Hreg ->. destruct (Hm3 r eq_refl) as [-> Hstatic].
    apply startsWith_split in Hstatic.
    exists library, plugin, (Str.slice_from (String.length "static/") r).
    split; [done|]. split.
    - apply has_dotdot_slice. simpl in Htail.
      by apply has_dotdot_suffix, (has_dotdot_suffix "/") in Htail.
    - simpl default. rewrite Hstatic at 1. done. }
  destruct (plugins env !! library) as [plugin|] eqn:Hreg, m3 as [r|];
    try (destruct (includes library LIBRARY_WHITELIST) eqn:Hwl;
         [right; left; by exists library, (default "" m2)|by left]).
  right. right. by apply (Hplugin plugin r).
Qed.

Lemma resolve_shapes_witness :
  ∃ library rest,
    includes library LIBRARY_WHITELIST = true
    ∧ has_dotdot (library +:+ rest) = false
    ∧ resolve Sample.world "plugins/underscore/../unorm/lib/unorm.js"
      = Some ("../node_modules/" +:+ library +:+ rest).
Proof.
  destruct (resolve_shapes Sample.world "plugins/underscore/../unorm/lib/unorm.js"
              "../node_modules/unorm/lib/unorm.js" eq_refl)
    as [[_ H] | [(library & rest & Hwl & _ & Hclean & Heq) | (l & p & r & _ & _ & Heq)]].
  - vm_compute in H. discriminate.
  - exists library, rest. by rewrite <- Heq.
  - exists "unorm", "/lib/unorm.js". repeat split.
Defined.

(** ** The answers of the handler *)

Lemma respond_head (env : Env)
    (loopback : string → string → Headers → M (Z * Headers * string))
    (filename : string) (req : Request) (res : Response)
    (tr : list event) (date : option Z) :
  statFile env filename 3 = (tr, Val (date, true)) →
  not_modified env (headers res) date = false →
  req_method req = "HEAD" →
  respond env loopback filename req res
  = (tr, Val (end_ None
                (writeHead 200 ∅
                   (setHeader "Content-Type"
                      (contentType_toString (mime_lookup env filename))
                      (freshness_headers env date res))))).
Proof.
  intros H Hnm Hhead. unfold respond. rewrite H. simpl.
  rewrite not_modified_after_freshness, Hnm, Hhead. simpl.
  by rewrite app_nil_r.
Qed.

Lemma respond_get_fails (env : Env)
    (loopback : string → string → Headers → M (Z * Headers * string))
    (filename : string) (req : Request) (res : Response)
    (tr : list event) (date : option Z) :
  statFile env filename 3 = (tr, Val (date, true)) →
  not_modified env (headers res) date = false →
  req_method req = "GET" →
  (∀ c, result (getFileCompressed env loopback filename (mime_lookup env filename))
        ≠ Val c) →
  ∀ r, result (respond env loopback filename req res) ≠ Val r.
Proof.
  intros H Hnm Hget Hc r. unfold respond. rewrite H. simpl.
  rewrite not_modified_after_freshness, Hnm, Hget. simpl.
  destruct (getFileCompressed env loopback filename (mime_lookup env filename))
    as [tr' [c| |]]; [|done..].
  by destruct (Hc c).
Qed.

(** What [requestURI] returns once the handler has answered. *)
Lemma settle (tr : list event) (r : Response) (st : Z) (body : string) :
  resolved r = Some (st, body) →
  (let* res := (tr, Val r) in
   match resolved res with
   | Some (st, body) => ret (st, headers res, body)
   | None => pending
   end) = (tr, Val (st, headers r, body)).
Proof. intros H. rewrite bind_val, H. simpl. by rewrite app_nil_r. Qed.

Lemma headers_after_end (st : Z) (hs : Headers) (res : Response) :
  headers (end_ None (writeHead st hs res)) = hs ∪ headers res.
Proof. done. Qed.

Lemma resolved_typed (env : Env) (date : option Z) (headers0 : Headers) (ct : string) :
  resolved (end_ None (writeHead 200 ∅
              (setHeader "Content-Type" ct
                 (freshness_headers env date (mockResponse headers0)))))
  = Some (200, "").
Proof.
  destruct (freshness_headers_rest env date (mockResponse headers0))
    as (_ & Hch & Hrs).
  by apply answer_without_body.
Qed.

Lemma resolved_written (env : Env) (date : option Z) (headers0 : Headers)
    (ct : string) (c : content) :
  resolved (end_ None (write c (writeHead 200 ∅
              (setHeader "Content-Type" ct
                 (freshness_headers env date (mockResponse headers0))))))
  = Some (200, toString c).
Proof.
  destruct (freshness_headers_rest env date (mockResponse headers0))
    as (_ & Hch & Hrs).
  by rewrite body_after_write.
Qed.

Lemma headers_written (c : content) (res : Response) :
  headers (end_ None (write c res)) = headers res.
Proof. unfold end_, write, push_chunk. by destruct (truthy c). Qed.

(** Every way [requestURI] can return: the 404 of the confinement, or the
    answer for a resolved path. *)
(** Reads status, headers and body off a settled fetch. *)
Ltac answered H :=
  unfold result in H; cbn [snd] in H; injection H as <- <- <-;
  split; [reflexivity|]; split;
  [rewrite ?headers_after_end, ?(left_id_L ∅ (∪)); reflexivity|left; reflexivity].

Lemma requestURI_inv (env : Env) (depth : nat) (url method : string)
    (headers0 h : Headers) (st : Z) (b : string) :
  result (requestURI env depth url method headers0) = Val (st, h, b) →
  ∃ p, URL_pathname_search env url = Some p
  ∧ ((confine env (Str.strip_static p) = None
      ∧ st = 404 ∧ h = headers0 ∧ b = "")
     ∨ ∃ filename date ex,
         resolve env (Str.strip_static p) = Some filename
         ∧ result (statFile env filename 3) = Val (date, ex)
         ∧ st = status_for ex (not_modified env headers0 date) method
         ∧ h = answer_headers env filename date ex method headers0
         ∧ (b = ""
            ∨ (st = 200 ∧ method = "GET"
               ∧ ∃ c, result (getFileCompressed env (below env depth) filename
                                (mime_lookup env filename)) = Val c
                      ∧ b = toString c))).
Proof.
  rewrite requestURI_below. unfold requestURI_via.
  destruct (URL_pathname_search env url) as [p|]; [|done].
  intros H. exists p. split; [done|].
  set (req := {| req_url := url; req_method := method;
                 req_filename := Str.strip_static p |}) in *.
  unfold minify in H. unfold resolve. change (req_filename req) with (Str.strip_static p) in H.
  destruct (confine env (Str.strip_static p)) as [g|]; [right|left].
  2:{ change (ret ?x) with (@pair (list event) _ [] (Val x)) in H at 1.
      rewrite (settle [] _ 404 "") in H by done.
      unfold result in H. cbn [snd] in H. injection H as <- <- <-.
      split; [done|]. split; [done|]. split; [|done].
      simpl. by rewrite (left_id_L ∅ (∪)). }
  exists (rewrite_plugins env g).
  destruct (statFile env (rewrite_plugins env g) 3) as [tr [[date ex]| |]] eqn:Hst.
  2,3: unfold respond in H; by rewrite Hst in H.
  exists date, ex. split; [done|]. split; [done|].
  unfold status_for, answer_headers.
  destruct ex; simpl.
  2:{ rewrite (respond_missing _ _ _ _ _ tr date Hst) in H.
      rewrite (settle _ _ 404 "") in H by apply answer_after_freshness.
      answered H. }
  destruct (not_modified env headers0 date) eqn:Hnm.
  { rewrite (respond_not_modified _ _ _ _ (mockResponse headers0) tr date Hst Hnm) in H.
    rewrite (settle _ _ 304 "") in H by apply answer_after_freshness.
    answered H. }
  destruct (Str.eqb method "HEAD") eqn:Hhead.
  { apply Str_eqb_eq in Hhead.
    rewrite (respond_head _ _ _ req (mockResponse headers0) tr date Hst Hnm Hhead) in H.
    rewrite (settle _ _ 200 "") in H by apply resolved_typed.
    answered H. }
  destruct (Str.eqb method "GET") eqn:Hget.
  { apply Str_eqb_eq in Hget.
    destruct (getFileCompressed env (below env depth) (rewrite_plugins env g)
                (mime_lookup env (rewrite_plugins env g))) as [tr' [c| |]] eqn:Hc.
    2,3: exfalso; unfold respond in H; rewrite Hst in H; rewrite bind_val in H;
         cbv beta iota in H; rewrite not_modified_after_freshness in H;
         change (headers (mockResponse headers0)) with headers0 in H;
         change (req_method req) with method in H;
         rewrite Hnm, Hhead, Hget in H; simpl in H; by rewrite Hc in H.
    rewrite (respond_get _ _ _ req (mockResponse headers0) tr tr' date c Hst Hnm Hget Hc) in H.
    rewrite (settle _ _ 200 (toString c)) in H by apply resolved_written.
    unfold result in H. cbn [snd] in H. injection H as <- <- <-.
    split; [done|]. split.
    { unfold write, push_chunk. destruct (truthy c); simpl;
        by rewrite (left_id_L ∅ (∪)). }
    right. split; [done|]. split; [done|]. by exists c. }
  assert (method ≠ "HEAD") as Hh by (intros ->; by rewrite Str_eqb_refl in Hhead).
  assert (method ≠ "GET") as Hg by (intros ->; by rewrite Str_eqb_refl in Hget).
  rewrite (respond_other_method _ _ _ req (mockResponse headers0) tr date Hst Hnm Hh Hg) in H.
  rewrite (settle _ _ 405 "") in H by apply answer_after_freshness.
  answered H.
Qed.

Lemma status_for_range (ex nm : bool) (method : string) :
  status_for ex nm method ∈ [200; 304; 404; 405].
Proof.
  unfold status_for.
  destruct ex, nm, (Str.eqb method "HEAD"), (Str.eqb method "GET"); simpl;
    repeat first [by left | right].
Qed.

(** X3: whenever [requestURI] returns, the status is 200, 304, 404 or 405,
    never the 500 the response starts with, and a body that is not empty
    comes only with a 200 for a GET. *)
Theorem answer_invariants (env : Env) (depth : nat) (url method : string)
    (headers0 h : Headers) (st : Z) (b : string) :
  result (requestURI env depth url method headers0) = Val (st, h, b) →
  st ∈ [200; 304; 404; 405]
  ∧ (b ≠ "" → st = 200 ∧ method = "GET").
Proof.
  intros H. destruct (requestURI_inv _ _ _ _ _ _ _ _ H)
    as (p & _ & [(_ & -> & _ & ->) | (f & date & ex & _ & _ & -> & _ & Hb)]).
  - split; [by do 2 right; left|done].
  - split; [apply status_for_range|].
    destruct Hb as [-> | (Hst & -> & _)]; [done|]. by rewrite Hst.
Qed.

Lemma answer_invariants_witness :
  result (requestURI Sample.world 1 "http://invalid.invalid/static/x.js" "GET" ∅)
  = Val (200,
         <["content-type" := "application/javascript"]>
           (headers (freshness_headers Sample.world (Some 1700000600000)
                       (mockResponse ∅))),
         "/*min*/var x;")
  ∧ (200 : Z) ∈ [200; 304; 404; 405].
Proof.
  assert (result (requestURI Sample.world 1 "http://invalid.invalid/static/x.js"
                    "GET" ∅)
          = Val (200,
                 <["content-type" := "application/javascript"]>
                   (headers (freshness_headers Sample.world (Some 1700000600000)
                               (mockResponse ∅))),
                 "/*min*/var x;")) as H by (vm_compute; reflexivity).
  split; [exact H|].
  exact (proj1 (answer_invariants _ _ _ _ _ _ _ _ H)).
Defined.

(** An answer without body: everything but the 200 of a GET. *)
Lemma requestURI_plain (env : Env) (depth : nat) (url method p filename : string)
    (headers0 : Headers) (tr : list event) (date : option Z) (ex : bool) :
  URL_pathname_search env url = Some p →
  resolve env (Str.strip_static p) = Some filename →
  statFile env filename 3 = (tr, Val (date, ex)) →
  ¬ (ex = true ∧ not_modified env headers0 date = false ∧ method = "GET") →
  requestURI env depth url method headers0
  = (tr, Val (status_for ex (not_modified env headers0 date) method,
              answer_headers env filename date ex method headers0, "")).
Proof.
  intros Hurl Hres Hst Hnot.
  set (req := {| req_url := url; req_method := method;
                 req_filename := Str.strip_static p |}).
  unfold status_for, answer_headers. destruct ex; simpl.
  2:{ erewrite requestURI_of_respond; [|done..|by apply respond_missing|
                                        apply answer_after_freshness].
      by rewrite headers_after_end, (left_id_L ∅ (∪)). }
  destruct (not_modified env headers0 date) eqn:Hnm.
  { erewrite requestURI_of_respond;
      [|done..|by apply (respond_not_modified _ _ _ req (mockResponse headers0))|
        apply answer_after_freshness].
    by rewrite headers_after_end, (left_id_L ∅ (∪)). }
  destruct (Str.eqb method "HEAD") eqn:Hhead.
  { apply Str_eqb_eq in Hhead.
    erewrite requestURI_of_respond;
      [|done..|by apply (respond_head _ _ _ req (mockResponse headers0))|
        apply resolved_typed].
    by rewrite headers_after_end, (left_id_L ∅ (∪)). }
  destruct (Str.eqb method "GET") eqn:Hget.
  { apply Str_eqb_eq in Hget. by destruct Hnot. }
  assert (method ≠ "HEAD") as Hh by (intros ->; by rewrite Str_eqb_refl in Hhead).
  assert (method ≠ "GET") as Hg by (intros ->; by rewrite Str_eqb_refl in Hget).
  erewrite requestURI_of_respond;
    [|done..|by apply (respond_other_method _ _ _ req (mockResponse headers0))|
      apply answer_after_freshness].
  by rewrite headers_after_end.
Qed.

(** The 200 of a GET. *)
Lemma requestURI_content (env : Env) (depth : nat) (url p filename : string)
    (headers0 : Headers) (tr tr' : list event) (date : option Z) (c : content) :
  URL_pathname_search env url = Some p →
  resolve env (Str.strip_static p) = Some filename →
  statFile env filename 3 = (tr, Val (date, true)) →
  not_modified env headers0 date = false →
  getFileCompressed env (below env depth) filename (mime_lookup env filename)
  = (tr', Val c) →
  requestURI env depth url "GET" headers0
  = (tr ++ tr',
     Val (200, answer_headers env filename date true "GET" headers0, toString c)).
Proof.
  intros Hurl Hres Hst Hnm Hc.
  set (req := {| req_url := url; req_method := "GET";
                 req_filename := Str.strip_static p |}).
  erewrite requestURI_of_respond;
    [|done..|by apply (respond_get _ _ _ req (mockResponse headers0) tr tr' date c)|
      apply resolved_written].
  unfold answer_headers. simpl. rewrite Hnm.
  unfold write, push_chunk. destruct (truthy c); simpl;
    by rewrite (left_id_L ∅ (∪)).
Qed.

(** X4: for a resolved path whose stat returns, the request returns and its
    status follows the order of lines 153 to 172: 404 when the resource does
    not exist, else 304 when [if-modified-since] is not older than the
    resource, else 200 for HEAD and for GET, else 405.  A GET needs its
    content to be delivered. *)
Theorem status_table (env : Env) (depth : nat) (url method p filename : string)
    (headers0 : Headers) (tr : list event) (date : option Z) (ex : bool) :
  URL_pathname_search env url = Some p →
  resolve env (Str.strip_static p) = Some filename →
  statFile env filename 3 = (tr, Val (date, ex)) →
  (method = "GET" → ex = true → not_modified env headers0 date = false →
   ∃ c, result (getFileCompressed env (below env depth) filename
                  (mime_lookup env filename)) = Val c) →
  ∃ b, result (requestURI env depth url method headers0)
       = Val (status_for ex (not_modified env headers0 date) method,
              answer_headers env filename date ex method headers0, b).
Proof.
  intros Hurl Hres Hst Hcontent.
  destruct (decide (ex = true ∧ not_modified env headers0 date = false
                    ∧ method = "GET")) as [(-> & Hnm & ->)|Hnot].
  - destruct (Hcontent eq_refl eq_refl Hnm) as [c Hc].
    destruct (getFileCompressed env (below env depth) filename
                (mime_lookup env filename)) as [tr' o] eqn:Hgfc.
    unfold result in Hc. simpl in Hc. subst o.
    exists (toString c).
    rewrite (requestURI_content _ _ _ p filename _ tr tr' date c) by done.
    unfold status_for. by rewrite Hnm.
  - exists "". by rewrite (requestURI_plain _ _ _ _ p filename _ tr date ex).
Qed.

Lemma status_table_witness :
  ∃ b, result (requestURI Sample.world 1 "http://invalid.invalid/static/js" "DELETE" ∅)
       = Val (404,
              answer_headers Sample.world "js" (Some 1700000100000) false "DELETE" ∅,
              b).
Proof.
  apply (status_table Sample.world 1 "http://invalid.invalid/static/js" "DELETE"
           "/static/js" "js" ∅ [EvStat "/srv/etherpad/src/static/js"]
           (Some 1700000100000) false eq_refl eq_refl eq_refl).
  discriminate.
Defined.

(** X5: HEAD and GET for the same resolved path, with the same headers,
    are answered with the same status and the same headers; the HEAD has
    an empty body and does nothing beyond the stat. *)
Theorem head_get_parity (env : Env) (depth : nat) (url p filename : string)
    (headers0 : Headers) (tr : list event) (date : option Z) (ex : bool) :
  URL_pathname_search env url = Some p →
  resolve env (Str.strip_static p) = Some filename →
  statFile env filename 3 = (tr, Val (date, ex)) →
  (ex = true → not_modified env headers0 date = false →
   ∃ c, result (getFileCompressed env (below env depth) filename
                  (mime_lookup env filename)) = Val c) →
  ∃ st h b,
    result (requestURI env depth url "GET" headers0) = Val (st, h, b)
    ∧ requestURI env depth url "HEAD" headers0 = (tr, Val (st, h, "")).
Proof.
  intros Hurl Hres Hst Hcontent.
  assert (requestURI env depth url "HEAD" headers0
          = (tr, Val (status_for ex (not_modified env headers0 date) "HEAD",
                      answer_headers env filename date ex "HEAD" headers0, "")))
    as Hhead.
  { by apply (requestURI_plain _ _ _ _ p); [..|intros (_ & _ & [=])]. }
  destruct (decide (ex = true ∧ not_modified env headers0 date = false))
    as [[-> Hnm]|Hnot].
  - destruct (Hcontent eq_refl Hnm) as [c Hc].
    destruct (getFileCompressed env (below env depth) filename
                (mime_lookup env filename)) as [tr' o] eqn:Hgfc.
    unfold result in Hc. simpl in Hc. subst o.
    eexists _, _, (toString c). split.
    + by rewrite (requestURI_content _ _ _ p filename _ tr tr' date c).
    + rewrite Hhead. unfold status_for, answer_headers. simpl. by rewrite Hnm.
  - eexists _, _, "". split.
    + rewrite (requestURI_plain _ _ _ _ p filename _ tr date ex); [done..|].
      intros (? & ? & _). by apply Hnot.
    + rewrite Hhead. unfold status_for, answer_headers. simpl.
      by destruct ex, (not_modified env headers0 date).
Qed.

Lemma head_get_parity_witness :
  ∃ st h b,
    result (requestURI Sample.world 1 "http://invalid.invalid/static/css/pad.css"
              "GET" ∅) = Val (st, h, b)
    ∧ requestURI Sample.world 1 "http://invalid.invalid/static/css/pad.css" "HEAD" ∅
      = ([EvStat "/srv/etherpad/src/static/css/pad.css"], Val (st, h, "")).
Proof.
  apply (head_get_parity Sample.world 1 "http://invalid.invalid/static/css/pad.css"
           "/static/css/pad.css" "css/pad.css" ∅
           [EvStat "/srv/etherpad/src/static/css/pad.css"]
           (Some 1700000500000) true eq_refl eq_refl eq_refl).
  intros _ _. exists (Text "/*min*/body { }"). vm_compute. reflexivity.
Defined.

Lemma freshness_base_lookup (env : Env) (d : Z) (headers0 : Headers) :
  let base := headers (freshness_headers env (Some d) (mockResponse headers0)) in
  base !! "last-modified" = Some (toUTCString env (setMilliseconds0 d))
  ∧ base !! "date" = Some (toUTCString env (now env))
  ∧ match settings_maxAge env with
    | Some maxAge =>
        base !! "expires" = Some (toUTCString env (now env + maxAge * 1000))
        ∧ base !! "cache-control" = Some ("max-age=" +:+ pretty maxAge)
    | None =>
        base !! "expires" = headers0 !! "expires"
        ∧ base !! "cache-control" = headers0 !! "cache-control"
    end.
Proof.
  unfold freshness_headers. destruct (settings_maxAge env) as [maxAge|]; simpl.
  - repeat split.
    + by rewrite lookup_insert_ne, lookup_insert_ne, lookup_insert_ne, lookup_insert_eq.
    + by rewrite lookup_insert_ne, lookup_insert_ne, lookup_insert_eq.
    + by rewrite lookup_insert_ne, lookup_insert_eq.
    + by rewrite lookup_insert_eq.
  - repeat split.
    + by rewrite lookup_insert_ne, lookup_insert_eq.
    + by rewrite lookup_insert_eq.
    + by rewrite lookup_insert_ne, lookup_insert_ne.
    + by rewrite lookup_insert_ne, lookup_insert_ne.
Qed.

Lemma answer_headers_keep (env : Env) (filename : string) (date : option Z)
    (ex : bool) (method : string) (headers0 : Headers) (key : string) :
  key ≠ "content-type" → key ≠ "allow" →
  answer_headers env filename date ex method headers0 !! key
  = headers (freshness_headers env date (mockResponse headers0)) !! key.
Proof.
  intros Hct Hallow. unfold answer_headers.
  destruct (negb ex); [done|].
  destruct (not_modified env headers0 date); [done|].
  destruct (Str.eqb method "HEAD"); [by rewrite lookup_insert_ne|].
  destruct (Str.eqb method "GET"); [by rewrite lookup_insert_ne|].
  rewrite lookup_union_r; [done|]. by rewrite lookup_singleton_ne.
Qed.

(** X6: every answer for a resolved path for which [statFile] found a date,
    the 404 with the date of a parent directory included, carries
    [last-modified] with that date cut to whole seconds and [date] with the
    current time; [expires] and [cache-control] are set when
    [settings.maxAge] is defined and left as the caller had them when it is
    not. *)
Theorem dated_answer_headers (env : Env) (depth : nat) (url method p filename : string)
    (headers0 h : Headers) (st : Z) (b : string) (d : Z) (ex : bool) :
  URL_pathname_search env url = Some p →
  resolve env (Str.strip_static p) = Some filename →
  result (statFile env filename 3) = Val (Some d, ex) →
  result (requestURI env depth url method headers0) = Val (st, h, b) →
  h !! "last-modified" = Some (toUTCString env (setMilliseconds0 d))
  ∧ h !! "date" = Some (toUTCString env (now env))
  ∧ match settings_maxAge env with
    | Some maxAge =>
        h !! "expires" = Some (toUTCString env (now env + maxAge * 1000))
        ∧ h !! "cache-control" = Some ("max-age=" +:+ pretty maxAge)
    | None =>
        h !! "expires" = headers0 !! "expires"
        ∧ h !! "cache-control" = headers0 !! "cache-control"
    end.
Proof.
  intros Hurl Hres Hst H.
  destruct (requestURI_inv _ _ _ _ _ _ _ _ H)
    as (p' & Hurl' & [(Hconf & _) | (f & date & ex' & Hres' & Hst' & _ & -> & _)]).
  - rewrite Hurl in Hurl'. injection Hurl' as <-.
    unfold resolve in Hres. by rewrite Hconf in Hres.
  - rewrite Hurl in Hurl'. injection Hurl' as <-.
    rewrite Hres in Hres'. injection Hres' as <-.
    rewrite Hst in Hst'. injection Hst' as <- <-.
    rewrite !answer_headers_keep by done.
    apply freshness_base_lookup.
Qed.

Lemma dated_answer_headers_witness :
  ∃ h, result (requestURI Sample.world 1 "http://invalid.invalid/static/css/none.css"
                 "GET" ∅) = Val (404, h, "")
       ∧ h !! "last-modified" = Some "Tue, 14 Nov 2023 22:20:00 GMT"
       ∧ h !! "cache-control" = Some "max-age=21600".
Proof.
  assert (∃ h, result (requestURI Sample.world 1
                         "http://invalid.invalid/static/css/none.css" "GET" ∅)
               = Val (404, h, "")) as [h Hh] by (eexists; vm_compute; reflexivity).
  exists h. split; [done|].
  destruct (dated_answer_headers Sample.world 1
              "http://invalid.invalid/static/css/none.css" "GET"
              "/static/css/none.css" "css/none.css" ∅ h 404 "" 1700000400000 false
              eq_refl eq_refl eq_refl Hh) as (Hlm & _ & _ & Hcc).
  split; [exact Hlm|exact Hcc].
Defined.

(** X7: a GET through the loop-back with no [if-modified-since] header,
    which is how [getAceFile] fetches, returns 200 or 404 and nothing else,
    so the error branch of [getAceFile] is never taken: when the fetch of a
    referenced file returns, its assignment is appended. *)
Theorem loopback_get_status (env : Env) (depth : nat) (url : string)
    (headers0 h : Headers) (st : Z) (b data filename : string) :
  headers0 !! "if-modified-since" = None →
  (result (requestURI env depth url "GET" headers0) = Val (st, h, b) →
   st = 200 ∨ st = 404)
  ∧ ∀ data', result (embed (requestURI env depth) data filename) = Val data' →
      ∃ value, data' = data +:+ assignment filename value.
Proof.
  intros Hnone.
  assert (∀ url h0 st h b, h0 !! "if-modified-since" = None →
            result (requestURI env depth url "GET" h0) = Val (st, h, b) →
            st = 200 ∨ st = 404) as Hstatus.
  { intros url' h0 st' h' b' Hn H.
    destruct (requestURI_inv _ _ _ _ _ _ _ _ H)
      as (p & _ & [(_ & -> & _) | (f & date & ex & _ & _ & -> & _)]); [by right|].
    unfold status_for, not_modified. rewrite Hn. simpl.
    destruct ex; auto. }
  split; [by apply Hstatus|].
  intros data' H. unfold embed in H. fold (resourceURI filename) in H.
  destruct (requestURI env depth (resourceURI filename) "GET" ∅)
    as [tr [[[st' h'] b']| |]] eqn:Hfetch; [|done..].
  destruct (Hstatus (resourceURI filename) ∅ st' h' b') as [-> | ->];
    [apply lookup_empty|by rewrite Hfetch|..];
    rewrite bind_val in H; simpl in H; unfold result in H; simpl in H;
    injection H as <-; eexists; unfold assignment; reflexivity.
Qed.

Lemma loopback_get_status_witness :
  (∀ st h b,
     result (requestURI Sample.world 1 "http://invalid.invalid/static/x.js" "GET" ∅)
     = Val (st, h, b) → st = 200 ∨ st = 404)
  ∧ ∃ value,
      result (embed (requestURI Sample.world 1) "var a;" "../static/css/none.css")
      = Val ("var a;" +:+ assignment "../static/css/none.css" value).
Proof.
  split.
  - intros st h b.
    apply (loopback_get_status Sample.world 1 "http://invalid.invalid/static/x.js"
             ∅ h st b "" "" (lookup_empty _)).
  - destruct (loopback_get_status Sample.world 1 "" ∅ ∅ 0 "" "var a;"
                "../static/css/none.css" (lookup_empty _)) as [_ Hembed].
    destruct (Hembed ("var a;" +:+ assignment "../static/css/none.css" "null"))
      as [value Hvalue]; [vm_compute; reflexivity|].
    exists value. rewrite <- Hvalue. vm_compute. reflexivity.
Defined.

(** ** The freshness stat, further *)

Lemma bind_val_inv {A B} (m : M A) (k : A → M B) (b : B) :
  result (bind m k) = Val b → ∃ a, result m = Val a ∧ result (k a) = Val b.
Proof.
  destruct m as [tr [a| |]]; [|done..]. rewrite bind_val. intros H.
  by exists a.
Qed.

Lemma later_some (latest : option Z) (t : Z) : is_Some (later latest t).
Proof.
  unfold later. destruct latest as [l|]; [|by eexists].
  destruct (Z.ltb l t); by eexists.
Qed.

Lemma check_entries_dated (env : Env) (path : string) (files : list string)
    (x : string) (latest d : option Z) :
  result (foldM (check_entry env path) latest (files ++ [x])) = Val d → is_Some d.
Proof.
  revert latest. induction files as [|f files IH]; intros latest H; simpl in H.
  - apply bind_val_inv in H as (a & Ha & Hd). injection Hd as <-.
    unfold check_entry in Ha. apply bind_val_inv in Ha as (st & _ & Ha).
    injection Ha as <-. apply later_some.
  - apply bind_val_inv in H as (a & _ & Hrest). by apply (IH a).
Qed.

Lemma everything_dated (env : Env) (d : option Z) :
  result (lastModifiedDateOfEverything env) = Val d → is_Some d.
Proof.
  unfold lastModifiedDateOfEverything, folders2check. simpl. intros H.
  apply bind_val_inv in H as (a & _ & H).
  apply bind_val_inv in H as (a' & H & Hd). injection Hd as <-.
  unfold check_folder in H. apply bind_val_inv in H as (files & _ & H).
  by apply check_entries_dated in H.
Qed.

(** X8: a freshness record with [exists = true] always has a date, so the
    comparison of line 156 and the headers of lines 142 to 151 never meet
    [null] for a resource that exists. *)
Theorem existing_has_date (env : Env) (filename : string) (limit : nat)
    (d : option Z) :
  result (statFile env filename limit) = Val (d, true) → is_Some d.
Proof.
  destruct limit as [|limit]; [done|]. simpl.
  destruct (Str.eqb filename "" || Str.eqb filename "/")%bool; [done|].
  destruct (Str.eqb filename "js/ace.js").
  { intros H. apply bind_val_inv in H as (a & Ha & Hd). injection Hd as <-.
    by apply everything_dated in Ha. }
  destruct (Str.eqb filename "js/require-kernel.js").
  { intros [= <-]. by eexists. }
  unfold stat. destruct (fs_stat env (ROOT_DIR env +:+ filename)) as [st|c]; simpl.
  { intros [= <- _]. by eexists. }
  case_bool_decide; [|done].
  destruct (statFile env (Path.dirname filename) limit) as [tr [[d' e]| |]]; done.
Qed.

Lemma existing_has_date_witness :
  result (statFile Sample.world "js/ace.js" 3) = Val (Some 1700000500000, true)
  ∧ is_Some (Some 1700000500000).
Proof.
  assert (result (statFile Sample.world "js/ace.js" 3)
          = Val (Some 1700000500000, true)) as H by (vm_compute; reflexivity).
  split; [exact H|].
  exact (existing_has_date Sample.world "js/ace.js" 3 (Some 1700000500000) H).
Defined.

(** X9: unless the walk passes [js/ace.js], [statFile] does nothing but
    stat, at most [dirStatLimit] times, and only the path and its
    ancestors below the asset root. *)
Theorem stat_budget (env : Env) (filename : string) (limit : nat) :
  "js/ace.js" ∉ ancestors filename limit →
  (length (trace (statFile env filename limit)) ≤ limit)%nat
  ∧ ∀ ev, ev ∈ trace (statFile env filename limit) →
      ∃ p, ev = EvStat (ROOT_DIR env +:+ p) ∧ p ∈ ancestors filename limit.
Proof.
  revert filename. induction limit as [|limit IH]; intros filename Hace.
  { split; [done|]. intros ev Hev. by apply elem_of_nil in Hev. }
  simpl in Hace. apply not_elem_of_cons in Hace as [Hne Hrest].
  assert (∀ m : M (option Z * bool), trace m = [] →
            (length (trace m) ≤ S limit)%nat
            ∧ ∀ ev, ev ∈ trace m →
                ∃ p, ev = EvStat (ROOT_DIR env +:+ p)
                     ∧ p ∈ ancestors filename (S limit)) as Hquiet.
  { intros m ->. split; [simpl; lia|]. intros ev Hev. by apply elem_of_nil in Hev. }
  destruct (decide (filename = "")) as [->|H1]; [by apply Hquiet|].
  destruct (decide (filename = "/")) as [->|H2]; [by apply Hquiet|].
  destruct (decide (filename = "js/require-kernel.js")) as [->|H3];
    [by apply Hquiet|].
  assert (served_from_disk filename) as Hdisk by done.
  assert (∀ ev, ev ∈ [EvStat (ROOT_DIR env +:+ filename)] →
            ∃ p, ev = EvStat (ROOT_DIR env +:+ p)
                 ∧ p ∈ ancestors filename (S limit)) as Hfirst.
  { intros ev ->%list_elem_of_singleton. exists filename. split; [done|by left]. }
  destruct (fs_stat env (ROOT_DIR env +:+ filename)) as [st|c] eqn:Hst.
  { rewrite (statFile_found _ _ _ st) by done. split; [simpl; lia|done]. }
  destruct (decide (c = "ENOENT")) as [->|Hc].
  2:{ rewrite (statFile_other_error _ _ c) by done. split; [simpl; lia|done]. }
  rewrite statFile_enoent by done.
  destruct (IH (Path.dirname filename) Hrest) as [Hlen Hin].
  assert (trace (emit (EvStat (ROOT_DIR env +:+ filename));;
                 let* (date, _) := statFile env (Path.dirname filename) limit in
                 ret (date, false))
          = EvStat (ROOT_DIR env +:+ filename)
            :: trace (statFile env (Path.dirname filename) limit)) as ->.
  { destruct (statFile env (Path.dirname filename) limit) as [tr [[d e]| |]];
      unfold trace; simpl; by rewrite ?app_nil_r. }
  split; [simpl; lia|].
  intros ev [->|Hev]%elem_of_cons.
  - apply Hfirst. by left.
  - destruct (Hin ev Hev) as (p & -> & Hp). exists p. split; [done|by right].
Qed.

Lemma stat_budget_witness :
  (length (trace (statFile Sample.world "a/b/c/d/e.js" 3)) ≤ 3)%nat.
Proof.
  apply (stat_budget Sample.world "a/b/c/d/e.js" 3).
  vm_compute. intros H.
  repeat (apply elem_of_cons in H as [H|H]; [discriminate|]).
  by apply elem_of_nil in H.
Defined.

(** ** The aggregate scan, further *)

Lemma check_entries_ok_inv (env : Env) (path : string) (files : list string)
    (latest d : option Z) :
  result (foldM (check_entry env path) latest files) = Val d →
  ∀ f, f ∈ files → ∃ st, fs_stat env (path +:+ "/" +:+ f) = inl st.
Proof.
  revert latest. induction files as [|f files IH]; intros latest H g Hg.
  { by apply elem_of_nil in Hg. }
  simpl in H. apply bind_val_inv in H as (a & Ha & Hrest).
  apply elem_of_cons in Hg as [->|Hg]; [|by apply (IH a)].
  unfold check_entry in Ha. apply bind_val_inv in Ha as (st & Hst & _).
  unfold stat, result, of_fs in Hst. simpl in Hst.
  destruct (fs_stat env (path +:+ "/" +:+ f)) as [st'|]; [by exists st'|done].
Qed.

Lemma check_folder_ok_inv (env : Env) (path : string) (latest d : option Z) :
  result (check_folder env latest path) = Val d →
  ∃ files, fs_readdir env path = inl files
           ∧ ∀ f, f ∈ files ++ ["."] →
               ∃ st, fs_stat env (path +:+ "/" +:+ f) = inl st.
Proof.
  unfold check_folder. intros H. apply bind_val_inv in H as (files & Hdir & H).
  exists files. split.
  - unfold readdir, result, of_fs in Hdir. simpl in Hdir.
    destruct (fs_readdir env path) as [l|]; [|done]. by injection Hdir as ->.
  - by apply (check_entries_ok_inv env path _ latest d).
Qed.

Lemma fs_outcome_bind {A B} (m : M A) (k : A → M B) :
  ends_in_fs_error_or_value m → (∀ a, ends_in_fs_error_or_value (k a)) →
  ends_in_fs_error_or_value (bind m k).
Proof.
  unfold ends_in_fs_error_or_value. intros Hm Hk.
  destruct m as [tr [a|[c|msg]|]]; try done.
  rewrite bind_val. unfold result at 1. simpl. apply Hk.
Qed.

Lemma fs_outcome_foldM {A B} (f : A → B → M A) (a : A) (l : list B) :
  (∀ a x, ends_in_fs_error_or_value (f a x)) →
  ends_in_fs_error_or_value (foldM f a l).
Proof.
  intros Hf. revert a. induction l as [|x l IH]; intros a; [done|].
  simpl. by apply fs_outcome_bind.
Qed.

Lemma fs_outcome_everything (env : Env) :
  ends_in_fs_error_or_value (lastModifiedDateOfEverything env).
Proof.
  apply fs_outcome_foldM. intros latest path. apply fs_outcome_bind.
  - unfold ends_in_fs_error_or_value, readdir, result. simpl.
    by destruct (fs_readdir env path).
  - intros files. apply fs_outcome_foldM. intros l f. apply fs_outcome_bind; [|done].
    unfold ends_in_fs_error_or_value, stat, result. simpl.
    by destruct (fs_stat env _).
Qed.

(** X10: the freshness record of [js/ace.js] is produced exactly when both
    directories can be listed and every entry and both directories can be
    stat'ed; any failure there, [ENOENT] included, is thrown as a
    file-system error: the aggregate has no fallback. *)
Theorem aggregate_all_or_nothing (env : Env) (limit : nat) :
  ((∃ d, result (statFile env "js/ace.js" (S limit)) = Val (d, true))
   ↔ ∃ scripts styles,
       fs_readdir env (ROOT_DIR env +:+ "js/") = inl scripts
       ∧ fs_readdir env (ROOT_DIR env +:+ "css/") = inl styles
       ∧ ∀ p, p ∈ checked_paths env scripts styles → ∃ st, fs_stat env p = inl st)
  ∧ ((∀ v, result (statFile env "js/ace.js" (S limit)) ≠ Val v) →
     ∃ c, result (statFile env "js/ace.js" (S limit)) = Throw (FsError c)).
Proof.
  change (statFile env "js/ace.js" (S limit))
    with (let* d := lastModifiedDateOfEverything env in ret (d, true)).
  split; [split|].
  - intros [d H]. apply bind_val_inv in H as (a & H & _).
    unfold lastModifiedDateOfEverything, folders2check in H. simpl in H.
    apply bind_val_inv in H as (a1 & H1 & H).
    apply bind_val_inv in H as (a2 & H2 & _).
    apply check_folder_ok_inv in H1 as (scripts & Hjs & Hok1).
    apply check_folder_ok_inv in H2 as (styles & Hcss & Hok2).
    exists scripts, styles. split; [done|]. split; [done|].
    intros p Hp. unfold checked_paths in Hp.
    apply elem_of_app in Hp as [Hp|Hp];
      apply list_elem_of_fmap in Hp as (f & -> & Hf); auto.
  - intros (scripts & styles & Hjs & Hcss & Hok).
    destruct (ace_freshness env limit scripts styles Hjs Hcss Hok) as (m & Hm & _).
    by exists (Some m).
  - intros Hno. pose proof (fs_outcome_everything env) as Hout.
    unfold ends_in_fs_error_or_value in Hout.
    destruct (lastModifiedDateOfEverything env) as [tr [d|[c|msg]|]]; try done.
    + destruct (Hno (d, true)). by rewrite bind_val.
    + by exists c.
Qed.

Lemma aggregate_all_or_nothing_witness :
  ∃ c, result (statFile (without_styles Sample.world) "js/ace.js" 3)
       = Throw (FsError c).
Proof.
  apply (aggregate_all_or_nothing (without_styles Sample.world) 2).
  intros v H. vm_compute in H. discriminate.
Defined.

Lemma is_max_perm (m : Z) (l l' : list Z) : l ≡ₚ l' → is_max m l → is_max m l'.
Proof.
  intros Hp [Hin Hmax]. split; [by rewrite <- Hp|].
  intros t Ht. apply Hmax. by rewrite Hp.
Qed.

Lemma checked_paths_perm (env : Env) (scripts scripts' styles styles' : list string) :
  scripts' ≡ₚ scripts → styles' ≡ₚ styles →
  checked_paths env scripts' styles' ≡ₚ checked_paths env scripts styles.
Proof. intros H1 H2. unfold checked_paths. by rewrite H1, H2. Qed.

Lemma relist_readdir (env : Env) (scripts styles : list string) :
  fs_readdir (relist env scripts styles) (ROOT_DIR env +:+ "js/") = inl scripts
  ∧ fs_readdir (relist env scripts styles) (ROOT_DIR env +:+ "css/") = inl styles.
Proof.
  simpl. rewrite !Str_eqb_refl. split; [done|].
  rewrite Str_eqb_neq; [done|]. by intros ?%(inj (String.app _)).
Qed.

(** X11: the aggregate date does not depend on the order in which the two
    directories list their entries, which is the order the stats are
    compared in: listing the same entries in another order gives the same
    freshness record. *)
Theorem aggregate_order_independent (env : Env) (limit : nat)
    (scripts styles scripts' styles' : list string) :
  fs_readdir env (ROOT_DIR env +:+ "js/") = inl scripts →
  fs_readdir env (ROOT_DIR env +:+ "css/") = inl styles →
  (∀ p, p ∈ checked_paths env scripts styles → ∃ st, fs_stat env p = inl st) →
  scripts' ≡ₚ scripts → styles' ≡ₚ styles →
  result (statFile (relist env scripts' styles') "js/ace.js" (S limit))
  = result (statFile env "js/ace.js" (S limit)).
Proof.
  intros Hjs Hcss Hok Hp1 Hp2.
  destruct (ace_freshness env limit scripts styles Hjs Hcss Hok) as (m & -> & Hmax).
  destruct (relist_readdir env scripts' styles') as [Hjs' Hcss'].
  destruct (ace_freshness (relist env scripts' styles') limit scripts' styles'
              Hjs' Hcss') as (m' & -> & Hmax').
  { intros p Hp. apply Hok.
    change (checked_paths (relist env scripts' styles') scripts' styles')
      with (checked_paths env scripts' styles') in Hp.
    by rewrite <- (checked_paths_perm env scripts scripts' styles styles'). }
  do 3 f_equal. apply (is_max_unique _ _ _ Hmax').
  change (mtime_of (relist env scripts' styles')) with (mtime_of env).
  change (checked_paths (relist env scripts' styles') scripts' styles')
    with (checked_paths env scripts' styles').
  apply (is_max_perm m (mtime_of env <$> checked_paths env scripts styles));
    [|done].
  by rewrite (checked_paths_perm env scripts scripts' styles styles').
Qed.

Lemma aggregate_order_independent_witness :
  result (statFile (relist Sample.world ["vendors"; "bad.js"; "ace.js"; "pad.js"]
                      ["pad.css"]) "js/ace.js" 3)
  = result (statFile Sample.world "js/ace.js" 3).
Proof.
  apply (aggregate_order_independent Sample.world 2
           ["ace.js"; "pad.js"; "bad.js"; "vendors"] ["pad.css"]
           ["vendors"; "bad.js"; "ace.js"; "pad.js"] ["pad.css"]
           eq_refl eq_refl sample_checked_paths).
  - apply (bool_decide_unpack _). vm_compute. exact I.
  - reflexivity.
Defined.

(** ** Content and compression, further *)

Lemma bind_ext {A B} (m : M A) (k k' : A → M B) :
  (∀ a, k a = k' a) → bind m k = bind m k'.
Proof. intros H. destruct m as [tr [a| |]]; [|done..]. simpl. by rewrite H. Qed.

Lemma bind_ret_r {A} (m : M A) : bind m ret = m.
Proof. destruct m as [tr [a| |]]; [|done..]. simpl. by rewrite app_nil_r. Qed.

(** X12: with [settings.minify] off, or for a content type that is neither
    script nor style sheet, the compression step is the read and nothing
    more: it does what [getFile] does and returns what [getFile] returns. *)
Theorem compression_skipped (env : Env)
    (loopback : string → string → Headers → M (Z * Headers * string))
    (filename : string) (contentType : option string) :
  settings_minify env = false
  ∨ (contentType ≠ Some "application/javascript" ∧ contentType ≠ Some "text/css") →
  getFileCompressed env loopback filename contentType
  = getFile env loopback filename.
Proof.
  intros Hskip. unfold getFileCompressed.
  rewrite <- (bind_ret_r (getFile env loopback filename)) at 2.
  apply bind_ext. intros c.
  destruct Hskip as [-> | [Hjs Hcss]]; [by rewrite orb_true_r|].
  destruct (negb (truthy c) || negb (settings_minify env))%bool; [done|].
  by rewrite !bool_decide_eq_false_2.
Qed.

Lemma compression_skipped_witness :
  getFileCompressed Sample.world (requestURI Sample.world 1) "x.js" (Some "text/html")
  = ([EvReadFile "/srv/etherpad/src/static/x.js"], Val (Buffer "var x;")).
Proof.
  rewrite (compression_skipped Sample.world (requestURI Sample.world 1) "x.js"
             (Some "text/html")).
  - reflexivity.
  - right. split; discriminate.
Defined.

Lemma compress_script_settles (env : Env) (filename : string)
    (contentType : option string) (content0 : content) :
  ∃ tr c, compress_script env filename contentType content0 = (tr, Val c)
          ∧ ∀ ev, ev ∈ tr → is_fs_event ev = false.
Proof.
  unfold compress_script, worker_compressJS.
  destruct (compressJS env (toString content0)) as [r|]; simpl.
  - destruct (error r); simpl.
    + eexists _, _. split; [done|].
      intros ev Hev. repeat (apply elem_of_cons in Hev as [->|Hev]; [done|]).
      by apply elem_of_nil in Hev.
    + destruct (code r); simpl; eexists _, _; (split; [done|]);
        intros ev Hev; repeat (apply elem_of_cons in Hev as [->|Hev]; [done|]);
        by apply elem_of_nil in Hev.
  - eexists _, _. split; [done|].
    intros ev Hev. repeat (apply elem_of_cons in Hev as [->|Hev]; [done|]).
    by apply elem_of_nil in Hev.
Qed.

Lemma compress_style_settles (env : Env) (filename : string) (content0 : content) :
  ∃ tr c, compress_style env filename content0 = (tr, Val c)
          ∧ ∀ ev, ev ∈ tr → is_fs_event ev = false.
Proof.
  unfold compress_style, worker_compressCSS.
  destruct (compressCSS env filename (ROOT_DIR env)) as [r|]; simpl;
    eexists _, _; (split; [done|]);
    intros ev Hev; repeat (apply elem_of_cons in Hev as [->|Hev]; [done|]);
    by apply elem_of_nil in Hev.
Qed.

Lemma shim_content (env : Env)
    (loopback : string → string → Headers → M (Z * Headers * string))
    (contentType : option string) :
  ∃ tr c, getFileCompressed env loopback "js/require-kernel.js" contentType
          = (tr, Val c)
          ∧ ∀ ev, ev ∈ tr → is_fs_event ev = false.
Proof.
  unfold getFileCompressed.
  change (getFile env loopback "js/require-kernel.js")
    with (ret (A := content) (Text (requireDefinition env))).
  rewrite bind_ret_l.
  destruct (negb (truthy (Text (requireDefinition env)))
            || negb (settings_minify env))%bool.
  { eexists _, _. split; [done|]. intros ev Hev. by apply elem_of_nil in Hev. }
  case_bool_decide; [apply compress_script_settles|].
  case_bool_decide; [apply compress_style_settles|].
  eexists _, _. split; [done|]. intros ev Hev. by apply elem_of_nil in Hev.
Qed.

(** X13: the loader shim [js/require-kernel.js] is served from memory: a
    request that resolves to it always returns, with 200, 304 or 405, and
    neither stats, lists nor reads anything, whatever the file system
    holds and whether compression works or not. *)
Theorem loader_shim_needs_no_file (env : Env) (depth : nat) (url method p : string)
    (headers0 : Headers) :
  URL_pathname_search env url = Some p →
  resolve env (Str.strip_static p) = Some "js/require-kernel.js" →
  ∃ st h b,
    result (requestURI env depth url method headers0) = Val (st, h, b)
    ∧ st ∈ [200; 304; 405]
    ∧ ∀ ev, ev ∈ trace (requestURI env depth url method headers0) →
        is_fs_event ev = false.
Proof.
  intros Hurl Hres.
  assert (statFile env "js/require-kernel.js" 3
          = ([], Val (Some (loadTime env), true))) as Hst by done.
  destruct (decide (not_modified env headers0 (Some (loadTime env)) = false
                    ∧ method = "GET")) as [[Hnm ->]|Hnot].
  - destruct (shim_content env (below env depth)
                (mime_lookup env "js/require-kernel.js")) as (tr & c & Hc & Hquiet).
    rewrite (requestURI_content _ _ _ p "js/require-kernel.js" _ [] tr
               (Some (loadTime env)) c) by done.
    eexists _, _, _. split; [done|]. split; [by left|done].
  - rewrite (requestURI_plain _ _ _ _ p "js/require-kernel.js" _ []
               (Some (loadTime env)) true) by (done || by intros (_ & ? & ?); auto).
    eexists _, _, _. split; [done|]. split.
    + unfold status_for. simpl.
      destruct (not_modified env headers0 (Some (loadTime env))),
        (Str.eqb method "HEAD"), (Str.eqb method "GET");
        repeat first [by left | right].
    + intros ev Hev. by apply elem_of_nil in Hev.
Qed.

Lemma loader_shim_needs_no_file_witness :
  ∃ st h b,
    result (requestURI (without_styles Sample.world) 1
              "http://invalid.invalid/static/js/require-kernel.js" "GET" ∅)
    = Val (st, h, b)
    ∧ st ∈ [200; 304; 405].
Proof.
  destruct (loader_shim_needs_no_file (without_styles Sample.world) 1
              "http://invalid.invalid/static/js/require-kernel.js" "GET"
              "/static/js/require-kernel.js" ∅ eq_refl eq_refl)
    as (st & h & b & H & Hst & _).
  by exists st, h, b.
Defined.

(** ** The batch, the other way round *)

Lemma fetch_all_inv (env : Env) (depth : nat) (locations : list string)
    (method : string) (headers0 h h' : Headers) (responses : list (Z * string)) :
  since h = since headers0 →
  result (fetch_all env depth locations method h) = Val (responses, h') →
  ∃ hs,
    independent env depth locations method headers0
    = Some (responses.*1, hs, responses.*2)
    ∧ length responses = length locations.
Proof.
  revert h responses.
  induction locations as [|loc rest IH]; intros h responses Hs Hall.
  { simpl in Hall. injection Hall as <- <-. by exists []. }
  simpl in Hall.
  apply bind_val_inv in Hall as ([[st h1] body] & Hfetch & Hall).
  apply bind_val_inv in Hall as ([responses' h2] & Hrest & Hall).
  injection Hall as <- <-.
  pose proof (requestURI_since env depth loc method h h1 st body Hfetch) as Hs1.
  destruct (IH h1 responses') as (hs & Hind & Hlen); [congruence|done|].
  destruct (requestURI_frame env depth loc method h headers0 Hs) as [_ Hsame].
  rewrite Hfetch in Hsame.
  destruct (result (requestURI env depth loc method headers0))
    as [[[st0 h0] body0]| |] eqn:Hfetch0; [|done..].
  injection Hsame as <- <-.
  exists (h0 :: hs). simpl. rewrite Hfetch0, Hind. split; [done|].
  by rewrite Hlen.
Qed.

(** X14: a batch returns only when every one of its fetches, done alone
    on the caller's headers, returns; the statuses and bodies are those of
    the single fetches, and each of the three lists has one entry for each
    location. *)
Theorem batch_returns_what_each_returns (env : Env) (depth : nat)
    (locations : list string) (method : string) (headers0 : Headers)
    (sts : list Z) (hs : list Headers) (bodies : list string) :
  result (requestURIs env depth locations method headers0) = Val (sts, hs, bodies) →
  (∃ hs', independent env depth locations method headers0 = Some (sts, hs', bodies))
  ∧ length sts = length locations
  ∧ length hs = length locations
  ∧ length bodies = length locations.
Proof.
  unfold requestURIs. intros H.
  apply bind_val_inv in H as ([responses h] & Hall & H).
  injection H as <- <- <-.
  destruct (fetch_all_inv env depth locations method headers0 headers0 h responses
              eq_refl Hall) as (hs' & Hind & Hlen).
  rewrite !length_fmap. split; [by exists hs'|done].
Qed.

Lemma batch_returns_what_each_returns_witness :
  ∃ hs', independent Sample.world 1
           ["http://invalid.invalid/static/x.js";
            "http://invalid.invalid/static/css/none.css"] "HEAD" ∅
         = Some ([200; 404], hs', [""; ""]).
Proof.
  refine (proj1 (batch_returns_what_each_returns Sample.world 1
                   ["http://invalid.invalid/static/x.js";
                    "http://invalid.invalid/static/css/none.css"] "HEAD" ∅
                   [200; 404] _ [""; ""] _)).
  vm_compute. reflexivity.
Defined.

(** ** Which paths are rewritten *)



(** ** The embed directives of [ace.js] *)

Lemma take_lower_app (kw rest : string) :
  take_lower (String.length kw) (kw +:+ rest) = Str.toLowerCase kw.
Proof. induction kw as [|c kw IH]; [by destruct rest|]. simpl. by rewrite IH. Qed.

Lemma toLowerCase_length (s : string) :
  String.length (Str.toLowerCase s) = String.length s.
Proof. induction s as [|c s IH]; [done|]. simpl. by rewrite IH. Qed.

Lemma span_ident_app (name rest : string) :
  all_chars is_ident_char name = true →
  span_ident (name +:+ String "(" rest) = (String.length name, String "(" rest).
Proof.
  induction name as [|c name IH]; intros Hid; [done|].
  simpl in Hid. apply andb_true_iff in Hid as [Hc Hname].
  rewrite app_cons. simpl. rewrite Hc. by rewrite IH.
Qed.

Lemma span_no_quote_app (path rest : string) (q : ascii) :
  all_chars (λ c, negb (is_quote c)) path = true →
  is_quote q = true →
  span_no_quote (path +:+ String q rest) = (path, String q rest).
Proof.
  intros Hpath Hq. induction path as [|c path IH].
  { rewrite app_empty_l. simpl. by rewrite Hq. }
  simpl in Hpath. apply andb_true_iff in Hpath as [Hc Hpath].
  rewrite app_cons. simpl. apply negb_true_iff in Hc. rewrite Hc.
  by rewrite IH.
Qed.

Lemma match_include_needs_dollar (c : ascii) (r : string) :
  Ascii.eqb c "$" = false → match_include (String c r) = None.
Proof.
  intros Hc. unfold match_include.
  assert (Str.eqb (take_lower 10 (String c r)) "$$include_" = false) as ->; [|done].
  apply Str_eqb_neq. simpl. intros [= Hlow _].
  unfold Str.upper_to_lower in Hlow.
  destruct (Nat.leb 65 (nat_of_ascii c) && Nat.leb (nat_of_ascii c) 90)%bool eqn:Hup.
  - apply andb_true_iff in Hup as [Hlo Hhi]. apply Nat.leb_le in Hlo.
    apply (f_equal nat_of_ascii) in Hlow.
    rewrite nat_ascii_embedding in Hlow; [|apply Nat.leb_le in Hhi; lia].
    change (nat_of_ascii "$") with 36%nat in Hlow. lia.
  - subst c. by rewrite Ascii.eqb_refl in Hc.
Qed.

Lemma directives_skip_plain (pre s : string) :
  all_chars (λ c, negb (Ascii.eqb c "$")) pre = true →
  include_directives_from O (pre +:+ s) = include_directives_from O s.
Proof.
  induction pre as [|c pre IH]; intros Hpre; [by rewrite app_empty_l|].
  simpl in Hpre. apply andb_true_iff in Hpre as [Hc Hpre].
  apply negb_true_iff in Hc.
  rewrite app_cons. simpl. rewrite (match_include_needs_dollar c _ Hc).
  by apply IH.
Qed.

Lemma directives_skip_matched (s post : string) :
  include_directives_from (String.length s) (s +:+ post)
  = include_directives_from O post.
Proof.
  induction s as [|c s IH]; [rewrite app_empty_l; by destruct post|].
  rewrite app_cons. simpl. apply IH.
Qed.

Lemma length_app_str (s t : string) :
  String.length (s +:+ t) = (String.length s + String.length t)%nat.
Proof. induction s as [|c s IH]; [done|]. rewrite app_cons. simpl. by rewrite IH. Qed.

(** X16: a directive is found whatever the case of its keyword and
    whichever of the two quotes it uses: after text without a dollar sign,
    the keyword, a non-empty name of letters and underscores, and a path
    without quotes between a pair of the same quote and in parentheses, the
    scan yields the path and goes on right behind the closing
    parenthesis. *)
Theorem directive_found (pre kw name path post : string) (q : ascii) :
  all_chars (λ c, negb (Ascii.eqb c "$")) pre = true →
  Str.toLowerCase kw = "$$include_" →
  name ≠ "" →
  all_chars is_ident_char name = true →
  is_quote q = true →
  all_chars (λ c, negb (is_quote c)) path = true →
  include_directives
    (pre +:+ kw +:+ name +:+ String "(" (String q (path +:+ String q (String ")" post))))
  = path :: include_directives post.
Proof.
  intros Hpre Hkw Hname Hid Hq Hpath. unfold include_directives.
  rewrite (directives_skip_plain pre _ Hpre).
  assert (String.length kw = 10%nat) as Hlen.
  { by rewrite <- toLowerCase_length, Hkw. }
  set (tail := name +:+ String "(" (String q (path +:+ String q (String ")" post)))).
  assert (match_include (kw +:+ tail)
          = Some (path, (10 + String.length name + 2 + String.length path + 2)%nat))
    as Hmatch.
  { unfold match_include.
    rewrite <- Hlen at 1. rewrite take_lower_app, Hkw. rewrite Str_eqb_refl.
    rewrite <- Hlen. rewrite slice_from_app. unfold tail.
    rewrite (span_ident_app name _ Hid).
    destruct name as [|c name]; [done|]. cbn [String.length].
    rewrite Hq. rewrite (span_no_quote_app path _ q Hpath Hq).
    by rewrite Ascii.eqb_refl. }
  destruct kw as [|k kw]; [done|]. rewrite app_cons in Hmatch |- *.
  cbn [include_directives_from]. rewrite Hmatch. f_equal.
  injection Hlen as Hlen.
  replace (kw +:+ tail)
    with ((kw +:+ name +:+ String "(" (String q (path +:+ String q ")"))) +:+ post).
  2:{ unfold tail. rewrite !app_assoc_str. do 2 f_equal.
      rewrite !app_cons. do 2 f_equal. rewrite app_assoc_str. f_equal. }
  replace (10 + String.length name + 2 + String.length path + 2 - 1)%nat
    with (String.length (kw +:+ name +:+ String "(" (String q (path +:+ String q ")")))).
  { apply directives_skip_matched. }
  rewrite !length_app_str. cbn [String.length]. rewrite length_app_str.
  cbn [String.length]. lia.
Qed.

Lemma directive_found_witness :
  include_directives "var a = 1; $$include_Js('../static/js/pad.js'); $$INCLUDE_CSS('x')"
  = "../static/js/pad.js" :: include_directives "; $$INCLUDE_CSS('x')".
Proof.
  apply (directive_found "var a = 1; " "$$include_" "Js" "../static/js/pad.js"
           "; $$INCLUDE_CSS('x')" "039");
    first [reflexivity | discriminate].
Defined.

(** ** The pad route parameter *)

Lemma all_chars_app (P : ascii → bool) (s t : string) :
  all_chars P (s +:+ t) = (all_chars P s && all_chars P t)%bool.
Proof.
  induction s as [|c s IH]; [by rewrite app_empty_l|].
  rewrite app_cons. simpl. by rewrite IH, andb_assoc.
Qed.

Lemma encode_char_safe (c : ascii) : all_chars uri_safe (Uri.encode_char c) = true.
Proof. destruct c as [[] [] [] [] [] [] [] []]; vm_compute; reflexivity. Qed.

Lemma encodeURIComponent_safe (s : string) :
  all_chars uri_safe (Uri.encodeURIComponent s) = true.
Proof.
  induction s as [|c s IH]; [done|].
  simpl. by rewrite all_chars_app, encode_char_safe, IH.
Qed.

(** X17: the pad manager is asked to sanitize an id only when the id is
    valid and the URL does not end in a slash, and then once, with the id
    as it came; in the other case the answer is the 404 with its fixed
    text and no header, and no other case gives a 404. *)
Theorem sanitizer_behind_the_gate (w : PadUrl.PadWorld) (req_url padId : string) :
  let forbidden :=
    PadUrl.isValidPadId w padId = false ∨ Str.endsWithSlash req_url = true in
  (forbidden →
     PadUrl.param_pad w req_url padId
     = ([], PadUrl.Sent {| PadUrl.reply_status := 404;
                           PadUrl.reply_headers := ∅;
                           PadUrl.reply_body := "Such a padname is forbidden" |}))
  ∧ (¬ forbidden →
     fst (PadUrl.param_pad w req_url padId) = [padId]
     ∧ ∀ r, snd (PadUrl.param_pad w req_url padId) = PadUrl.Sent r →
         PadUrl.reply_status r = 302).
Proof.
  intros forbidden. subst forbidden. unfold PadUrl.param_pad. split.
  - intros [-> | ->]; [done|]. by rewrite orb_true_r.
  - intros Hok.
    destruct (PadUrl.isValidPadId w padId); [|by destruct Hok; left].
    destruct (Str.endsWithSlash req_url); [by destruct Hok; right|].
    simpl. destruct (PadUrl.sanitizePadId w padId) as [s|]; [|done].
    destruct (Str.eqb s padId); [done|].
    split; [done|]. by intros r [= <-].
Qed.

Lemma sanitizer_behind_the_gate_witness :
  PadUrl.param_pad PadUrl.sample_pads "/p/my pad/" "my pad"
  = ([], PadUrl.Sent {| PadUrl.reply_status := 404;
                        PadUrl.reply_headers := ∅;
                        PadUrl.reply_body := "Such a padname is forbidden" |})
  ∧ fst (PadUrl.param_pad PadUrl.sample_pads "/p/my pad" "my pad") = ["my pad"].
Proof.
  split.
  - apply (proj1 (sanitizer_behind_the_gate PadUrl.sample_pads "/p/my pad/" "my pad")).
    right. reflexivity.
  - apply (proj2 (sanitizer_behind_the_gate PadUrl.sample_pads "/p/my pad" "my pad")).
    intros [H | H]; discriminate H.
Defined.

(** X18: a redirect goes to the sanitized id, which differs from the id
    asked for, percent-encoded, followed by [?] and the query when the URL
    has a non-empty one.  The encoded id holds nothing but unreserved
    characters, percent signs and hexadecimal digits, so no slash, double
    quote or angle bracket of the id reaches the [Location] header or the
    link of the body. *)
Theorem redirect_target (w : PadUrl.PadWorld) (req_url padId : string)
    (r : PadUrl.Reply) :
  snd (PadUrl.param_pad w req_url padId) = PadUrl.Sent r →
  PadUrl.reply_status r ≠ 404 →
  ∃ sanitized suffix,
    PadUrl.sanitizePadId w padId = Some sanitized
    ∧ sanitized ≠ padId
    ∧ PadUrl.reply_status r = 302
    ∧ PadUrl.reply_headers r
      = {["Location" := Uri.encodeURIComponent sanitized +:+ suffix]}
    ∧ PadUrl.reply_body r
      = PadUrl.redirect_body (Uri.encodeURIComponent sanitized +:+ suffix)
    ∧ all_chars uri_safe (Uri.encodeURIComponent sanitized) = true
    ∧ match PadUrl.url_query w req_url with
      | Some (String c q) => suffix = "?" +:+ String c q
      | _ => suffix = ""
      end.
Proof.
  unfold PadUrl.param_pad. intros Hsent Hst.
  destruct (negb (PadUrl.isValidPadId w padId) || Str.endsWithSlash req_url)%bool.
  { injection Hsent as <-. by destruct Hst. }
  destruct (PadUrl.sanitizePadId w padId) as [s|]; [|done].
  destruct (Str.eqb s padId) eqn:Heq; [done|].
  injection Hsent as <-.
  assert (s ≠ padId) as Hne.
  { intros ->. by rewrite Str_eqb_refl in Heq. }
  destruct (PadUrl.url_query w req_url) as [[|c q]|] eqn:Hq; simpl.
  - exists s, "". rewrite app_empty_r.
    by rewrite encodeURIComponent_safe.
  - exists s, ("?" +:+ String c q). by rewrite encodeURIComponent_safe.
  - exists s, "". rewrite app_empty_r. by rewrite encodeURIComponent_safe.
Qed.

Lemma redirect_target_witness :
  ∃ suffix,
    snd (PadUrl.param_pad PadUrl.sample_pads "/p/my pad?lang=de" "my pad")
    = PadUrl.Sent
        {| PadUrl.reply_status := 302;
           PadUrl.reply_headers := {["Location" := "my_pad" +:+ suffix]};
           PadUrl.reply_body := PadUrl.redirect_body ("my_pad" +:+ suffix) |}
    ∧ suffix = "?lang=de".
Proof.
  destruct (redirect_target PadUrl.sample_pads "/p/my pad?lang=de" "my pad"
              {| PadUrl.reply_status := 302;
                 PadUrl.reply_headers := {["Location" := "my_pad?lang=de"]};
                 PadUrl.reply_body := PadUrl.redirect_body "my_pad?lang=de" |})
    as (s & suffix & Hs & _ & _ & _ & _ & _ & Hq).
  - vm_compute. reflexivity.
  - discriminate.
  - exists suffix. split; [|exact Hq].
    vm_compute in Hq. subst suffix. vm_compute. reflexivity.
Defined.

(** ** What reaches [next] *)

Lemma fs_outcome_statFile (env : Env) (filename : string) (limit : nat) :
  ends_in_fs_error_or_value (statFile env filename limit).
Proof.
  revert filename. induction limit as [|limit IH]; intros filename; [done|].
  cbn [statFile].
  destruct (Str.eqb filename "" || Str.eqb filename "/")%bool; [done|].
  destruct (Str.eqb filename "js/ace.js").
  { apply fs_outcome_bind; [apply fs_outcome_everything|done]. }
  destruct (Str.eqb filename "js/require-kernel.js"); [done|].
  unfold stat, of_fs. destruct (fs_stat env (ROOT_DIR env +:+ filename)) as [st|code].
  - done.
  - change (try_ ([EvStat (ROOT_DIR env +:+ filename)], Throw (FsError code)))
      with (@pair (list event) (outcome (Stats + exn))
              [EvStat (ROOT_DIR env +:+ filename)] (Val (inr (FsError code)))).
    rewrite bind_val. unfold ends_in_fs_error_or_value, result at 1. cbn [snd].
    case_bool_decide; [|done].
    apply fs_outcome_bind; [apply IH|]. by intros [date ex].
Qed.

Lemma fs_outcome_content (env : Env)
    (loopback : string → string → Headers → M (Z * Headers * string))
    (filename : string) (contentType : option string) :
  filename ≠ "js/ace.js" →
  ends_in_fs_error_or_value (getFileCompressed env loopback filename contentType).
Proof.
  intros Hace. unfold getFileCompressed. apply fs_outcome_bind.
  - unfold getFile. rewrite (Str_eqb_neq _ _ Hace).
    destruct (Str.eqb filename "js/require-kernel.js"); [done|].
    unfold readFile, of_fs.
    by destruct (fs_readFile env (ROOT_DIR env +:+ filename)).
  - intros c. destruct (negb (truthy c) || negb (settings_minify env))%bool; [done|].
    case_bool_decide.
    { destruct (compress_script_settles env filename contentType c)
        as (tr & c' & -> & _). done. }
    case_bool_decide; [|done].
    destruct (compress_style_settles env filename c) as (tr & c' & -> & _). done.
Qed.

Lemma end_resolves (c : option content) (res : Response) :
  is_Some (resolved (end_ c res)).
Proof. unfold end_. simpl. destruct (resolved (push_chunk c res)); by eexists. Qed.


